(** * Email scanner: classification, extraction, partner matching, routing

    A shallow embedding of [agents/email_scanner/src/scanner.py], of the
    data classes of [gmail_client.py] it reads, of
    [GmailClient.save_attachment] and the call of [GmailClient.fetch_emails],
    and of the sender filter of [run_scan.py].

    Modelling conventions.
    - Python [str] is [string]; the text is taken to be 7-bit ASCII, so
      [str.lower] and the [re.I] flag only fold the letters A-Z.
    - Python [float] scores are exact rationals ([Q]); a decimal literal
      denotes its decimal value and rounding is not modelled.  The two
      agree on the scenarios below; they can differ at a threshold, as for
      0.30 + 0.15 + 0.05, which is 1/2 here and 0.49999999999999994 in
      binary64.
    - [re] is modelled by a parser and a backtracking matcher for the part
      of the syntax the scanner's pattern tables use; the pattern tables are
      the source's pattern strings, compiled by that parser.
    - Exceptions and the effects of the mail collaborator, the file system
      and the clock go through a state and exception monad over an abstract
      world.  Logging is not modelled. *)

From Stdlib Require Import Bool Arith ZArith QArith Lia Lqa.
From Stdlib Require Import List String Ascii DecimalString.
Import ListNotations.

Set Implicit Arguments.

Close Scope Q_scope.
Open Scope string_scope.

(* ------------------------------------------------------------------ *)
(** ** Python string operations *)

Module Py.

Definition chars (s : string) : list ascii := list_ascii_of_string s.
Definition str (l : list ascii) : string := string_of_list_ascii l.

Definition is_upper (c : ascii) : bool :=
  let n := nat_of_ascii c in (65 <=? n)%nat && (n <=? 90)%nat.

Definition is_lower (c : ascii) : bool :=
  let n := nat_of_ascii c in (97 <=? n)%nat && (n <=? 122)%nat.

Definition is_digit (c : ascii) : bool :=
  let n := nat_of_ascii c in (48 <=? n)%nat && (n <=? 57)%nat.

Definition lower_char (c : ascii) : ascii :=
  if is_upper c then ascii_of_nat (nat_of_ascii c + 32) else c.

Definition upper_char (c : ascii) : ascii :=
  if is_lower c then ascii_of_nat (nat_of_ascii c - 32) else c.

(** [s.lower()] *)
Definition lower (s : string) : string := str (map lower_char (chars s)).

Fixpoint prefix_chars (p s : list ascii) : bool :=
  match p, s with
  | [], _ => true
  | a :: p', b :: s' => Ascii.eqb a b && prefix_chars p' s'
  | _ :: _, [] => false
  end.

(** [s.startswith(p)] *)
Definition startswith (s p : string) : bool := prefix_chars (chars p) (chars s).

(** [s.startswith((p1, p2, ...))] *)
Definition startswith_any (s : string) (ps : list string) : bool :=
  existsb (startswith s) ps.

(** [s.endswith(p)] *)
Definition endswith (s p : string) : bool :=
  prefix_chars (rev (chars p)) (rev (chars s)).

Fixpoint contains_chars (p s : list ascii) : bool :=
  prefix_chars p s ||
  match s with
  | [] => false
  | _ :: s' => contains_chars p s'
  end.

(** [p in s] on strings *)
Definition contains (p s : string) : bool := contains_chars (chars p) (chars s).

(** [x in l] on a list of strings *)
Definition mem (x : string) (l : list string) : bool := existsb (String.eqb x) l.

(** [s[n:]] and [s[:n]] for a non-negative literal [n] *)
Definition slice_from (n : nat) (s : string) : string := str (skipn n (chars s)).
Definition slice_to (n : nat) (s : string) : string := str (firstn n (chars s)).

Fixpoint lstrip_chars (c : ascii) (s : list ascii) : list ascii :=
  match s with
  | x :: s' => if Ascii.eqb x c then lstrip_chars c s' else s
  | [] => []
  end.

(** [s.lstrip(c)] for a one-character argument *)
Definition lstrip (c : ascii) (s : string) : string := str (lstrip_chars c (chars s)).

Fixpoint replace_chars (c : ascii) (by_ : list ascii) (s : list ascii) : list ascii :=
  match s with
  | [] => []
  | x :: s' => (if Ascii.eqb x c then by_ else [x]) ++ replace_chars c by_ s'
  end.

(** [s.replace(c, by)] for a one-character [c] *)
Definition replace (c : ascii) (by_ : string) (s : string) : string :=
  str (replace_chars c (chars by_) (chars s)).

(** [l.append(x)] and [l.extend(l')], as new lists *)
Definition append {A : Type} (l : list A) (x : A) : list A := (l ++ [x])%list.
Definition extend {A : Type} (l l' : list A) : list A := (l ++ l')%list.

(** [str(n)] for a non-negative int *)
Definition str_of_nat (n : nat) : string := NilEmpty.string_of_uint (Nat.to_uint n).

(** Truthiness of a [str] and of an [Optional[str]] *)
Definition truthy (s : string) : bool := negb (String.eqb s "").

Definition truthy_opt (o : option string) : bool :=
  match o with
  | Some s => truthy s
  | None => false
  end.

(** [a or b or ""] on [Optional[str]] operands *)
Definition or_str (a b : option string) : string :=
  if truthy_opt a then match a with Some s => s | None => "" end
  else if truthy_opt b then match b with Some s => s | None => "" end
  else "".

(** [min(a, b)] and [max(a, b)]: the first argument wins unless the second
    is strictly smaller (resp. larger). *)
Definition Qltb (a b : Q) : bool := negb (Qle_bool b a).
Definition min (a b : Q) : Q := if Qltb b a then b else a.
Definition max (a b : Q) : Q := if Qltb a b then b else a.

(** ** [pathlib]: [Path(s).name] and [Path(s).suffix] *)

Fixpoint split_on (c : ascii) (s : list ascii) (cur : list ascii) : list (list ascii) :=
  match s with
  | [] => [rev cur]
  | x :: s' => if Ascii.eqb x c then rev cur :: split_on c s' [] else split_on c s' (x :: cur)
  end.

Definition is_real_part (p : list ascii) : bool :=
  match p with
  | [] => false
  | ["."%char] => false
  | _ => true
  end.

(** The final path component; empty and [.] components are dropped when the
    path is parsed. *)
Definition path_name (s : string) : list ascii :=
  last (filter is_real_part (split_on "/"%char (chars s) [])) [].

Fixpoint rfind_dot (s : list ascii) (i : nat) (found : option nat) : option nat :=
  match s with
  | [] => found
  | x :: s' => rfind_dot s' (S i) (if Ascii.eqb x "."%char then Some i else found)
  end.

(** [name[i:]] for the last dot [i] when [0 < i < len(name) - 1], else [''] *)
Definition path_suffix (s : string) : string :=
  let name := path_name s in
  match rfind_dot name 0 None with
  | Some i => if (0 <? i)%nat && (i <? List.length name - 1)%nat then str (skipn i name) else ""
  | None => ""
  end.

End Py.

(* ------------------------------------------------------------------ *)
(** ** The [re] module, for the syntax the pattern tables use

    Every pattern of the scanner is compiled or searched with [re.I], so
    matching is case-insensitive throughout. *)

Module Re.

Inductive citem : Type :=
| CRange (lo hi : ascii)
| CDigit
| CSpace
| CWord.

Inductive regex : Type :=
| Eps
| Chr (c : ascii)
| AnyChar
| Cls (neg : bool) (items : list citem)
| Bol
| Eol
| WordB
| Seq (a b : regex)
| Alt (a b : regex)
| Star (a : regex)
| Plus (a : regex)
| Opt (a : regex)
| Rep (n : nat) (a : regex).

(** *** Character tests *)

Definition is_space (c : ascii) : bool :=
  let n := nat_of_ascii c in
  ((9 <=? n)%nat && (n <=? 13)%nat) || ((28 <=? n)%nat && (n <=? 32)%nat).

Definition is_word (c : ascii) : bool :=
  Py.is_upper c || Py.is_lower c || Py.is_digit c || Ascii.eqb c "_"%char.

Definition swapcase (c : ascii) : ascii :=
  if Py.is_upper c then Py.lower_char c else Py.upper_char c.

Definition eq_ci (a b : ascii) : bool := Ascii.eqb (Py.lower_char a) (Py.lower_char b).

Definition item_has (it : citem) (c : ascii) : bool :=
  match it with
  | CRange lo hi => (nat_of_ascii lo <=? nat_of_ascii c)%nat && (nat_of_ascii c <=? nat_of_ascii hi)%nat
  | CDigit => Py.is_digit c
  | CSpace => is_space c
  | CWord => is_word c
  end.

Definition class_has (neg : bool) (items : list citem) (c : ascii) : bool :=
  xorb neg (existsb (fun it => item_has it c || item_has it (swapcase c)) items).

Definition newline : ascii := ascii_of_nat 10.

(** *** Parsing a pattern string *)

Definition is_quant_char (c : ascii) : bool :=
  Ascii.eqb c "*"%char || Ascii.eqb c "+"%char || Ascii.eqb c "?"%char || Ascii.eqb c "{"%char.

Definition no_quant_next (s : list ascii) : bool :=
  match s with
  | c :: _ => negb (is_quant_char c)
  | [] => true
  end.

Definition escape_item (x : ascii) : option citem :=
  if Ascii.eqb x "d"%char then Some CDigit
  else if Ascii.eqb x "s"%char then Some CSpace
  else if Ascii.eqb x "w"%char then Some CWord
  else if is_word x then None
  else Some (CRange x x).

Fixpoint parse_class (first : bool) (s : list ascii) : option (list citem * list ascii) :=
  match s with
  | [] => None
  | c :: rest =>
      if Ascii.eqb c "]"%char && negb first then Some ([], rest)
      else if Ascii.eqb c "\"%char then
        match rest with
        | x :: rest' =>
            match escape_item x, parse_class false rest' with
            | Some it, Some (its, out) => Some (it :: its, out)
            | _, _ => None
            end
        | [] => None
        end
      else
        match rest with
        | d :: hi :: rest' =>
            if Ascii.eqb d "-"%char && negb (Ascii.eqb hi "]"%char) then
              if Ascii.eqb hi "\"%char || (nat_of_ascii hi <? nat_of_ascii c)%nat then None
              else
                match parse_class false rest' with
                | Some (its, out) => Some (CRange c hi :: its, out)
                | None => None
                end
            else
              match parse_class false rest with
              | Some (its, out) => Some (CRange c c :: its, out)
              | None => None
              end
        | _ =>
            match parse_class false rest with
            | Some (its, out) => Some (CRange c c :: its, out)
            | None => None
            end
        end
  end.

Fixpoint parse_count (s : list ascii) (acc : option nat) : option (nat * list ascii) :=
  match s with
  | [] => None
  | c :: rest =>
      if Py.is_digit c then
        parse_count rest (Some (10 * match acc with Some n => n | None => 0 end + (nat_of_ascii c - 48)))
      else if Ascii.eqb c "}"%char then
        match acc with
        | Some n => Some (n, rest)
        | None => None
        end
      else None
  end.

Definition parse_quant (a : regex) (s : list ascii) : option (regex * list ascii) :=
  match s with
  | c :: rest =>
      if Ascii.eqb c "*"%char then if no_quant_next rest then Some (Star a, rest) else None
      else if Ascii.eqb c "+"%char then if no_quant_next rest then Some (Plus a, rest) else None
      else if Ascii.eqb c "?"%char then if no_quant_next rest then Some (Opt a, rest) else None
      else if Ascii.eqb c "{"%char then
        match parse_count rest None with
        | Some (n, rest') => if no_quant_next rest' then Some (Rep n a, rest') else None
        | None => None
        end
      else Some (a, s)
  | [] => Some (a, s)
  end.

Definition seq_ (a b : regex) : regex :=
  match b with
  | Eps => a
  | _ => Seq a b
  end.

Definition parse_escape (x : ascii) : option regex :=
  if Ascii.eqb x "b"%char then Some WordB
  else if Ascii.eqb x "d"%char then Some (Cls false [CDigit])
  else if Ascii.eqb x "s"%char then Some (Cls false [CSpace])
  else if Ascii.eqb x "w"%char then Some (Cls false [CWord])
  else if is_word x then None
  else Some (Chr x).

Fixpoint parse_alt (fuel : nat) (s : list ascii) {struct fuel} : option (regex * list ascii) :=
  match fuel with
  | O => None
  | S f =>
      match parse_seq f s with
      | Some (a, c :: s') =>
          if Ascii.eqb c "|"%char then
            match parse_alt f s' with
            | Some (b, s'') => Some (Alt a b, s'')
            | None => None
            end
          else Some (a, c :: s')
      | r => r
      end
  end
with parse_seq (fuel : nat) (s : list ascii) {struct fuel} : option (regex * list ascii) :=
  match fuel with
  | O => None
  | S f =>
      match s with
      | [] => Some (Eps, [])
      | c :: _ =>
          if Ascii.eqb c "|"%char || Ascii.eqb c ")"%char then Some (Eps, s)
          else
            match parse_atom f s with
            | Some (a, s1) =>
                match parse_quant a s1 with
                | Some (q, s2) =>
                    match parse_seq f s2 with
                    | Some (r, s3) => Some (seq_ q r, s3)
                    | None => None
                    end
                | None => None
                end
            | None => None
            end
      end
  end
with parse_atom (fuel : nat) (s : list ascii) {struct fuel} : option (regex * list ascii) :=
  match fuel with
  | O => None
  | S f =>
      match s with
      | [] => None
      | c :: rest =>
          if Ascii.eqb c "("%char then
            let body :=
              match rest with
              | q :: rest' =>
                  if Ascii.eqb q "?"%char then
                    match rest' with
                    | k :: rest'' => if Ascii.eqb k ":"%char then Some rest'' else None
                    | [] => None
                    end
                  else Some rest
              | [] => None
              end in
            match body with
            | Some inner =>
                match parse_alt f inner with
                | Some (r, k :: out) => if Ascii.eqb k ")"%char then Some (r, out) else None
                | _ => None
                end
            | None => None
            end
          else if Ascii.eqb c "["%char then
            match rest with
            | k :: rest' =>
                if Ascii.eqb k "^"%char then
                  match parse_class true rest' with
                  | Some (its, out) => Some (Cls true its, out)
                  | None => None
                  end
                else
                  match parse_class true rest with
                  | Some (its, out) => Some (Cls false its, out)
                  | None => None
                  end
            | [] => None
            end
          else if Ascii.eqb c "\"%char then
            match rest with
            | x :: out =>
                match parse_escape x with
                | Some r => Some (r, out)
                | None => None
                end
            | [] => None
            end
          else if Ascii.eqb c "."%char then Some (AnyChar, rest)
          else if Ascii.eqb c "^"%char then Some (Bol, rest)
          else if Ascii.eqb c "$"%char then Some (Eol, rest)
          else if is_quant_char c || Ascii.eqb c ")"%char || Ascii.eqb c "|"%char then None
          else Some (Chr c, rest)
      end
  end.

(** A compiled pattern keeps its source, as [Pattern.pattern] does. *)
Record Pattern : Type := mkPattern { pattern : string; prog : regex }.

(** [re.compile(src, re.I)]; [None] stands for [re.error] and for syntax
    outside the modelled part. *)
Definition compile (src : string) : option Pattern :=
  match parse_alt (4 * String.length src + 4) (Py.chars src) with
  | Some (r, []) => Some (mkPattern src r)
  | _ => None
  end.

(** *** Matching *)

(** A position: the character just before it, and the text after it. *)
Definition pos : Type := (option ascii * list ascii)%type.

Definition word_before (p : pos) : bool :=
  match fst p with
  | Some c => is_word c
  | None => false
  end.

Definition word_after (p : pos) : bool :=
  match snd p with
  | c :: _ => is_word c
  | [] => false
  end.

Definition eat (ok : ascii -> bool) (p : pos) : list pos :=
  match snd p with
  | x :: t => if ok x then [(Some x, t)] else []
  | [] => []
  end.

Definition guard (b : bool) (p : pos) : list pos := if b then [p] else [].

Fixpoint star_from (step : pos -> list pos) (fuel : nat) (p : pos) : list pos :=
  match fuel with
  | O => [p]
  | S k =>
      flat_map (fun q => if (List.length (snd q) <? List.length (snd p))%nat
                         then star_from step k q else [])
               (step p) ++ [p]
  end.

Fixpoint rep_from (step : pos -> list pos) (n : nat) (p : pos) : list pos :=
  match n with
  | O => [p]
  | S k => flat_map (rep_from step k) (step p)
  end.

(** The positions at which a match of [r] starting at [p] can end, in the
    order a backtracking matcher tries them (greedy repetition, left
    alternative first). *)
Fixpoint run (r : regex) (p : pos) : list pos :=
  match r with
  | Eps => [p]
  | Chr c => eat (eq_ci c) p
  | AnyChar => eat (fun x => negb (Ascii.eqb x newline)) p
  | Cls neg items => eat (class_has neg items) p
  | Bol => guard (match fst p with None => true | Some _ => false end) p
  | Eol => guard (match snd p with
                  | [] => true
                  | [c] => Ascii.eqb c newline
                  | _ => false
                  end) p
  | WordB => guard (xorb (word_before p) (word_after p)) p
  | Seq a b => flat_map (run b) (run a p)
  | Alt a b => run a p ++ run b p
  | Star a => star_from (run a) (S (List.length (snd p))) p
  | Plus a => flat_map (star_from (run a) (S (List.length (snd p)))) (run a p)
  | Opt a => run a p ++ [p]
  | Rep n a => rep_from (run a) n p
  end.

(** [re.search]: the leftmost start with a match; the result is the start
    index and the matched text, [m.start()] and [m.group(0)]. *)
Fixpoint search_from (r : regex) (prev : option ascii) (s : list ascii) (i : nat)
  : option (nat * string) :=
  match run r (prev, s) with
  | q :: _ => Some (i, Py.str (firstn (List.length s - List.length (snd q)) s))
  | [] =>
      match s with
      | [] => None
      | x :: t => search_from r (Some x) t (S i)
      end
  end.

Definition search (p : Pattern) (s : string) : option (nat * string) :=
  search_from (prog p) None (Py.chars s) 0.

(** Truthiness of [p.search(s)] *)
Definition found (p : Pattern) (s : string) : bool :=
  match search p s with
  | Some _ => true
  | None => false
  end.

End Re.

(* ------------------------------------------------------------------ *)
(** ** Data model ([gmail_client.py], [scanner.py]) *)

Record EmailAttachment : Type := mkEmailAttachment {
  att_filename : string;
  att_mime_type : string;
  att_size : Z;
  attachment_id : string;
  att_data : option string
}.

(** [date] holds the message's datetime as its [isoformat()] text, the only
    way the scanner reads it. *)
Record EmailMessage : Type := mkEmailMessage {
  message_id : string;
  thread_id : string;
  from_address : string;
  to_addresses : list string;
  subject : string;
  date : string;
  body_text : option string;
  body_html : option string;
  attachments : list EmailAttachment;
  labels : list string;
  snippet : string;
  headers : list (string * string);
  permalink : string
}.

Inductive Classification : Type :=
| DATA_HIGH_CONFIDENCE
| DATA_MEDIUM_CONFIDENCE
| UNCERTAIN
| NOT_DATA.

Definition Classification_eqb (a b : Classification) : bool :=
  match a, b with
  | DATA_HIGH_CONFIDENCE, DATA_HIGH_CONFIDENCE => true
  | DATA_MEDIUM_CONFIDENCE, DATA_MEDIUM_CONFIDENCE => true
  | UNCERTAIN, UNCERTAIN => true
  | NOT_DATA, NOT_DATA => true
  | _, _ => false
  end.

Record ClassificationResult : Type := mkClassificationResult {
  classification : Classification;
  score : Q;
  factors : list string;
  matched_patterns : list string
}.

Record ExtractedAsset : Type := mkExtractedAsset {
  asset_type : string;
  source_email_id : string;
  filename : option string;
  file_path : option string;
  url : option string;
  link_type : option string;
  mime_type : option string;
  size_bytes : option Z;
  row_count : option Z;
  columns : option (list string);
  extraction_confidence : Q;
  error : option string
}.

Record PartnerPattern : Type := mkPartnerPattern {
  partner_name : string;
  sender_patterns : list string;
  subject_patterns : list string;
  expected_format : option string;
  expected_columns : option (list string);
  column_aliases : list (string * string);
  auto_process : bool;
  confidence_threshold : Q
}.

Record ScanResult : Type := mkScanResult {
  email : EmailMessage;
  sr_classification : ClassificationResult;
  extracted_assets : list ExtractedAsset;
  matched_partner : option string;
  pattern_match_confidence : Q;
  route_action : string
}.

(** Lookup in a dict given as its items in insertion order. *)
Definition dict_get {V : Type} (k : string) (d : list (string * V)) : option V :=
  match find (fun kv => String.eqb (fst kv) k) d with
  | Some kv => Some (snd kv)
  | None => None
  end.

Fixpoint compile_all (srcs : list string) : option (list Re.Pattern) :=
  match srcs with
  | [] => Some []
  | s :: rest =>
      match Re.compile s, compile_all rest with
      | Some p, Some ps => Some (p :: ps)
      | _, _ => None
      end
  end.

Definition force {A : Type} (o : option (list A)) : list A :=
  match o with
  | Some l => l
  | None => []
  end.

(* ------------------------------------------------------------------ *)
(** ** [EmailClassifier] *)

Module EmailClassifier.

Local Open Scope Q_scope.

Definition HIGH_CONF_SUBJECT_PATTERNS : list string := [
  "\b(weekly|daily|monthly|quarterly)\s+(report|data|metrics|analytics)\b";
  "\bperformance\s+(report|data|export|metrics)\b";
  "\b(Q[1-4]|\d{4})\s+(results|report|data)\b";
  "\bmedia\s+(plan|report|data|metrics)\b";
  "\b(campaign|placement|partner)\s+report\b"
].

Definition MEDIUM_CONF_SUBJECT_PATTERNS : list string := [
  "\b(attached|export|summary|numbers|results)\b";
  "\b(jan|feb|mar|apr|may|jun|jul|aug|sep|oct|nov|dec)\s+\d{4}\b";
  "\bweek\s*(of|ending)?\s*\d"
].

Definition SKIP_SUBJECT_PATTERNS : list string := [
  "^(re:|fwd:|fw:)\s*re:";
  "\bout\s+of\s+office\b";
  "\bautomatic\s+reply\b";
  "\bunsubscribe\b";
  "\bcalendar\b";
  "\bmeeting\s+(invite|invitation)\b";
  "\b(invoice|payment|billing)\b"
].

Definition DELIVERY_PHRASES : list string := [
  "please find attached";
  "attached please find";
  "attached is the";
  "here is the data";
  "here is the report";
  "here are the numbers";
  "as requested";
  "for your review";
  "latest numbers";
  "updated report";
  "this week's data";
  "this month's report"
].

Definition METRIC_PATTERNS : list string := [
  "\b(impressions?|imps?)\b";
  "\b(clicks?|click-through)\b";
  "\b(spend|cost|budget)\b";
  "\b(conversions?|converts?)\b";
  "\b(views?|video\s*views?)\b";
  "\b(CPM|CPC|CPA|CPV|CPCV)\b";
  "\b(CTR|VTR|CVR)\b"
].

Definition DATA_EXTENSIONS : list (string * Q) := [
  (".csv", 0.30);
  (".xlsx", 0.30);
  (".xls", 0.30);
  (".tsv", 0.30);
  (".json", 0.20);
  (".xml", 0.20)
].

Definition LINK_PATTERNS : list (string * string) := [
  ("google_sheets", "docs\.google\.com/spreadsheets/d/([a-zA-Z0-9_-]+)");
  ("dropbox", "(dropbox\.com/s/[a-zA-Z0-9]+|dl\.dropboxusercontent\.com)");
  ("box", "(box\.com/s/[a-zA-Z0-9]+|app\.box\.com/s/[a-zA-Z0-9]+)");
  ("onedrive", "(1drv\.ms/|onedrive\.live\.com)");
  ("s3_presigned", "s3[.-][a-z0-9-]+\.amazonaws\.com.*X-Amz-Signature")
].

(** [__init__]: the tables compiled with [re.I]. *)
Definition _high_subj : list Re.Pattern := force (compile_all HIGH_CONF_SUBJECT_PATTERNS).
Definition _med_subj : list Re.Pattern := force (compile_all MEDIUM_CONF_SUBJECT_PATTERNS).
Definition _skip_subj : list Re.Pattern := force (compile_all SKIP_SUBJECT_PATTERNS).
Definition _metric : list Re.Pattern := force (compile_all METRIC_PATTERNS).
Definition _links : list (string * Re.Pattern) :=
  combine (map fst LINK_PATTERNS) (force (compile_all (map snd LINK_PATTERNS))).

Definition _analyze_subject (subject : string) : Q * list string :=
  let score := 0.0 in
  let factors := [] in
  let '(score, factors) :=
    match find (fun p => Re.found p subject) _high_subj with
    | Some p => (score + 0.30, Py.append factors ("subject_high_match:" ++ Py.slice_to 30 (Re.pattern p)))
    | None => (score, factors)
    end in
  let '(score, factors) :=
    match find (fun p => Re.found p subject) _med_subj with
    | Some p => (score + 0.15, Py.append factors ("subject_med_match:" ++ Py.slice_to 30 (Re.pattern p)))
    | None => (score, factors)
    end in
  (score, factors).

Definition _analyze_body (body : string) : Q * list string :=
  let score := 0.0 in
  let factors := [] in
  let body_lower := Py.lower body in
  let '(score, factors) :=
    match find (fun phrase => Py.contains phrase body_lower) DELIVERY_PHRASES with
    | Some phrase => (score + 0.20, Py.append factors ("body_delivery_phrase:" ++ Py.slice_to 20 phrase))
    | None => (score, factors)
    end in
  let metric_count := List.length (filter (fun p => Re.found p body) _metric) in
  let '(score, factors) :=
    if (0 <? metric_count)%nat
    then (score + Py.min 0.15 (inject_Z (Z.of_nat metric_count) * 0.05),
          Py.append factors ("body_metrics_mentioned:" ++ Py.str_of_nat metric_count))
    else (score, factors) in
  (score, factors).

Definition data_weight (att : EmailAttachment) : option Q :=
  dict_get (Py.lower (Py.path_suffix (att_filename att))) DATA_EXTENSIONS.

Definition is_data_file (att : EmailAttachment) : bool :=
  match data_weight att with
  | Some _ => true
  | None => false
  end.

Definition _analyze_attachments (atts : list EmailAttachment) : Q * list string :=
  let score := 0.0 in
  let factors := [] in
  match find is_data_file atts with
  | Some att =>
      (score + match data_weight att with Some w => w | None => 0.0 end,
       Py.append factors ("attachment_data_file:" ++ att_filename att))
  | None => (score, factors)
  end.

Definition _analyze_links (body : string) : Q * list string :=
  let score := 0.0 in
  let factors := [] in
  match find (fun kv => Re.found (snd kv) body) _links with
  | Some kv => (score + 0.20, Py.append factors ("link_detected:" ++ fst kv))
  | None => (score, factors)
  end.

Definition bucket (score : Q) : Classification :=
  if Qle_bool 0.7 score then DATA_HIGH_CONFIDENCE
  else if Qle_bool 0.5 score then DATA_MEDIUM_CONFIDENCE
  else if Qle_bool 0.3 score then UNCERTAIN
  else NOT_DATA.

Definition classify (email : EmailMessage) : ClassificationResult :=
  let score := 0.0 in
  let factors := [] in
  if existsb (fun p => Re.found p (subject email)) _skip_subj then
    mkClassificationResult NOT_DATA 0.0 ["skip_pattern_matched"] []
  else
    let '(subj_score, subj_factors) := _analyze_subject (subject email) in
    let score := score + subj_score in
    let factors := Py.extend factors subj_factors in
    let body := Py.or_str (body_text email) (body_html email) in
    let '(body_score, body_factors) := _analyze_body body in
    let score := score + body_score in
    let factors := Py.extend factors body_factors in
    let '(att_score, att_factors) := _analyze_attachments (attachments email) in
    let score := score + att_score in
    let factors := Py.extend factors att_factors in
    let '(link_score, link_factors) := _analyze_links body in
    let score := score + link_score in
    let factors := Py.extend factors link_factors in
    let '(score, factors) :=
      if Py.startswith_any (Py.lower (subject email)) ["re:"; "fwd:"; "fw:"]
      then (score - 0.10, Py.append factors "reply_forward_penalty")
      else (score, factors) in
    let score := Py.max 0.0 (Py.min 1.0 score) in
    mkClassificationResult (bucket score) score factors [].

End EmailClassifier.

(* ------------------------------------------------------------------ *)
(** ** [PatternMatcher] *)

Module PatternMatcher.

Local Open Scope Q_scope.

Definition compiled : Type := (PartnerPattern * list Re.Pattern * list Re.Pattern)%type.

Record t : Type := mk {
  patterns : list PartnerPattern;
  _compiled_patterns : list compiled
}.

(** Glob-style sender pattern to regex text. *)
Definition sender_regex (sender_pattern : string) : string :=
  Py.replace "?" "." (Py.replace "*" ".*" sender_pattern).

Fixpoint compile_patterns (ps : list PartnerPattern) : option (list compiled) :=
  match ps with
  | [] => Some []
  | p :: rest =>
      match compile_all (map sender_regex (sender_patterns p)),
            compile_all (subject_patterns p),
            compile_patterns rest with
      | Some compiled_senders, Some compiled_subjects, Some cs =>
          Some ((p, compiled_senders, compiled_subjects) :: cs)
      | _, _, _ => None
      end
  end.

(** [__init__]; [None] when a pattern does not compile. *)
Definition init (ps : list PartnerPattern) : option t :=
  match compile_patterns ps with
  | Some cs => Some (mk ps cs)
  | None => None
  end.

Definition truthy_list {A : Type} (o : option (list A)) : bool :=
  match o with
  | Some (_ :: _) => true
  | _ => false
  end.

Definition format_matches (expected_format : string) (asset : ExtractedAsset) : bool :=
  match filename asset with
  | Some name =>
      Py.truthy name &&
      String.eqb (Py.lstrip "." (Py.lower (Py.path_suffix name)))
                 (Py.lstrip "." (Py.lower expected_format))
  | None => false
  end.

(** [sum(1 for col in expected if col.lower() in [c.lower() for c in cols])] *)
Definition matched_cols (expected cols : list string) : nat :=
  List.length (filter (fun col => Py.mem (Py.lower col) (map Py.lower cols)) expected).

(** The body of the loop over the catalog: one entry's score and factors. *)
Definition entry_score (c : compiled) (email : EmailMessage)
    (extracted_assets : list ExtractedAsset) : Q * list string :=
  let '(pattern, sender_regexes, subject_regexes) := c in
  let score := 0.0 in
  let factors := [] in
  let '(score, factors) :=
    if existsb (fun regex => Re.found regex (from_address email)) sender_regexes
    then (score + 0.30, Py.append factors "sender_match")
    else (score, factors) in
  let '(score, factors) :=
    if existsb (fun regex => Re.found regex (subject email)) subject_regexes
    then (score + 0.20, Py.append factors "subject_pattern_match")
    else (score, factors) in
  let '(score, factors) :=
    match expected_format pattern with
    | Some fmt =>
        if Py.truthy fmt && existsb (format_matches fmt) extracted_assets
        then (score + 0.20, Py.append factors "format_match")
        else (score, factors)
    | None => (score, factors)
    end in
  let '(score, factors) :=
    match expected_columns pattern with
    | Some ((_ :: _) as expected) =>
        match find (fun asset => truthy_list (columns asset)) extracted_assets with
        | Some asset =>
            let n := matched_cols expected (force (columns asset)) in
            let col_score :=
              0.30 * (inject_Z (Z.of_nat n) / inject_Z (Z.of_nat (List.length expected))) in
            (score + col_score,
             Py.append factors ("column_match_" ++ Py.str_of_nat n ++ "_of_"
                                ++ Py.str_of_nat (List.length expected)))
        | None => (score, factors)
        end
    | _ => (score, factors)
    end in
  (score, factors).

Definition best : Type := (option string * Q * list string)%type.

(** One iteration: the entry replaces the best so far only when its score
    is strictly greater. *)
Definition step (email : EmailMessage) (extracted_assets : list ExtractedAsset)
    (b : best) (c : compiled) : best :=
  let '(best_match, best_score, best_factors) := b in
  let '(score, factors) := entry_score c email extracted_assets in
  if Py.Qltb best_score score
  then (Some (partner_name (fst (fst c))), score, factors)
  else (best_match, best_score, best_factors).

Definition match_ (self : t) (email : EmailMessage)
    (extracted_assets : list ExtractedAsset) : best :=
  fold_left (step email extracted_assets) (_compiled_patterns self) (None, 0.0, []).

End PatternMatcher.

(* ------------------------------------------------------------------ *)
(** ** Effects: state and exceptions

    A computation runs on a state and either returns a value or raises; an
    exception carries [str(e)].  State changes made before a raise stay, as
    mutations of Python objects do.  Only exceptions derived from
    [Exception] are modelled. *)

Module Eff.

Inductive result (A : Type) : Type :=
| Return (a : A)
| Raise (e : string).

Arguments Return {A} a.
Arguments Raise {A} e.

Definition M (S A : Type) : Type := S -> result A * S.

Definition ret {S A : Type} (a : A) : M S A := fun s => (Return a, s).

Definition raise {S A : Type} (e : string) : M S A := fun s => (Raise e, s).

Definition bind {S A B : Type} (m : M S A) (k : A -> M S B) : M S B :=
  fun s =>
    match m s with
    | (Return a, s') => k a s'
    | (Raise e, s') => (Raise e, s')
    end.

(** [try: m  except Exception as e: h(str(e))] *)
Definition try_except {S A : Type} (m : M S A) (h : string -> M S A) : M S A :=
  fun s =>
    match m s with
    | (Return a, s') => (Return a, s')
    | (Raise e, s') => h e s'
    end.

Definition modify {S : Type} (f : S -> S) : M S unit := fun s => (Return tt, f s).

(** Run a computation on the second component of a pair of states. *)
Definition on_snd {R S A : Type} (m : M S A) : M (R * S) A :=
  fun rs =>
    match m (snd rs) with
    | (o, s') => (o, (fst rs, s'))
    end.

(** Change the first component of a pair of states. *)
Definition on_fst {R S : Type} (f : R -> R) : M (R * S) unit :=
  modify (fun rs => (f (fst rs), snd rs)).

End Eff.

Declare Scope eff_scope.
Delimit Scope eff_scope with eff.
Notation "x <- m ;; k" := (Eff.bind m (fun x => k))
  (at level 61, m at next level, right associativity) : eff_scope.
Notation "m ;;; k" := (Eff.bind m (fun _ => k))
  (at level 61, right associativity) : eff_scope.

(* ------------------------------------------------------------------ *)
(** ** Output projections of a run *)

Record EmailMetadata : Type := mkEmailMetadata {
  md_message_id : string;
  md_from : string;
  md_subject : string;
  md_received_date : string
}.

Record RawSource : Type := mkRawSource {
  source_system : string;
  source_location : string;
  rs_partner_name : option string;
  received_at : string;
  payload_type : string;
  payload_path : string;
  email_metadata : EmailMetadata
}.

Record AutoProcessPayload : Type := mkAutoProcessPayload {
  payload_id : string;
  ap_partner_name : option string;
  ap_pattern_match_confidence : Q;
  raw_sources : list RawSource
}.

Record EmailSummary : Type := mkEmailSummary {
  es_message_id : string;
  es_from : string;
  es_subject : string;
  es_date : string;
  es_snippet : string
}.

Record AssetSummary : Type := mkAssetSummary {
  as_type : string;
  as_filename : option string;
  as_url : option string;
  as_columns : option (list string);
  as_error : option string
}.

Record ReviewItem : Type := mkReviewItem {
  review_id : string;
  email_summary : EmailSummary;
  classification_score : Q;
  classification_factors : list string;
  ri_extracted_assets : list AssetSummary;
  suggested_partner : option string;
  ri_pattern_match_confidence : Q
}.

(** The [results] dict of [scan]; an error entry is
    [{"email_id": ..., "error": ...}]. *)
Record RunResults : Type := mkRunResults {
  run_id : string;
  started_at : string;
  emails_scanned : nat;
  emails_classified_as_data : nat;
  auto_processed : list AutoProcessPayload;
  review_queue : list ReviewItem;
  errors : list (string * string);
  completed_at : option string
}.

Definition incr_scanned (r : RunResults) : RunResults :=
  mkRunResults (run_id r) (started_at r) (emails_scanned r + 1) (emails_classified_as_data r)
    (auto_processed r) (review_queue r) (errors r) (completed_at r).

Definition incr_classified_as_data (r : RunResults) : RunResults :=
  mkRunResults (run_id r) (started_at r) (emails_scanned r) (emails_classified_as_data r + 1)
    (auto_processed r) (review_queue r) (errors r) (completed_at r).

Definition append_auto_processed (x : AutoProcessPayload) (r : RunResults) : RunResults :=
  mkRunResults (run_id r) (started_at r) (emails_scanned r) (emails_classified_as_data r)
    (Py.append (auto_processed r) x) (review_queue r) (errors r) (completed_at r).

Definition append_review_queue (x : ReviewItem) (r : RunResults) : RunResults :=
  mkRunResults (run_id r) (started_at r) (emails_scanned r) (emails_classified_as_data r)
    (auto_processed r) (Py.append (review_queue r) x) (errors r) (completed_at r).

Definition append_errors (x : string * string) (r : RunResults) : RunResults :=
  mkRunResults (run_id r) (started_at r) (emails_scanned r) (emails_classified_as_data r)
    (auto_processed r) (review_queue r) (Py.append (errors r) x) (completed_at r).

Definition set_completed_at (x : string) (r : RunResults) : RunResults :=
  mkRunResults (run_id r) (started_at r) (emails_scanned r) (emails_classified_as_data r)
    (auto_processed r) (review_queue r) (errors r) (Some x).

(* ------------------------------------------------------------------ *)
(** ** [EmailScanner] *)

Module EmailScanner.

Import Eff.
Local Open Scope eff_scope.

(** What the scanner asks of its surroundings: the mail collaborator, the
    file system and the clock.  [fetch_emails] receives the [since],
    [query], [max_results] and [labels] arguments as [scan] passes them and
    stands for the whole message stream ([GmailClient.fetch_emails] of
    [gmail_client.py] declares no [labels] parameter; the collaborator is
    taken as the scanner calls it); [save_attachment] downloads an
    attachment and returns the path of the saved file; the three readers
    return the first row or the keys of a saved file. *)
Record Env (World : Type) : Type := mkEnv {
  fetch_emails : option string -> option string -> nat -> option (list string)
                 -> M World (list EmailMessage);
  save_attachment : string -> EmailAttachment -> string -> M World string;
  path_exists : string -> M World bool;
  csv_first_row : string -> M World (option (list string));
  xlsx_first_row : string -> M World (list string);
  json_keys : string -> M World (option (list string));
  now_strftime : M World string;
  now_isoformat : M World string
}.

Record t : Type := mk {
  matcher : PatternMatcher.t;
  patterns : list PartnerPattern;
  extraction_dir : string;
  blocklist_senders : list string;
  blocklist_domains : list string
}.

(** [__init__], without the creation of the extraction directory. *)
Definition init (patterns : list PartnerPattern) (extraction_dir : string)
    (blocklist_senders blocklist_domains : list string) : option t :=
  match PatternMatcher.init patterns with
  | Some m =>
      Some (mk m patterns extraction_dir
               (map Py.lower blocklist_senders) (map Py.lower blocklist_domains))
  | None => None
  end.

Definition sender_blocked (from_addr blocked : string) : bool :=
  if Py.startswith blocked "*@"
  then Py.endswith from_addr (Py.slice_from 1 blocked)
  else Py.contains blocked from_addr.

Definition domain_blocked (from_addr domain : string) : bool :=
  Py.contains ("@" ++ domain) from_addr.

Definition is_blocklisted (self : t) (email : EmailMessage) : bool :=
  let from_addr := Py.lower (from_address email) in
  existsb (sender_blocked from_addr) (blocklist_senders self)
  || existsb (domain_blocked from_addr) (blocklist_domains self).

Definition attachment_asset (email : EmailMessage) (att : EmailAttachment)
    (file_path : string) (columns : option (list string)) : ExtractedAsset :=
  mkExtractedAsset "attachment" (message_id email) (Some (att_filename att)) (Some file_path)
    None None (Some (att_mime_type att)) (Some (att_size att)) None columns 1.0%Q None.

Definition failed_asset (email : EmailMessage) (att : EmailAttachment) (e : string)
  : ExtractedAsset :=
  mkExtractedAsset "attachment" (message_id email) (Some (att_filename att)) None
    None None None None None None 1.0%Q (Some e).

Definition link_asset (email : EmailMessage) (url link_type : string) : ExtractedAsset :=
  mkExtractedAsset "link" (message_id email) None None
    (Some url) (Some link_type) None None None None 1.0%Q None.

Section WithWorld.

Variable World : Type.
Variable env : Env World.

(** The [try] block of [_extract_columns]: the header probe by file type. *)
Definition read_header (file_path : string) : M World (option (list string)) :=
  let ext := Py.lower (Py.path_suffix file_path) in
  if String.eqb ext ".csv" then csv_first_row env file_path
  else if String.eqb ext ".xlsx" || String.eqb ext ".xls" then
    first_row <- xlsx_first_row env file_path ;; ret (Some first_row)
  else if String.eqb ext ".json" then json_keys env file_path
  else ret None.

(** Any exception while reading the header is swallowed: the result is
    [None]. *)
Definition _extract_columns (file_path : string) : M World (option (list string)) :=
  try_except (read_header file_path) (fun _ => ret None).

(** The loop over the attachments. *)
Fixpoint extract_attachments (email : EmailMessage) (extract_path : string)
    (atts : list EmailAttachment) (assets : list ExtractedAsset)
  : M World (list ExtractedAsset) :=
  match atts with
  | [] => ret assets
  | att :: rest =>
      if EmailClassifier.is_data_file att then
        assets' <- try_except
          (file_path <- save_attachment env (message_id email) att extract_path ;;
           present <- path_exists env file_path ;;
           columns <- (if present : bool then _extract_columns file_path else ret None) ;;
           ret (Py.append assets (attachment_asset email att file_path columns)))
          (fun e => ret (Py.append assets (failed_asset email att e))) ;;
        extract_attachments email extract_path rest assets'
      else extract_attachments email extract_path rest assets
  end.

(** The loop over the link patterns. *)
Definition extract_links (email : EmailMessage) (body : string)
    (assets : list ExtractedAsset) : list ExtractedAsset :=
  fold_left
    (fun assets kv =>
       match Re.search (snd kv) body with
       | Some m => Py.append assets (link_asset email (snd m) (fst kv))
       | None => assets
       end)
    EmailClassifier._links assets.

Definition extract_assets (self : t) (email : EmailMessage) (run_id : string)
  : M World (list ExtractedAsset) :=
  let assets := [] in
  let extract_path := extraction_dir self ++ "/" ++ run_id in
  assets <- extract_attachments email extract_path (attachments email) assets ;;
  let body := Py.or_str (body_text email) (body_html email) in
  ret (extract_links email body assets).

Definition set_matched_patterns (c : ClassificationResult) (l : list string)
  : ClassificationResult :=
  mkClassificationResult (classification c) (score c) (factors c) l.

Definition scan_email (self : t) (email : EmailMessage) (run_id : string)
  : M World ScanResult :=
  if is_blocklisted self email then
    ret (mkScanResult email
           (mkClassificationResult NOT_DATA 0.0%Q ["blocklisted_sender"] [])
           [] None 0.0%Q "skip")
  else
    let cls := EmailClassifier.classify email in
    if Classification_eqb (classification cls) NOT_DATA then
      ret (mkScanResult email cls [] None 0.0%Q "skip")
    else
      assets <- extract_assets self email run_id ;;
      let '(partner, pattern_confidence, match_factors) :=
        PatternMatcher.match_ (matcher self) email assets in
      let route_action := "review" in
      let route_action :=
        if Py.truthy_opt partner then
          match find (fun p => match partner with
                               | Some name => String.eqb (partner_name p) name
                               | None => false
                               end) (patterns self) with
          | Some p =>
              if auto_process p && Qle_bool (confidence_threshold p) pattern_confidence
              then "auto_process" else route_action
          | None => route_action
          end
        else if Classification_eqb (classification cls) NOT_DATA
        then "skip"
        else route_action in
      let cls := set_matched_patterns cls match_factors in
      ret (mkScanResult email cls assets partner pattern_confidence route_action).

Definition str_opt (o : option string) : string :=
  match o with
  | Some s => s
  | None => "None"
  end.

Definition _format_auto_process_payload (result : ScanResult) (run_id : string)
  : AutoProcessPayload :=
  let assets :=
    flat_map
      (fun asset =>
         match file_path asset with
         | Some path =>
             [mkRawSource "email"
                ("email://" ++ message_id (email result) ++ "/" ++ str_opt (filename asset))
                (matched_partner result)
                (date (email result))
                "file_reference" path
                (mkEmailMetadata (message_id (email result)) (from_address (email result))
                   (subject (email result)) (date (email result)))]
         | None => []
         end)
      (extracted_assets result) in
  mkAutoProcessPayload
    (run_id ++ "-" ++ Py.slice_to 8 (message_id (email result)))
    (matched_partner result)
    (pattern_match_confidence result)
    assets.

Definition _format_review_item (result : ScanResult) (run_id : string) : ReviewItem :=
  mkReviewItem
    ("rev-" ++ run_id ++ "-" ++ Py.slice_to 8 (message_id (email result)))
    (mkEmailSummary (message_id (email result)) (from_address (email result))
       (subject (email result)) (date (email result)) (snippet (email result)))
    (score (sr_classification result))
    (factors (sr_classification result))
    (map (fun a => mkAssetSummary (asset_type a) (filename a) (url a) (columns a) (error a))
         (extracted_assets result))
    (matched_partner result)
    (pattern_match_confidence result).

(** The run: its state is the [results] dict together with the world. *)
Section Loop.

Variable scan_email_ : EmailMessage -> string -> M World ScanResult.
Variable format_auto : ScanResult -> string -> M World AutoProcessPayload.
Variable format_review : ScanResult -> string -> M World ReviewItem.

(** The body of the [for] loop of [scan]. *)
Definition scan_one (run_id : string) (email : EmailMessage) : M (RunResults * World) unit :=
  on_fst incr_scanned ;;;
  try_except
    (scan_result <- on_snd (scan_email_ email run_id) ;;
     (if negb (Classification_eqb (classification (sr_classification scan_result)) NOT_DATA)
      then on_fst incr_classified_as_data else ret tt) ;;;
     if String.eqb (route_action scan_result) "auto_process" then
       payload <- on_snd (format_auto scan_result run_id) ;;
       on_fst (append_auto_processed payload)
     else if String.eqb (route_action scan_result) "review" then
       item <- on_snd (format_review scan_result run_id) ;;
       on_fst (append_review_queue item)
     else ret tt)
    (fun e => on_fst (append_errors (message_id email, e))).

Fixpoint scan_loop (run_id : string) (emails : list EmailMessage) : M (RunResults * World) unit :=
  match emails with
  | [] => ret tt
  | email :: rest => scan_one run_id email ;;; scan_loop run_id rest
  end.

End Loop.

Definition scan (self : t) (since query : option string) (max_results : nat)
    (labels : option (list string)) : M World RunResults :=
  stamp <- now_strftime env ;;
  let run_id := "es-" ++ stamp in
  started_at <- now_isoformat env ;;
  let results := mkRunResults run_id started_at 0 0 [] [] [] None in
  emails <- fetch_emails env since query max_results labels ;;
  fun w =>
    match scan_loop (scan_email self)
            (fun r id => ret (_format_auto_process_payload r id))
            (fun r id => ret (_format_review_item r id))
            run_id emails (results, w) with
    | (Return _, (results, w')) =>
        (completed <- now_isoformat env ;; ret (set_completed_at completed results)) w'
    | (Raise e, (_, w')) => (Raise e, w')
    end.

End WithWorld.

End EmailScanner.

(* ------------------------------------------------------------------ *)
(** ** [gmail_client.py]: [GmailClient.save_attachment] and the call of
    [GmailClient.fetch_emails]

    The state is the content of the output directory, as a list of file
    names with their data, the most recent first; the directory exists
    (the call of [mkdir] has returned), so the directory itself and its
    [..] entry exist, and the file system takes any name.  A path is the
    output directory or one of its children: [Path(output_dir) / name]
    drops an empty name and [.], and the safe file name holds no [/]. *)

Module GmailClient.

Import Eff.

(** [c.isalnum()], on the 7-bit characters of the string model *)
Definition is_alnum (c : ascii) : bool := Py.is_upper c || Py.is_lower c || Py.is_digit c.

(** [c if c.isalnum() or c in '.-_' else '_'] *)
Definition safe_char (c : ascii) : ascii :=
  if is_alnum c || Ascii.eqb c "."%char || Ascii.eqb c "-"%char || Ascii.eqb c "_"%char
  then c else "_"%char.

Definition safe_filename (filename : string) : string :=
  Py.str (map safe_char (Py.chars filename)).

(** The index at which [PurePath.stem] and [PurePath.suffix] cut a name:
    the last dot [i] when [0 < i < len(name) - 1]. *)
Definition cut (name : string) : option nat :=
  let l := Py.chars name in
  match Py.rfind_dot l 0 None with
  | Some i => if (0 <? i)%nat && (i <? List.length l - 1)%nat then Some i else None
  | None => None
  end.

Definition stem (name : string) : string :=
  match cut name with
  | Some i => Py.str (firstn i (Py.chars name))
  | None => name
  end.

Definition suffix (name : string) : string :=
  match cut name with
  | Some i => Py.str (skipn i (Py.chars name))
  | None => ""
  end.

(** [None] is the output directory itself. *)
Definition path : Type := option string.

(** [output_path / name] *)
Definition join (name : string) : path :=
  if Py.is_real_part (Py.chars name) then Some name else None.

(** [file_path.name] *)
Definition name_of (output_dir : string) (file_path : path) : string :=
  match file_path with
  | Some name => name
  | None => Py.str (Py.path_name output_dir)
  end.

(** [str(file_path)], for an output directory that is written as [str]
    gives a path with a name *)
Definition path_str (output_dir : string) (file_path : path) : string :=
  match file_path with
  | Some name => output_dir ++ "/" ++ name
  | None => output_dir
  end.

Section Directory.

Variable Data : Type.

Definition listing : Type := list (string * Data).

(** [file_path.exists()] *)
Definition exists_ (files : listing) (file_path : path) : bool :=
  match file_path with
  | Some name => String.eqb name ".." || existsb (fun f => String.eqb (fst f) name) files
  | None => true
  end.

(** [file_path.write_bytes(data)] *)
Definition write_bytes (file_path : path) (data : Data) : M listing unit :=
  match file_path with
  | Some name =>
      if String.eqb name ".." then raise "[Errno 21] Is a directory"
      else fun files => (Return tt, (name, data) :: files)
  | None => raise "[Errno 21] Is a directory"
  end.

(** One turn of the [while] loop. *)
Definition next_path (output_dir : string) (file_path : path) (counter : nat) : path :=
  let name := name_of output_dir file_path in
  join (stem name ++ "_" ++ Py.str_of_nat counter ++ suffix name).

(** The [while file_path.exists()] loop, for at most [fuel] tests; [None]
    when the tests are used up. *)
Fixpoint free_path (fuel : nat) (output_dir : string) (files : listing)
    (file_path : path) (counter : nat) : option path :=
  match fuel with
  | O => None
  | S k =>
      if exists_ files file_path
      then free_path k output_dir files (next_path output_dir file_path counter) (S counter)
      else Some file_path
  end.

(** [save_attachment]; [download] stands for [download_attachment]. *)
Definition save_attachment (fuel : nat)
    (download : string -> EmailAttachment -> result Data)
    (message_id : string) (attachment : EmailAttachment) (output_dir : string)
    (files : listing) : option (result path * listing) :=
  let file_path := join (safe_filename (att_filename attachment)) in
  match free_path fuel output_dir files file_path 1 with
  | Some file_path =>
      Some (match download message_id attachment with
            | Return data =>
                match write_bytes file_path data files with
                | (Return _, files') => (Return file_path, files')
                | (Raise e, files') => (Raise e, files')
                end
            | Raise e => (Raise e, files)
            end)
  | None => None
  end.

End Directory.

(** The parameters of [fetch_emails], after [self]. *)
Definition fetch_emails_parameters : list string :=
  ["query"; "since"; "until"; "max_results"; "include_body"; "include_attachments";
   "in_inbox"; "category"].

(** A call of [fetch_emails] by keywords.  The arguments are bound when the
    generator function is called, so a keyword that is no parameter raises
    [TypeError] at the call, before a message is fetched; the text is
    CPython's since 3.10.  [stream] stands for the messages that the
    generator yields. *)
Definition fetch_emails {W : Type} (keywords : list string)
    (stream : M W (list EmailMessage)) : M W (list EmailMessage) :=
  match find (fun k => negb (Py.mem k fetch_emails_parameters)) keywords with
  | Some k =>
      raise ("GmailClient.fetch_emails() got an unexpected keyword argument '" ++ k ++ "'")
  | None => stream
  end.

End GmailClient.

(* ------------------------------------------------------------------ *)
(** ** [run_scan.py]: the catalog file, the scanner that [main] builds and
    the filter after the scan *)

Module RunScan.

Definition SYSTEM_SENDER_TOKENS : list string := [
  "noreply";
  "no-reply";
  "notification@";
  "alert@";
  "mailer-daemon";
  "postmaster";
  "datorama.com";
  "sisense.com";
  "apps-scripts-notifications@google.com";
  "do-not-reply";
  "donotreply";
  "auto-reply";
  "automated";
  "bounce"
].

(** [load_patterns].  A pattern object of the JSON file is read key by
    key; [None] is a key that is absent (or, for [expected_format] and
    [expected_columns], null), and the values are taken to have the types
    of [PartnerPattern]. *)
Record PatternObject : Type := mkPatternObject {
  po_partner_name : option string;
  po_sender_patterns : option (list string);
  po_subject_patterns : option (list string);
  po_expected_format : option string;
  po_expected_columns : option (list string);
  po_column_aliases : option (list (string * string));
  po_auto_process : option bool;
  po_confidence_threshold : option Q
}.

(** [d.get(key, default)] *)
Definition get {A : Type} (o : option A) (default : A) : A :=
  match o with
  | Some a => a
  | None => default
  end.

(** The loop over [data.get('patterns', [])]; [p['partner_name']] raises
    [KeyError] for an object without the key. *)
Fixpoint load_objects (objects : list PatternObject) : Eff.result (list PartnerPattern) :=
  match objects with
  | [] => Eff.Return []
  | p :: rest =>
      match po_partner_name p with
      | None => Eff.Raise "'partner_name'"
      | Some name =>
          match load_objects rest with
          | Eff.Return patterns =>
              Eff.Return (mkPartnerPattern name
                        (get (po_sender_patterns p) [])
                        (get (po_subject_patterns p) [])
                        (po_expected_format p)
                        (po_expected_columns p)
                        (get (po_column_aliases p) [])
                        (get (po_auto_process p) true)
                        (get (po_confidence_threshold p) 0.8%Q) :: patterns)
          | Eff.Raise e => Eff.Raise e
          end
      end
  end.

(** [load_patterns]; [None] is an empty path, a path that does not exist
    or a file without the key [patterns]. *)
Definition load_patterns (file : option (list PatternObject)) : Eff.result (list PartnerPattern) :=
  match file with
  | Some objects => load_objects objects
  | None => Eff.Return []
  end.

Definition is_system_sender (from_header : string) : bool :=
  let header_lower := Py.lower from_header in
  existsb (fun token => Py.contains token header_lower) SYSTEM_SENDER_TOKENS.

(** The scanner of [main]: the system sender tokens are its sender
    blocklist, and it has no domain blocklist. *)
Definition scanner (patterns : list PartnerPattern) (extraction_dir : string)
  : option EmailScanner.t :=
  EmailScanner.init patterns extraction_dir SYSTEM_SENDER_TOKENS [].

(** [filtered_auto]: the sender is read from the first raw source,
    [p.get('raw_sources', [{}])[0]]; the key is always present, so an empty
    list raises [IndexError]. *)
Fixpoint filtered_auto (ps : list AutoProcessPayload) : Eff.result (list AutoProcessPayload) :=
  match ps with
  | [] => Eff.Return []
  | p :: rest =>
      match raw_sources p with
      | [] => Eff.Raise "list index out of range"
      | s :: _ =>
          match filtered_auto rest with
          | Eff.Return l =>
              Eff.Return (if is_system_sender (md_from (email_metadata s)) then l else p :: l)
          | Eff.Raise e => Eff.Raise e
          end
      end
  end.

Definition filtered_review (rs : list ReviewItem) : list ReviewItem :=
  filter (fun r => negb (is_system_sender (es_from (email_summary r)))) rs.

(** The two assignments of [main] that replace the lists of the results. *)
Definition filter_results (results : RunResults) : Eff.result RunResults :=
  match filtered_auto (auto_processed results) with
  | Eff.Return fa =>
      Eff.Return
        (mkRunResults (run_id results) (started_at results) (emails_scanned results)
           (emails_classified_as_data results) fa (filtered_review (review_queue results))
           (errors results) (completed_at results))
  | Eff.Raise e => Eff.Raise e
  end.

End RunScan.

(* ================================================================== *)
(** * Vocabulary of the properties

    Definitions used to state the properties: readings of the model,
    propositional forms of the string tests, the resolution of a message
    in a run, and the concrete messages and collaborators of the
    scenarios. *)

Unset Implicit Arguments.

(** ** Readings of the model *)

Definition skip_subject (subject : string) : bool :=
  existsb (fun p => Re.found p subject) EmailClassifier._skip_subj.

Definition with_content (email : EmailMessage) (body_text body_html : option string)
    (attachments : list EmailAttachment) : EmailMessage :=
  mkEmailMessage (message_id email) (thread_id email) (from_address email)
    (to_addresses email) (subject email) (date email) body_text body_html attachments
    (labels email) (snippet email) (headers email) (permalink email).

Definition entry_score_of (email : EmailMessage) (assets : list ExtractedAsset)
    (c : PatternMatcher.compiled) : Q :=
  fst (PatternMatcher.entry_score c email assets).

Definition entry_factors_of (email : EmailMessage) (assets : list ExtractedAsset)
    (c : PatternMatcher.compiled) : list string :=
  snd (PatternMatcher.entry_score c email assets).

Definition entry_name (c : PatternMatcher.compiled) : string := partner_name (fst (fst c)).

Definition sender_hit (c : PatternMatcher.compiled) (email : EmailMessage) : bool :=
  existsb (fun regex => Re.found regex (from_address email)) (snd (fst c)).

Definition subject_hit (c : PatternMatcher.compiled) (email : EmailMessage) : bool :=
  existsb (fun regex => Re.found regex (subject email)) (snd c).

Definition format_hit (c : PatternMatcher.compiled) (assets : list ExtractedAsset) : bool :=
  match expected_format (fst (fst c)) with
  | Some fmt => Py.truthy fmt && existsb (PatternMatcher.format_matches fmt) assets
  | None => false
  end.

(** ** Strings and lists *)

Definition prefix_of (p s : string) : Prop :=
  exists post, Py.chars s = (Py.chars p ++ post)%list.

Definition suffix_of (p s : string) : Prop :=
  exists pre, Py.chars s = (pre ++ Py.chars p)%list.

Definition substring_of (p s : string) : Prop :=
  exists pre post, Py.chars s = (pre ++ Py.chars p ++ post)%list.

(** [Subseq l1 l2]: [l1] is [l2] with some elements left out, in order. *)
Inductive Subseq {A : Type} : list A -> list A -> Prop :=
| Subseq_nil : Subseq [] []
| Subseq_skip (x : A) (l1 l2 : list A) : Subseq l1 l2 -> Subseq l1 (x :: l2)
| Subseq_keep (x : A) (l1 l2 : list A) : Subseq l1 l2 -> Subseq (x :: l1) (x :: l2).

(** ** The resolution of a message in a run *)

Inductive Resolution : Type :=
| AutoProcessed
| ReviewQueued
| Skipped
| Errored.

(** What one message does to the run accumulator under each resolution. *)
Definition resolves (o : Resolution) (email : EmailMessage) (r r' : RunResults) : Prop :=
  emails_scanned r' = emails_scanned r + 1 /\
  match o with
  | AutoProcessed =>
      (exists payload, auto_processed r' = (auto_processed r ++ [payload])%list) /\
      review_queue r' = review_queue r /\ errors r' = errors r
  | ReviewQueued =>
      auto_processed r' = auto_processed r /\
      (exists item, review_queue r' = (review_queue r ++ [item])%list) /\
      errors r' = errors r
  | Skipped =>
      auto_processed r' = auto_processed r /\
      review_queue r' = review_queue r /\ errors r' = errors r
  | Errored =>
      auto_processed r' = auto_processed r /\
      review_queue r' = review_queue r /\
      exists e, errors r' = (errors r ++ [(message_id email, e)])%list
  end.

(** The messages of a run resolve one after the other, each in one way. *)
Fixpoint run_resolves (emails : list EmailMessage) (os : list Resolution)
    (r r' : RunResults) : Prop :=
  match emails, os with
  | [], [] => r' = r
  | email :: emails', o :: os' =>
      exists r1, resolves o email r r1 /\ run_resolves emails' os' r1 r'
  | _, _ => False
  end.

(** ** The blocklist check as the specification words it

    The domain of an address is what follows its last [@]; a blocked domain
    matches when the address's domain ends with it. *)

Fixpoint after_last_at (s : list ascii) (acc : list ascii) : list ascii :=
  match s with
  | [] => acc
  | c :: s' => if Ascii.eqb c "@"%char then after_last_at s' s' else after_last_at s' acc
  end.

Definition address_domain (addr : string) : string :=
  Py.str (after_last_at (Py.chars addr) []).

Definition spec_domain_blocked (from_addr domain : string) : bool :=
  Py.endswith (address_domain from_addr) domain.

Definition spec_is_blocklisted (self : EmailScanner.t) (email : EmailMessage) : bool :=
  let from_addr := Py.lower (from_address email) in
  existsb (EmailScanner.sender_blocked from_addr) (EmailScanner.blocklist_senders self)
  || existsb (spec_domain_blocked from_addr) (EmailScanner.blocklist_domains self).

(** ** Scenarios *)

Definition subject_A : string := "Weekly Performance Report - Jan 2026".

Definition message_A : EmailMessage :=
  mkEmailMessage "msg-a" "thread-a" "reports@partner.example" ["me@example.com"]
    subject_A "2026-01-05T09:00:00"
    (Some "Hi team, please find attached the file. Impressions are up.") None
    [mkEmailAttachment "report.xlsx"
       "application/vnd.openxmlformats-officedocument.spreadsheetml.sheet" 20480 "att-1" None]
    ["INBOX"] "Hi team" [] "".

Definition lunch : EmailMessage :=
  mkEmailMessage "msg-b" "thread-b" "pat@example.com" ["me@example.com"]
    "Re: Re: lunch tomorrow?" "2026-01-06T12:00:00"
    (Some "please find attached the weekly report with impressions") None
    [mkEmailAttachment "report.xlsx" "application/vnd.ms-excel" 2048 "att-2" None]
    [] "" [] "".

Definition report_csv : EmailAttachment :=
  mkEmailAttachment "report.csv" "text/csv" 512 "att-7" None.

Definition message_csv : EmailMessage :=
  mkEmailMessage "msg-7" "thread-7" "reports@partner.example" ["me@example.com"]
    "Weekly report" "2026-01-05T09:00:00" (Some "as requested") None
    [report_csv] [] "" [] "".

Definition from_ (addr : string) : EmailMessage :=
  mkEmailMessage "msg-9" "thread-9" addr ["me@example.com"] "Weekly report"
    "2026-01-05T09:00:00" (Some "as requested") None [] [] "" [] "".

(** A world without state in which downloads succeed, except for the
    attachment id [gone], saved files exist, and every header probe raises. *)
Definition probe_fails_env : EmailScanner.Env unit :=
  EmailScanner.mkEnv
    (fun _ _ _ _ => Eff.ret [])
    (fun _ att dir =>
       if String.eqb (attachment_id att) "gone" then Eff.raise "HttpError 404"
       else Eff.ret (dir ++ "/" ++ att_filename att))
    (fun _ => Eff.ret true)
    (fun _ => Eff.raise "UnicodeDecodeError: invalid start byte")
    (fun _ => Eff.raise "BadZipFile: File is not a zip file")
    (fun _ => Eff.raise "JSONDecodeError: Expecting value")
    (Eff.ret "20260105-090000")
    (Eff.ret "2026-01-05T09:00:00").

(** A scanner with an empty catalog and empty blocklists. *)
Definition plain_scanner : EmailScanner.t :=
  EmailScanner.mk (PatternMatcher.mk [] []) [] "/tmp/extracts" [] [].

(** A catalog entry whose partner name is the empty string. *)
Definition unnamed_partner : PartnerPattern :=
  mkPartnerPattern "" ["*@partner.example"] [] None None [] true 0.3%Q.

(** Two catalog entries under one partner name. *)
Definition acme_manual : PartnerPattern :=
  mkPartnerPattern "Acme" ["*@billing.acme.example"] [] None None [] false 0.8%Q.

Definition acme_feed : PartnerPattern :=
  mkPartnerPattern "Acme" ["*@partner.example"] [] None None [] true 0.3%Q.

(** Scenario D: one partner, sender and four expected columns, threshold
    0.80.  Scenario E: two entries that tie at 0.50. *)
Definition acme : PartnerPattern :=
  mkPartnerPattern "Acme" ["*@acme.com"] [] None
    (Some ["date"; "impressions"; "spend"; "cpm"]) [] true 0.8%Q.

Definition entry_A : PartnerPattern :=
  mkPartnerPattern "A" ["*@acme.com"] ["report"] None None [] true 0.5%Q.

Definition entry_B : PartnerPattern :=
  mkPartnerPattern "B" ["bob@*"] ["weekly"] None None [] true 0.5%Q.

Definition message_D : EmailMessage :=
  mkEmailMessage "msg-d" "thread-d" "Bob <bob@acme.com>" ["me@example.com"]
    "Weekly Report" "2026-01-07T08:00:00" (Some "as requested") None [] [] "" [] "".

Definition asset_D : ExtractedAsset :=
  mkExtractedAsset "attachment" "msg-d" (Some "numbers.csv") (Some "/tmp/extracts/numbers.csv")
    None None (Some "text/csv") (Some 100%Z) None (Some ["Date"; "Impressions"; "Clicks"])
    1.0%Q None.

(** ** Readings of a run and of the extraction *)

(** The saved paths among a list of assets. *)
Definition saved_paths (assets : list ExtractedAsset) : list string :=
  flat_map (fun a => match file_path a with Some p => [p] | None => [] end) assets.

Definition message_body (email : EmailMessage) : string :=
  Py.or_str (body_text email) (body_html email).

(** An attachment's asset: saved, or failed with the error only. *)
Definition asset_of_attachment (msg : EmailMessage) (att : EmailAttachment)
    (a : ExtractedAsset) : Prop :=
  (exists fp cols, a = EmailScanner.attachment_asset msg att fp cols) \/
  (exists e, a = EmailScanner.failed_asset msg att e).

(** A link asset: one of the table's link types with a URL from the body. *)
Definition asset_of_link (msg : EmailMessage) (a : ExtractedAsset) : Prop :=
  exists kv u,
    In kv EmailClassifier._links /\ substring_of u (message_body msg) /\
    a = EmailScanner.link_asset msg u (fst kv).

Definition has_path (a : ExtractedAsset) : bool :=
  match file_path a with
  | Some _ => true
  | None => false
  end.

(** A catalog entry with another alias map. *)
Definition with_aliases (f : PartnerPattern -> list (string * string)) (p : PartnerPattern)
  : PartnerPattern :=
  mkPartnerPattern (partner_name p) (sender_patterns p) (subject_patterns p)
    (expected_format p) (expected_columns p) (f p) (auto_process p) (confidence_threshold p).

Definition with_aliases_compiled (f : PartnerPattern -> list (string * string))
    (c : PatternMatcher.compiled) : PatternMatcher.compiled :=
  (with_aliases f (fst (fst c)), snd (fst c), snd c).

Definition with_aliases_scanner (f : PartnerPattern -> list (string * string))
    (self : EmailScanner.t) : EmailScanner.t :=
  EmailScanner.mk
    (PatternMatcher.mk
       (map (with_aliases f) (PatternMatcher.patterns (EmailScanner.matcher self)))
       (map (with_aliases_compiled f)
            (PatternMatcher._compiled_patterns (EmailScanner.matcher self))))
    (map (with_aliases f) (EmailScanner.patterns self))
    (EmailScanner.extraction_dir self)
    (EmailScanner.blocklist_senders self)
    (EmailScanner.blocklist_domains self).

(** The number of metric patterns that match a body. *)
Definition metric_count (body : string) : nat :=
  List.length (filter (fun p => Re.found p body) EmailClassifier._metric).

Definition has_delivery_phrase (body : string) : bool :=
  existsb (fun phrase => Py.contains phrase (Py.lower body)) EmailClassifier.DELIVERY_PHRASES.

(** A collaborator that records every download request, as the pair of
    message id and attachment id, and answers by fixed tables. *)
Definition answer {A : Type} (o : Eff.result A) : Eff.M (list (string * string)) A :=
  fun log => (o, log).

Definition recording_env
    (download : string -> EmailAttachment -> string -> Eff.result string)
    (present : string -> Eff.result bool)
    (csv : string -> Eff.result (option (list string)))
    (xlsx : string -> Eff.result (list string))
    (json : string -> Eff.result (option (list string)))
  : EmailScanner.Env (list (string * string)) :=
  EmailScanner.mkEnv
    (fun _ _ _ _ => Eff.ret [])
    (fun mid att dir log => (download mid att dir, (log ++ [(mid, attachment_id att)])%list))
    (fun p => answer (present p))
    (fun p => answer (csv p))
    (fun p => answer (xlsx p))
    (fun p => answer (json p))
    (Eff.ret "")
    (Eff.ret "").

(** The senders that a run's lists carry are no system senders. *)
Definition senders_pass (r : RunResults) : Prop :=
  Forall (fun item => RunScan.is_system_sender (es_from (email_summary item)) = false)
         (review_queue r) /\
  Forall (fun p => Forall (fun s => RunScan.is_system_sender (md_from (email_metadata s)) = false)
                          (raw_sources p))
         (auto_processed r).

(** ** Letter case *)

(** Two positions, or two texts, that differ in letter case only. *)
Definition same_text_ci (s s' : list ascii) : Prop :=
  map Py.lower_char s = map Py.lower_char s'.

Definition same_pos_ci (p p' : Re.pos) : Prop :=
  option_map Py.lower_char (fst p) = option_map Py.lower_char (fst p') /\
  same_text_ci (snd p) (snd p').

(** Scenario A in capital letters. *)
Definition message_A_shouted : EmailMessage :=
  mkEmailMessage "msg-a" "thread-a" "REPORTS@PARTNER.EXAMPLE" ["me@example.com"]
    "WEEKLY PERFORMANCE REPORT - JAN 2026" "2026-01-05T09:00:00"
    (Some "HI TEAM, PLEASE FIND ATTACHED THE FILE. IMPRESSIONS ARE UP.") None
    (attachments message_A) ["INBOX"] "Hi team" [] "".

(** A character test that reads its argument up to case. *)
Definition reads_ci (ok : ascii -> bool) : Prop :=
  forall x x', Py.lower_char x = Py.lower_char x' -> ok x = ok x'.

(** ** Sender patterns as globs *)

(** The characters of a sender pattern that stand for themselves or for a
    wildcard: all but the operators of [re] other than [.], [*] and [?]. *)
Definition glob_char (c : ascii) : bool :=
  negb (existsb (Ascii.eqb c) (Py.chars "([\^$+{)|")).

(** [glob_match p t]: the text [t] is read by the pattern [p], where [*]
    reads any run of characters, [?] and [.] read one character, neither
    reads a newline, and any other character reads itself in either case. *)
Inductive glob_match : list ascii -> list ascii -> Prop :=
| glob_end : glob_match [] []
| glob_star (p t1 t2 : list ascii) :
    Forall (fun x => x <> Re.newline) t1 -> glob_match p t2 ->
    glob_match ("*"%char :: p) (t1 ++ t2)
| glob_one (c : ascii) (p : list ascii) (x : ascii) (t : list ascii) :
    c = "?"%char \/ c = "."%char -> x <> Re.newline -> glob_match p t ->
    glob_match (c :: p) (x :: t)
| glob_same (c : ascii) (p : list ascii) (x : ascii) (t : list ascii) :
    c <> "*"%char -> c <> "?"%char -> c <> "."%char ->
    Py.lower_char c = Py.lower_char x -> glob_match p t ->
    glob_match (c :: p) (x :: t).

(** The regex that a sender pattern compiles to. *)
Definition glob_atom (c : ascii) : Re.regex :=
  if Ascii.eqb c "*"%char then Re.Star Re.AnyChar
  else if Ascii.eqb c "?"%char || Ascii.eqb c "."%char then Re.AnyChar
  else Re.Chr c.

Fixpoint glob_regex (p : list ascii) : Re.regex :=
  match p with
  | [] => Re.Eps
  | c :: p' => Re.seq_ (glob_atom c) (glob_regex p')
  end.

(** The regex text of one character of a sender pattern. *)
Definition glob_text (c : ascii) : list ascii :=
  if Ascii.eqb c "*"%char then [".";"*"]%char
  else if Ascii.eqb c "?"%char then ["."]%char
  else [c].

(** ** The output directory of [save_attachment] *)

(** A single component of a path below a directory: not empty, not [.] or
    [..], and without a separator. *)
Definition child_name (name : string) : Prop :=
  name <> "" /\ name <> "." /\ name <> ".." /\ ~ In "/"%char (Py.chars name).

(** The counters that the duplicate loop has put behind a stem after [k]
    turns: [_1_2..._k]. *)
Fixpoint counters (k : nat) : string :=
  match k with
  | O => ""
  | S j => counters j ++ "_" ++ Py.str_of_nat k
  end.

(** What the loop can find in its way: the directory, its parent entry and
    the files. *)
Definition taken {Data : Type} (output_dir : string) (files : GmailClient.listing Data)
  : list string :=
  GmailClient.name_of output_dir None :: ".." :: map fst files.

(** The number of names that are at least as long as [name]. *)
Definition at_least (name : string) (names : list string) : nat :=
  List.length (filter (fun m => (String.length name <=? String.length m)%nat) names).

(** A path of the loop: the output directory, or a child under a real name
    without a separator. *)
Definition loop_path (p : GmailClient.path) : Prop :=
  match p with
  | Some name => Py.is_real_part (Py.chars name) = true /\ ~ In "/"%char (Py.chars name)
  | None => True
  end.

(** A collaborator that reads the world without changing it. *)
Definition reading {W A : Type} (f : W -> Eff.result A) : Eff.M W A := fun w => (f w, w).

(** The scanner's surroundings with [GmailClient] on an output directory:
    the world is the directory's content.  [fetch_emails] is called with
    the keywords of [scan]; the loop for a free path has a test more than
    it can need ([save_attachment_returns]); the file probes read the
    world. *)
Definition client_env {Data : Type}
    (stream : Eff.M (GmailClient.listing Data) (list EmailMessage))
    (download : string -> EmailAttachment -> Eff.result Data)
    (present : string -> GmailClient.listing Data -> Eff.result bool)
    (csv : string -> GmailClient.listing Data -> Eff.result (option (list string)))
    (xlsx : string -> GmailClient.listing Data -> Eff.result (list string))
    (json : string -> GmailClient.listing Data -> Eff.result (option (list string)))
  : EmailScanner.Env (GmailClient.listing Data) :=
  EmailScanner.mkEnv
    (fun _ _ _ _ =>
       GmailClient.fetch_emails ["since"; "query"; "max_results"; "labels"] stream)
    (fun mid att dir files =>
       match GmailClient.save_attachment (List.length files + 3) download mid att dir files with
       | Some (Eff.Return p, files') => (Eff.Return (GmailClient.path_str dir p), files')
       | Some (Eff.Raise e, files') => (Eff.Raise e, files')
       | None => (Eff.Raise "no free path", files)
       end)
    (fun p => reading (present p))
    (fun p => reading (csv p))
    (fun p => reading (xlsx p))
    (fun p => reading (json p))
    (Eff.ret "")
    (Eff.ret "").

(** What the extraction keeps true of the paths recorded so far and of
    the files written so far into a directory that held [files]: the paths
    differ, and each is the path of a file written under a new name. *)
Definition saved_apart {Data : Type} (dir : string) (files : GmailClient.listing Data)
    (paths : list string) (new : GmailClient.listing Data) : Prop :=
  NoDup paths /\
  NoDup (map fst new) /\
  Forall (fun f => child_name (fst f) /\ ~ In (fst f) (map fst files)) new /\
  forall p, In p paths -> exists f, In f new /\ p = dir ++ "/" ++ fst f.

(** The file paths that a run hands on, in the order of its payloads. *)
Definition run_paths (r : RunResults) : list string :=
  flat_map (fun p => map payload_path (raw_sources p)) (auto_processed r).

(** ** The catalog file *)

(** A catalog file with one object, which names a partner and its sender
    pattern and leaves every other key out. *)
Definition acme_object : RunScan.PatternObject :=
  RunScan.mkPatternObject (Some "Acme") (Some ["*@acme.com"]) None None None None None None.

(** The partner name of a loaded entry is the object's. *)
Definition po_partner_name_is (o : RunScan.PatternObject) (p : PartnerPattern) : Prop :=
  RunScan.po_partner_name o = Some (partner_name p).

(* ================================================================== *)
(** * Properties *)

(** ** Comparisons and the clamp *)

Section Order.

Local Open Scope Q_scope.

Lemma Qltb_true (a b : Q) : Py.Qltb a b = true <-> a < b.
Proof.
  unfold Py.Qltb. rewrite negb_true_iff, <- not_true_iff_false, Qle_bool_iff.
  split; intro H; lra.
Qed.

Lemma Qltb_false (a b : Q) : Py.Qltb a b = false <-> b <= a.
Proof.
  unfold Py.Qltb. rewrite negb_false_iff, Qle_bool_iff. reflexivity.
Qed.

Lemma Qle_bool_false (a b : Q) : Qle_bool a b = false <-> b < a.
Proof.
  rewrite <- not_true_iff_false, Qle_bool_iff. split; intro H; lra.
Qed.

Lemma clamp_range (s : Q) :
  0 <= Py.max 0.0 (Py.min 1.0 s) /\ Py.max 0.0 (Py.min 1.0 s) <= 1.
Proof.
  unfold Py.max, Py.min.
  destruct (Py.Qltb s 1.0) eqn:H1.
  - apply Qltb_true in H1.
    destruct (Py.Qltb 0.0 s) eqn:H0.
    + apply Qltb_true in H0. split; lra.
    + split; lra.
  - destruct (Py.Qltb 0.0 1.0) eqn:H0; split; lra.
Qed.

Lemma clamp_saturates (s : Q) : 1 <= s -> Py.max 0.0 (Py.min 1.0 s) = 1.0.
Proof.
  intro H. unfold Py.max, Py.min.
  destruct (Py.Qltb s 1.0) eqn:H1.
  - apply Qltb_true in H1. lra.
  - reflexivity.
Qed.

Lemma bucket_spec (x : Q) :
  (0.7 <= x -> EmailClassifier.bucket x = DATA_HIGH_CONFIDENCE) /\
  (0.5 <= x -> x < 0.7 -> EmailClassifier.bucket x = DATA_MEDIUM_CONFIDENCE) /\
  (0.3 <= x -> x < 0.5 -> EmailClassifier.bucket x = UNCERTAIN) /\
  (x < 0.3 -> EmailClassifier.bucket x = NOT_DATA).
Proof.
  unfold EmailClassifier.bucket.
  destruct (Qle_bool 0.7 x) eqn:H7; [apply Qle_bool_iff in H7 | apply Qle_bool_false in H7];
  destruct (Qle_bool 0.5 x) eqn:H5; [apply Qle_bool_iff in H5 | apply Qle_bool_false in H5 | apply Qle_bool_iff in H5 | apply Qle_bool_false in H5];
  destruct (Qle_bool 0.3 x) eqn:H3;
    try apply Qle_bool_iff in H3; try apply Qle_bool_false in H3;
  repeat split; intros; try reflexivity; lra.
Qed.

End Order.

(** ** The classifier *)

Section ClassifierProperties.

Local Open Scope Q_scope.

(** The compiled tables hold every pattern of the source tables. *)
Lemma tables_compiled :
  map Re.pattern EmailClassifier._high_subj = EmailClassifier.HIGH_CONF_SUBJECT_PATTERNS /\
  map Re.pattern EmailClassifier._med_subj = EmailClassifier.MEDIUM_CONF_SUBJECT_PATTERNS /\
  map Re.pattern EmailClassifier._skip_subj = EmailClassifier.SKIP_SUBJECT_PATTERNS /\
  map Re.pattern EmailClassifier._metric = EmailClassifier.METRIC_PATTERNS /\
  map (fun kv => (fst kv, Re.pattern (snd kv))) EmailClassifier._links
    = EmailClassifier.LINK_PATTERNS.
Proof. vm_compute. repeat split. Qed.

Lemma classify_skipped (email : EmailMessage) :
  skip_subject (subject email) = true ->
  EmailClassifier.classify email
    = mkClassificationResult NOT_DATA 0.0 ["skip_pattern_matched"] [].
Proof.
  intro H. unfold EmailClassifier.classify. fold (skip_subject (subject email)).
  rewrite H. reflexivity.
Qed.

Lemma classify_scored (email : EmailMessage) :
  skip_subject (subject email) = false ->
  exists s f,
    EmailClassifier.classify email
      = mkClassificationResult (EmailClassifier.bucket (Py.max 0.0 (Py.min 1.0 s)))
          (Py.max 0.0 (Py.min 1.0 s)) f [].
Proof.
  intro H. unfold EmailClassifier.classify. fold (skip_subject (subject email)).
  rewrite H.
  destruct (EmailClassifier._analyze_subject (subject email)) as [s1 f1].
  destruct (EmailClassifier._analyze_body _) as [s2 f2].
  destruct (EmailClassifier._analyze_attachments _) as [s3 f3].
  destruct (EmailClassifier._analyze_links _) as [s4 f4].
  destruct (Py.startswith_any _ _); eexists; eexists; reflexivity.
Qed.

(** C2.  For every message the score of [classify] lies in [0,1], and the
    classification is the bucket of that score: at least 0.70 is
    high-confidence data, from 0.50 up to 0.70 is medium-confidence data,
    from 0.30 up to 0.50 is uncertain, below 0.30 is not-data. *)
Theorem classify_score_bucket (email : EmailMessage) :
  let r := EmailClassifier.classify email in
  (0 <= score r /\ score r <= 1) /\
  (0.70 <= score r -> classification r = DATA_HIGH_CONFIDENCE) /\
  (0.50 <= score r -> score r < 0.70 -> classification r = DATA_MEDIUM_CONFIDENCE) /\
  (0.30 <= score r -> score r < 0.50 -> classification r = UNCERTAIN) /\
  (score r < 0.30 -> classification r = NOT_DATA).
Proof.
  intro r. subst r.
  destruct (skip_subject (subject email)) eqn:Hskip.
  - rewrite (classify_skipped email Hskip). cbn [score classification].
    repeat split; intros; try reflexivity; lra.
  - destruct (classify_scored email Hskip) as (s & f & ->). cbn [score classification].
    split; [apply clamp_range |].
    destruct (bucket_spec (Py.max 0.0 (Py.min 1.0 s))) as (B1 & B2 & B3 & B4).
    repeat split; intros.
    + apply B1. lra.
    + apply B2; lra.
    + apply B3; lra.
    + apply B4. lra.
Qed.

(** C3.  When the subject matches a skip-subject pattern, [classify] returns
    not-data with score 0 and the single factor of the skip; the result is
    the same whatever the bodies and the attachments of the message are. *)
Theorem classify_skip_subject (email : EmailMessage)
    (H : exists p, In p EmailClassifier._skip_subj /\ Re.found p (subject email) = true) :
  classification (EmailClassifier.classify email) = NOT_DATA /\
  score (EmailClassifier.classify email) == 0 /\
  factors (EmailClassifier.classify email) = ["skip_pattern_matched"] /\
  forall body_text body_html attachments,
    EmailClassifier.classify (with_content email body_text body_html attachments)
      = EmailClassifier.classify email.
Proof.
  assert (Hs : skip_subject (subject email) = true).
  { unfold skip_subject. apply existsb_exists. exact H. }
  rewrite (classify_skipped email Hs). cbn [classification score factors].
  repeat split.
  intros bt bh atts. apply classify_skipped. exact Hs.
Qed.

Lemma classify_skip_subject_witness :
  classification (EmailClassifier.classify lunch) = NOT_DATA /\
  score (EmailClassifier.classify lunch) == 0 /\
  factors (EmailClassifier.classify lunch) = ["skip_pattern_matched"] /\
  forall body_text body_html attachments,
    EmailClassifier.classify (with_content lunch body_text body_html attachments)
      = EmailClassifier.classify lunch.
Proof.
  apply (classify_skip_subject lunch).
  exists (nth 0 EmailClassifier._skip_subj (Re.mkPattern "" Re.Eps)).
  split; [left; reflexivity | vm_compute; reflexivity].
Defined.

Lemma py_min_lower (a x lo : Q) : lo <= a -> lo <= x -> lo <= Py.min a x.
Proof. intros Ha Hx. unfold Py.min. destruct (Py.Qltb x a); assumption. Qed.

Lemma analyze_links_nonneg (body : string) : 0 <= fst (EmailClassifier._analyze_links body).
Proof.
  unfold EmailClassifier._analyze_links.
  destruct (find _ _); cbn [fst]; lra.
Qed.

(** A body with the first delivery phrase and a match of the first metric
    pattern scores at least 0.20 + 0.05. *)
Lemma analyze_body_delivery_metric (body : string) (p : Re.Pattern) :
  Py.contains "please find attached" (Py.lower body) = true ->
  Re.compile "\b(impressions?|imps?)\b" = Some p ->
  Re.found p body = true ->
  0.25 <= fst (EmailClassifier._analyze_body body).
Proof.
  intros Hp Hc Hi.
  assert (Hm : EmailClassifier._metric = p :: tl EmailClassifier._metric).
  { vm_compute in Hc. injection Hc as <-. vm_compute. reflexivity. }
  unfold EmailClassifier._analyze_body.
  unfold EmailClassifier.DELIVERY_PHRASES. cbn [find]. rewrite Hp.
  rewrite Hm. cbn [filter]. rewrite Hi. cbn [List.length Nat.ltb Nat.leb fst].
  apply Qle_trans with (0.0 + 0.20 + 0.05); [lra |].
  apply Qplus_le_r. apply py_min_lower; [lra |].
  set (n := Datatypes.length _).
  assert (Hn : 1 <= inject_Z (Z.of_nat (S n))).
  { change 1 with (inject_Z 1). rewrite <- Zle_Qle. lia. }
  lra.
Qed.

(** The subject of scenario A is no skip subject, carries no reply prefix,
    and fires a high-confidence and a medium-confidence pattern. *)
Lemma subject_A_scores :
  skip_subject subject_A = false /\
  fst (EmailClassifier._analyze_subject subject_A) == 0.30 + 0.15 /\
  Py.startswith_any (Py.lower subject_A) ["re:"; "fwd:"; "fw:"] = false.
Proof. vm_compute. repeat split. Qed.

Lemma data_weight_xlsx (a : EmailAttachment) :
  att_filename a = "report.xlsx" -> EmailClassifier.data_weight a = Some 0.30.
Proof. intro H. unfold EmailClassifier.data_weight. rewrite H. reflexivity. Qed.

Lemma analyze_attachments_xlsx (atts : list EmailAttachment) :
  map att_filename atts = ["report.xlsx"] ->
  fst (EmailClassifier._analyze_attachments atts) == 0.30.
Proof.
  intro H. destruct atts as [| a [| b rest]]; try discriminate.
  cbn [map] in H. injection H as Ha.
  unfold EmailClassifier._analyze_attachments. cbn [find].
  unfold EmailClassifier.is_data_file. rewrite (data_weight_xlsx a Ha).
  cbn [fst]. rewrite (data_weight_xlsx a Ha). lra.
Qed.

(** C4, as amended.  A message with the subject "Weekly Performance Report -
    Jan 2026", a body with "please find attached" and a match of the
    impressions pattern, and the one attachment "report.xlsx" scores
    0.30 + 0.15 + 0.20 + 0.05 + 0.30 = 1.00, not 0.85: "Jan 2026" also fires
    a medium-confidence subject pattern.  The classification is
    high-confidence data. *)
Theorem scenario_A_score (email : EmailMessage) (p : Re.Pattern)
    (Hsubject : subject email = subject_A)
    (Hatt : map att_filename (attachments email) = ["report.xlsx"])
    (Hphrase : Py.contains "please find attached"
                 (Py.lower (Py.or_str (body_text email) (body_html email))) = true)
    (Hcompile : Re.compile "\b(impressions?|imps?)\b" = Some p)
    (Hmetric : Re.found p (Py.or_str (body_text email) (body_html email)) = true) :
  score (EmailClassifier.classify email) == 0.30 + 0.15 + 0.20 + 0.05 + 0.30 /\
  score (EmailClassifier.classify email) == 1 /\
  classification (EmailClassifier.classify email) = DATA_HIGH_CONFIDENCE.
Proof.
  destruct subject_A_scores as (Hskip & Hsub & Hpen).
  pose proof (analyze_attachments_xlsx _ Hatt) as Ha.
  pose proof (analyze_body_delivery_metric _ _ Hphrase Hcompile Hmetric) as Hb.
  pose proof (analyze_links_nonneg (Py.or_str (body_text email) (body_html email))) as Hl.
  unfold EmailClassifier.classify. rewrite Hsubject.
  fold (skip_subject subject_A). rewrite Hskip, Hpen.
  destruct (EmailClassifier._analyze_subject subject_A) as [s1 f1].
  destruct (EmailClassifier._analyze_body _) as [s2 f2].
  destruct (EmailClassifier._analyze_attachments _) as [s3 f3].
  destruct (EmailClassifier._analyze_links _) as [s4 f4].
  cbn [fst] in *. cbn [score classification].
  rewrite clamp_saturates by lra.
  repeat split; reflexivity.
Qed.

Lemma scenario_A_score_witness :
  score (EmailClassifier.classify message_A) == 0.30 + 0.15 + 0.20 + 0.05 + 0.30 /\
  score (EmailClassifier.classify message_A) == 1 /\
  classification (EmailClassifier.classify message_A) = DATA_HIGH_CONFIDENCE.
Proof.
  apply (scenario_A_score message_A (nth 0 EmailClassifier._metric (Re.mkPattern "" Re.Eps)));
    vm_compute; reflexivity.
Defined.

(** C4, as stated, fails on the message of scenario A: its score is 1.00. *)
Lemma scenario_A_score_is_not_085 :
  ~ (score (EmailClassifier.classify message_A) == 0.85 /\
     classification (EmailClassifier.classify message_A) = DATA_HIGH_CONFIDENCE).
Proof.
  intros [H _]. vm_compute in H. discriminate H.
Qed.

End ClassifierProperties.

(** ** The partner pattern matcher *)

Section MatcherProperties.

Local Open Scope Q_scope.

Lemma step_cases (email : EmailMessage) (assets : list ExtractedAsset)
    (b : PatternMatcher.best) (c : PatternMatcher.compiled) :
  (snd (fst b) < entry_score_of email assets c /\
   PatternMatcher.step email assets b c
     = (Some (entry_name c), entry_score_of email assets c, entry_factors_of email assets c)) \/
  (entry_score_of email assets c <= snd (fst b) /\ PatternMatcher.step email assets b c = b).
Proof.
  destruct b as [[m s] f].
  unfold PatternMatcher.step, entry_score_of, entry_factors_of, entry_name. cbn [fst snd].
  destruct (PatternMatcher.entry_score c email assets) as [s' f'] eqn:E. cbn [fst snd].
  destruct (Py.Qltb s s') eqn:L.
  - left. apply Qltb_true in L. split; [exact L | reflexivity].
  - right. apply Qltb_false in L. split; [exact L | reflexivity].
Qed.

(** The loop invariant of [match]: the best so far never decreases, bounds
    every entry seen, and is either the initial value or the first entry
    that attains it. *)
Lemma fold_step_best (email : EmailMessage) (assets : list ExtractedAsset)
    (l : list PatternMatcher.compiled) (b : PatternMatcher.best) :
  let r := fold_left (PatternMatcher.step email assets) l b in
  snd (fst b) <= snd (fst r) /\
  (forall c, In c l -> entry_score_of email assets c <= snd (fst r)) /\
  ((r = b /\ forall c, In c l -> entry_score_of email assets c <= snd (fst b)) \/
   (exists l1 c l2,
      l = (l1 ++ c :: l2)%list /\
      r = (Some (entry_name c), entry_score_of email assets c, entry_factors_of email assets c) /\
      snd (fst b) < entry_score_of email assets c /\
      forall c', In c' l1 -> entry_score_of email assets c' < entry_score_of email assets c)).
Proof.
  revert b. induction l as [| c l IH]; intros b r.
  - subst r. cbn. split; [lra |]. split; [intros c [] |].
    left. split; [reflexivity | intros c []].
  - subst r. cbn [fold_left].
    specialize (IH (PatternMatcher.step email assets b c)).
    cbv zeta in IH. destruct IH as (Hge & Hall & Hsel).
    destruct (step_cases email assets b c) as [[Hlt Hs] | [Hle Hs]]; rewrite Hs in *;
      remember (fold_left (PatternMatcher.step email assets) l _) as r eqn:Er; clear Er;
      cbn [fst snd] in *.
    + split; [lra |]. split.
      * intros c' [<- | Hin]; [exact Hge | apply Hall; exact Hin].
      * right. destruct Hsel as [[Hr Hrest] | (l1 & d & l2 & Hl & Hr & Hlt' & Hbefore)].
        -- exists [], c, l. subst r. repeat split; try assumption. intros c' [].
        -- exists (c :: l1), d, l2. subst r l. repeat split; try lra.
           intros c' [<- | Hin]; [exact Hlt' | apply Hbefore; exact Hin].
    + split; [exact Hge |]. split.
      * intros c' [<- | Hin]; [lra | apply Hall; exact Hin].
      * destruct Hsel as [[Hr Hrest] | (l1 & d & l2 & Hl & Hr & Hlt' & Hbefore)].
        -- left. split; [exact Hr |].
           intros c' [<- | Hin]; [exact Hle | apply Hrest; exact Hin].
        -- right. exists (c :: l1), d, l2. subst r l. repeat split; try assumption.
           intros c' [<- | Hin]; [lra | apply Hbefore; exact Hin].
Qed.

Lemma entry_score_reads (c : PatternMatcher.compiled) (email email' : EmailMessage)
    (assets : list ExtractedAsset) :
  from_address email' = from_address email -> subject email' = subject email ->
  PatternMatcher.entry_score c email' assets = PatternMatcher.entry_score c email assets.
Proof.
  intros Hf Hs. destruct c as [[p senders] subjects].
  unfold PatternMatcher.entry_score. rewrite Hf, Hs. reflexivity.
Qed.

Lemma fold_step_reads (email email' : EmailMessage) (assets : list ExtractedAsset)
    (l : list PatternMatcher.compiled) (b : PatternMatcher.best) :
  from_address email' = from_address email -> subject email' = subject email ->
  fold_left (PatternMatcher.step email' assets) l b
    = fold_left (PatternMatcher.step email assets) l b.
Proof.
  intros Hf Hs. revert b. induction l as [| c l IH]; intro b; [reflexivity |].
  cbn [fold_left]. rewrite IH. f_equal.
  destruct b as [[m s] f]. unfold PatternMatcher.step.
  rewrite (entry_score_reads c email email' assets Hf Hs). reflexivity.
Qed.

(** The compiled catalog keeps the entries and their order. *)
Lemma init_keeps_order (ps : list PartnerPattern) (m : PatternMatcher.t) :
  PatternMatcher.init ps = Some m ->
  map (fun c => fst (fst c)) (PatternMatcher._compiled_patterns m) = ps.
Proof.
  unfold PatternMatcher.init.
  destruct (PatternMatcher.compile_patterns ps) as [cs |] eqn:Hc; [| discriminate].
  intro H. injection H as <-. cbn [PatternMatcher._compiled_patterns].
  revert cs Hc. induction ps as [| p ps IH]; intros cs Hc.
  - cbn in Hc. injection Hc as <-. reflexivity.
  - cbn [PatternMatcher.compile_patterns] in Hc.
    destruct (compile_all (map PatternMatcher.sender_regex (sender_patterns p))); [| discriminate].
    destruct (compile_all (subject_patterns p)); [| discriminate].
    destruct (PatternMatcher.compile_patterns ps) as [cs' |]; [| discriminate].
    injection Hc as <-. cbn [map fst]. rewrite (IH cs' eq_refl). reflexivity.
Qed.


Lemma matched_cols_le (expected cols : list string) :
  (PatternMatcher.matched_cols expected cols <= List.length expected)%nat.
Proof. unfold PatternMatcher.matched_cols. apply filter_length_le. Qed.

Lemma ratio_range (k n : nat) :
  (k <= n)%nat -> (0 < n)%nat ->
  0 <= inject_Z (Z.of_nat k) / inject_Z (Z.of_nat n) /\
  inject_Z (Z.of_nat k) / inject_Z (Z.of_nat n) <= 1.
Proof.
  intros Hk Hn.
  assert (Hn' : 0 < inject_Z (Z.of_nat n)).
  { change 0 with (inject_Z 0). rewrite <- Zlt_Qlt. lia. }
  assert (Hk0 : 0 <= inject_Z (Z.of_nat k)).
  { change 0 with (inject_Z 0). rewrite <- Zle_Qle. lia. }
  assert (Hkn : inject_Z (Z.of_nat k) <= inject_Z (Z.of_nat n)).
  { rewrite <- Zle_Qle. lia. }
  split.
  - apply Qle_shift_div_l; [exact Hn' | lra].
  - apply Qle_shift_div_r; [exact Hn' | lra].
Qed.

(** An entry's score is the sum of its four contributions, each added at
    most once. *)
Lemma entry_score_parts (c : PatternMatcher.compiled) (email : EmailMessage)
    (assets : list ExtractedAsset) :
  exists col,
    0 <= col /\ col <= 0.30 /\
    entry_score_of email assets c
      == (if sender_hit c email then 0.30 else 0)
         + (if subject_hit c email then 0.20 else 0)
         + (if format_hit c assets then 0.20 else 0)
         + col.
Proof.
  destruct c as [[p senders] subjects].
  unfold entry_score_of, PatternMatcher.entry_score, sender_hit, subject_hit, format_hit.
  cbn [fst snd].
  destruct (existsb _ senders); destruct (existsb _ subjects);
    destruct (expected_format p) as [fmt |];
    try destruct (Py.truthy fmt && existsb (PatternMatcher.format_matches fmt) assets);
    destruct (expected_columns p) as [[| e es] |];
    try destruct (find _ assets) as [asset |]; cbn [fst];
    try (exists 0; split; [lra | split; [lra | lra]]);
    match goal with
    | |- context [inject_Z (Z.of_nat ?k) / inject_Z (Z.of_nat ?n)] =>
        let H := fresh in
        assert (H : (k <= n)%nat /\ (0 < n)%nat)
          by (split; [apply matched_cols_le | cbn [List.length]; lia]);
        destruct (ratio_range k n (proj1 H) (proj2 H));
        exists (0.30 * (inject_Z (Z.of_nat k) / inject_Z (Z.of_nat n)));
        split; [lra | split; [lra | lra]]
    end.
Qed.

Lemma entry_score_range (c : PatternMatcher.compiled) (email : EmailMessage)
    (assets : list ExtractedAsset) :
  0 <= entry_score_of email assets c /\ entry_score_of email assets c <= 1.
Proof.
  destruct (entry_score_parts c email assets) as (col & H0 & H1 & ->).
  destruct (sender_hit c email); destruct (subject_hit c email);
    destruct (format_hit c assets); split; lra.
Qed.

(** C10.  Every catalog entry's score is the sum of a sender part (0.30 or
    0), a subject part (0.20 or 0), a format part (0.20 or 0) and a column
    part between 0 and 0.30, so it lies in [0,1]; hence the confidence that
    [match] returns lies in [0,1] although the code never clamps it. *)
Theorem match_confidence_in_unit_interval (self : PatternMatcher.t) (email : EmailMessage)
    (assets : list ExtractedAsset) :
  (forall c,
     (exists col,
        0 <= col /\ col <= 0.30 /\
        entry_score_of email assets c
          == (if sender_hit c email then 0.30 else 0)
             + (if subject_hit c email then 0.20 else 0)
             + (if format_hit c assets then 0.20 else 0)
             + col) /\
     0 <= entry_score_of email assets c /\ entry_score_of email assets c <= 1) /\
  0 <= snd (fst (PatternMatcher.match_ self email assets)) /\
  snd (fst (PatternMatcher.match_ self email assets)) <= 1.
Proof.
  split.
  - intro c. split; [apply entry_score_parts | apply entry_score_range].
  - unfold PatternMatcher.match_.
    destruct (fold_step_best email assets (PatternMatcher._compiled_patterns self)
                (None, 0.0, [])) as (_ & _ & Hsel).
    destruct Hsel as [[-> _] | (l1 & c & l2 & _ & -> & _ & _)]; cbn [fst snd].
    + split; lra.
    + apply entry_score_range.
Qed.

End MatcherProperties.

(** ** Strings and subsequences *)

Lemma prefix_chars_spec (p s : list ascii) :
  Py.prefix_chars p s = true <-> exists post, s = (p ++ post)%list.
Proof.
  revert s. induction p as [| a p IH]; intro s.
  - cbn. split; [intros _; exists s; reflexivity | reflexivity].
  - destruct s as [| b s]; cbn [Py.prefix_chars].
    + split; [discriminate | intros [post H]; discriminate H].
    + rewrite andb_true_iff, Ascii.eqb_eq, IH. split.
      * intros [-> [post ->]]. exists post. reflexivity.
      * intros [post H]. cbn in H. injection H as -> ->.
        split; [reflexivity | exists post; reflexivity].
Qed.

Lemma contains_chars_spec (p s : list ascii) :
  Py.contains_chars p s = true <-> exists pre post, s = (pre ++ p ++ post)%list.
Proof.
  induction s as [| b s IH].
  - cbn [Py.contains_chars]. rewrite orb_false_r, prefix_chars_spec. split.
    + intros [post H]. exists [], post. exact H.
    + intros (pre & post & H).
      destruct pre as [| x pre]; [exists post; exact H | discriminate H].
  - cbn [Py.contains_chars]. rewrite orb_true_iff, prefix_chars_spec, IH. split.
    + intros [[post H] | (pre & post & H)].
      * exists [], post. exact H.
      * exists (b :: pre), post. cbn. rewrite H. reflexivity.
    + intros (pre & post & H). destruct pre as [| x pre].
      * left. exists post. exact H.
      * right. cbn in H. injection H as _ H. exists pre, post. exact H.
Qed.

Lemma startswith_spec (s p : string) : Py.startswith s p = true <-> prefix_of p s.
Proof. unfold Py.startswith, prefix_of. apply prefix_chars_spec. Qed.

Lemma contains_spec (p s : string) : Py.contains p s = true <-> substring_of p s.
Proof. unfold Py.contains, substring_of. apply contains_chars_spec. Qed.

Lemma endswith_spec (s p : string) : Py.endswith s p = true <-> suffix_of p s.
Proof.
  unfold Py.endswith, suffix_of. rewrite prefix_chars_spec. split.
  - intros [post H]. exists (rev post).
    rewrite <- (rev_involutive (Py.chars s)), H, rev_app_distr, rev_involutive. reflexivity.
  - intros [pre H]. exists (rev pre). rewrite H, rev_app_distr. reflexivity.
Qed.

Lemma Subseq_In {A : Type} (l1 l2 : list A) (x : A) : Subseq l1 l2 -> In x l1 -> In x l2.
Proof.
  induction 1 as [| y l1 l2 _ IH | y l1 l2 _ IH]; intro Hin.
  - exact Hin.
  - right. apply IH. exact Hin.
  - destruct Hin as [-> | Hin]; [left; reflexivity | right; apply IH; exact Hin].
Qed.

Lemma Subseq_NoDup {A : Type} (l1 l2 : list A) : Subseq l1 l2 -> NoDup l2 -> NoDup l1.
Proof.
  induction 1 as [| y l1 l2 Hs IH | y l1 l2 Hs IH]; intro Hnd.
  - constructor.
  - inversion Hnd; subst. apply IH. assumption.
  - inversion Hnd as [| ? ? Hnotin Hnd']; subst. constructor.
    + intro Hin. apply Hnotin. apply (Subseq_In _ _ _ Hs Hin).
    + apply IH. exact Hnd'.
Qed.

Lemma Classification_eqb_eq (a b : Classification) : Classification_eqb a b = true <-> a = b.
Proof. destruct a, b; cbn; split; intro H; try reflexivity; discriminate H. Qed.

(** ** Asset extraction *)

Section ExtractionProperties.

Import Eff.

Variable World : Type.
Variable env : EmailScanner.Env World.

Lemma extract_columns_total (file_path : string) (w : World) :
  exists cols w', EmailScanner._extract_columns env file_path w = (Return cols, w').
Proof.
  unfold EmailScanner._extract_columns, try_except.
  destruct (EmailScanner.read_header env file_path w) as [[cols | e] w'].
  - exists cols, w'. reflexivity.
  - exists None, w'. reflexivity.
Qed.

(** One data-file attachment adds exactly one attachment asset that carries
    its filename, whatever the collaborators do. *)
Lemma extract_attachments_step (email : EmailMessage) (path : string)
    (att : EmailAttachment) (rest : list EmailAttachment)
    (assets : list ExtractedAsset) (w : World) :
  EmailClassifier.is_data_file att = true ->
  exists a w',
    EmailScanner.extract_attachments env email path (att :: rest) assets w
      = EmailScanner.extract_attachments env email path rest (assets ++ [a])%list w' /\
    asset_type a = "attachment" /\ filename a = Some (att_filename att).
Proof.
  intro Hd. cbn [EmailScanner.extract_attachments]. rewrite Hd.
  unfold bind at 1. unfold try_except, bind, ret.
  destruct (EmailScanner.save_attachment env (message_id email) att path w) as [[fp | e] w1].
  - destruct (EmailScanner.path_exists env fp w1) as [[[|] | e] w2].
    + destruct (extract_columns_total fp w2) as (cols & w3 & ->).
      eexists. exists w3. split; [reflexivity | split; reflexivity].
    + eexists. exists w2. split; [reflexivity | split; reflexivity].
    + eexists. exists w2. split; [reflexivity | split; reflexivity].
  - eexists. exists w1. split; [reflexivity | split; reflexivity].
Qed.

Lemma extract_attachments_shape (email : EmailMessage) (path : string)
    (atts : list EmailAttachment) (assets : list ExtractedAsset) (w : World) :
  exists A w',
    EmailScanner.extract_attachments env email path atts assets w
      = (Return (assets ++ A)%list, w') /\
    Forall (fun a => asset_type a = "attachment") A /\
    map filename A
      = map (fun att => Some (att_filename att)) (filter EmailClassifier.is_data_file atts).
Proof.
  revert assets w. induction atts as [| att rest IH]; intros assets w.
  - exists [], w. cbn. rewrite app_nil_r. repeat split. constructor.
  - destruct (EmailClassifier.is_data_file att) eqn:Hd.
    + destruct (extract_attachments_step email path att rest assets w Hd)
        as (a & w1 & -> & Ht & Hf).
      destruct (IH (assets ++ [a])%list w1) as (A & w' & -> & HA & Hm).
      exists (a :: A), w'. rewrite <- app_assoc. cbn [app filter map]. rewrite Hd.
      cbn [map]. repeat split.
      * constructor; assumption.
      * rewrite Hf, Hm. reflexivity.
    + cbn [EmailScanner.extract_attachments filter]. rewrite Hd. apply IH.
Qed.

Lemma extract_links_shape (email : EmailMessage) (body : string)
    (table : list (string * Re.Pattern)) (assets : list ExtractedAsset) :
  exists L,
    fold_left
      (fun assets kv =>
         match Re.search (snd kv) body with
         | Some m => Py.append assets (EmailScanner.link_asset email (snd m) (fst kv))
         | None => assets
         end) table assets = (assets ++ L)%list /\
    Forall (fun a => asset_type a = "link") L /\
    Subseq (map link_type L) (map (fun kv => Some (fst kv)) table).
Proof.
  revert assets. induction table as [| kv table IH]; intro assets.
  - exists []. cbn. rewrite app_nil_r. repeat split; constructor.
  - cbn [fold_left map]. destruct (Re.search (snd kv) body) as [m |].
    + destruct (IH (Py.append assets (EmailScanner.link_asset email (snd m) (fst kv))))
        as (L & -> & HL & Hs).
      exists (EmailScanner.link_asset email (snd m) (fst kv) :: L).
      unfold Py.append. rewrite <- app_assoc. repeat split.
      * constructor; [reflexivity | exact HL].
      * cbn [map]. apply Subseq_keep. exact Hs.
    + destruct (IH assets) as (L & -> & HL & Hs).
      exists L. repeat split; [exact HL | apply Subseq_skip; exact Hs].
Qed.

Lemma extract_assets_returns (self : EmailScanner.t) (email : EmailMessage)
    (run_id : string) (w : World) :
  exists l w', EmailScanner.extract_assets env self email run_id w = (Return l, w').
Proof.
  unfold EmailScanner.extract_assets.
  destruct (extract_attachments_shape email (EmailScanner.extraction_dir self ++ "/" ++ run_id)
              (attachments email) [] w) as (A & w' & HA & _).
  unfold bind. rewrite HA. eexists. exists w'. reflexivity.
Qed.

(** C6.  [extract_assets] returns the attachment assets first, one per
    attachment with a data-file extension and in the order of the message's
    attachments, and then the link assets, at most one per link type and in
    the order of the link-pattern table. *)
Theorem extract_assets_order (self : EmailScanner.t) (email : EmailMessage)
    (run_id : string) (w : World) :
  exists A L w',
    EmailScanner.extract_assets env self email run_id w = (Return (A ++ L)%list, w') /\
    Forall (fun a => asset_type a = "attachment") A /\
    map filename A
      = map (fun att => Some (att_filename att))
            (filter EmailClassifier.is_data_file (attachments email)) /\
    Forall (fun a => asset_type a = "link") L /\
    Subseq (map link_type L)
           [Some "google_sheets"; Some "dropbox"; Some "box"; Some "onedrive";
            Some "s3_presigned"] /\
    NoDup (map link_type L).
Proof.
  unfold EmailScanner.extract_assets.
  destruct (extract_attachments_shape email (EmailScanner.extraction_dir self ++ "/" ++ run_id)
              (attachments email) [] w) as (A & w' & HA & HtA & HmA).
  cbn [app] in HA.
  destruct (extract_links_shape email (Py.or_str (body_text email) (body_html email))
              EmailClassifier._links A) as (L & HL & HtL & HsL).
  exists A, L, w'. unfold bind. rewrite HA. unfold ret, EmailScanner.extract_links.
  rewrite HL.
  assert (Hs : Subseq (map link_type L)
             [Some "google_sheets"; Some "dropbox"; Some "box"; Some "onedrive";
              Some "s3_presigned"]).
  { exact HsL. }
  repeat split; try assumption.
  apply (Subseq_NoDup _ _ Hs).
  repeat constructor; cbn; intuition discriminate.
Qed.


End ExtractionProperties.



(** ** The blocklist *)

(** C9, as amended.  A message is blocked exactly when its lowercased sender
    address ends with the part after the star of a configured [*@...]
    entry, or contains another configured sender entry as a substring, or
    contains [@] followed by a configured blocked domain as a substring.  A
    blocked message is returned as not-data with route skip and no assets,
    and the world is left as it was: nothing is extracted. *)
Theorem blocklist_check (World : Type) (env : EmailScanner.Env World)
    (self : EmailScanner.t) (email : EmailMessage) :
  let from_addr := Py.lower (from_address email) in
  (EmailScanner.is_blocklisted self email = true <->
   (exists blocked, In blocked (EmailScanner.blocklist_senders self) /\
      ((prefix_of "*@" blocked /\ suffix_of (Py.slice_from 1 blocked) from_addr) \/
       (~ prefix_of "*@" blocked /\ substring_of blocked from_addr))) \/
   (exists domain, In domain (EmailScanner.blocklist_domains self) /\
      substring_of ("@" ++ domain) from_addr)) /\
  (EmailScanner.is_blocklisted self email = true ->
   forall run_id w,
     EmailScanner.scan_email env self email run_id w
       = (Eff.Return (mkScanResult email
                        (mkClassificationResult NOT_DATA 0.0%Q ["blocklisted_sender"] [])
                        [] None 0.0%Q "skip"), w)).
Proof.
  intro from_addr. split.
  - unfold EmailScanner.is_blocklisted. fold from_addr.
    rewrite orb_true_iff, !existsb_exists.
    split.
    + intros [(b & Hin & Hb) | (d & Hin & Hd)].
      * left. exists b. split; [exact Hin |]. unfold EmailScanner.sender_blocked in Hb.
        destruct (Py.startswith b "*@") eqn:Hs.
        -- left. split; [apply startswith_spec; exact Hs | apply endswith_spec; exact Hb].
        -- right. split; [| apply contains_spec; exact Hb].
           intro Hp. apply startswith_spec in Hp. congruence.
      * right. exists d. split; [exact Hin | apply contains_spec; exact Hd].
    + intros [(b & Hin & Hb) | (d & Hin & Hd)].
      * left. exists b. split; [exact Hin |]. unfold EmailScanner.sender_blocked.
        destruct Hb as [[Hp Hsuf] | [Hnp Hsub]].
        -- apply startswith_spec in Hp. rewrite Hp. apply endswith_spec. exact Hsuf.
        -- destruct (Py.startswith b "*@") eqn:Hs.
           ++ exfalso. apply Hnp. apply startswith_spec. exact Hs.
           ++ apply contains_spec. exact Hsub.
      * right. exists d. split; [exact Hin | apply contains_spec; exact Hd].
  - intros Hb run_id w. unfold EmailScanner.scan_email. rewrite Hb. reflexivity.
Qed.

(** C9, as stated, fails in both directions for the blocked domain
    [spam.com]: an address at [mail.spam.com], whose domain ends with the
    blocked domain, is not blocked, and an address at
    [spam.com.example.org], whose domain does not and which does not end
    with [@spam.com] either, is blocked. *)
Lemma domain_check_is_not_a_suffix_match :
  exists self,
    EmailScanner.init [] "/tmp/extracts" [] ["spam.com"] = Some self /\
    EmailScanner.is_blocklisted self (from_ "user@mail.spam.com") = false /\
    spec_is_blocklisted self (from_ "user@mail.spam.com") = true /\
    EmailScanner.is_blocklisted self (from_ "user@spam.com.example.org") = true /\
    spec_is_blocklisted self (from_ "user@spam.com.example.org") = false /\
    Py.endswith "user@spam.com.example.org" "@spam.com" = false.
Proof.
  eexists. split; [vm_compute; reflexivity |]. vm_compute. repeat split.
Qed.

(** ** Routing *)

Ltac route_finish :=
  repeat split;
  try solve [ reflexivity | assumption | discriminate
            | left; reflexivity | right; left; reflexivity | right; right; reflexivity
            | right; assumption
            | intros; reflexivity
            | intros; assumption
            | let H := fresh in intros H; discriminate H
            | let H := fresh in intros [H | H]; [discriminate H | contradiction]
            | let H := fresh in intros H; contradiction
            | let H := fresh in intros H; exfalso; apply H; reflexivity
            | let H := fresh in intros (? & ? & H & _); discriminate H ].

(** C1, as amended.  [scan_email] always returns, and its route is skip
    exactly when the sender is blocklisted or the classification is
    not-data; it is auto_process exactly when the matcher returned a
    non-empty partner name and the first catalog entry with that name has
    its auto_process flag set and a threshold that the match confidence
    reaches; in every other case it is review.  Unless the route is skip,
    partner, confidence and factors are those of [match] on the extracted
    assets. *)
Theorem scan_email_route (World : Type) (env : EmailScanner.Env World)
    (self : EmailScanner.t) (email : EmailMessage) (run_id : string) (w : World) :
  exists r w',
    EmailScanner.scan_email env self email run_id w = (Eff.Return r, w') /\
    (route_action r = "skip" <->
       EmailScanner.is_blocklisted self email = true \/
       classification (EmailClassifier.classify email) = NOT_DATA) /\
    (route_action r = "skip" <-> classification (sr_classification r) = NOT_DATA) /\
    (route_action r = "auto_process" <->
       exists name p,
         matched_partner r = Some name /\ name <> "" /\
         find (fun p => String.eqb (partner_name p) name) (EmailScanner.patterns self) = Some p /\
         auto_process p = true /\
         (confidence_threshold p <= pattern_match_confidence r)%Q) /\
    (route_action r = "skip" \/ route_action r = "auto_process" \/ route_action r = "review") /\
    (route_action r <> "skip" ->
       PatternMatcher.match_ (EmailScanner.matcher self) email (extracted_assets r)
         = (matched_partner r, pattern_match_confidence r,
            matched_patterns (sr_classification r))).
Proof.
  unfold EmailScanner.scan_email.
  destruct (EmailScanner.is_blocklisted self email) eqn:Hb.
  { eexists. exists w. split; [reflexivity |].
    cbn [route_action sr_classification classification matched_partner]. route_finish. }
  destruct (Classification_eqb (classification (EmailClassifier.classify email)) NOT_DATA) eqn:Hc.
  { apply Classification_eqb_eq in Hc.
    eexists. exists w. split; [reflexivity |].
    cbn [route_action sr_classification matched_partner]. route_finish. }
  assert (Hnd : classification (EmailClassifier.classify email) <> NOT_DATA).
  { intro H. apply Classification_eqb_eq in H. congruence. }
  destruct (extract_assets_returns World env self email run_id w) as (assets & w' & Hx).
  unfold Eff.bind. rewrite Hx.
  destruct (PatternMatcher.match_ (EmailScanner.matcher self) email assets)
    as [[partner conf] mf] eqn:Hm.
  eexists. exists w'. split; [reflexivity |].
  cbn [route_action sr_classification classification matched_partner
       pattern_match_confidence extracted_assets matched_patterns
       EmailScanner.set_matched_patterns].
  destruct partner as [name |]; cbn [Py.truthy_opt].
  - unfold Py.truthy. destruct (String.eqb name "") eqn:Hn; cbn [negb].
    + apply String.eqb_eq in Hn. subst name. route_finish.
      intros (name & p & H & Hne & _). injection H as <-. contradiction.
    + apply String.eqb_neq in Hn.
      destruct (find _ (EmailScanner.patterns self)) as [p |] eqn:Hf.
      * destruct (auto_process p) eqn:Ha; cbn [andb].
        -- destruct (Qle_bool (confidence_threshold p) conf) eqn:Hq.
           ++ route_finish.
              intros _. exists name, p. apply Qle_bool_iff in Hq. repeat split; assumption.
           ++ route_finish.
              intros (name' & p' & H & _ & Hf' & _ & Hq'). injection H as <-.
              rewrite Hf in Hf'. injection Hf' as <-. apply Qle_bool_iff in Hq'. congruence.
        -- route_finish.
           intros (name' & p' & H & _ & Hf' & Ha' & _). injection H as <-.
           rewrite Hf in Hf'. injection Hf' as <-. congruence.
      * route_finish.
        intros (name' & p' & H & _ & Hf' & _). injection H as <-.
        rewrite Hf in Hf'. discriminate Hf'.
  - route_finish.
Qed.

(** C1, as stated, fails: the matcher returns the partner of the one catalog
    entry, whose name is empty; that entry has its auto_process flag set and
    the confidence reaches its threshold; yet the route is review. *)
Lemma unnamed_partner_is_reviewed :
  exists self r,
    EmailScanner.init [unnamed_partner] "/tmp/extracts" [] [] = Some self /\
    EmailScanner.scan_email probe_fails_env self message_A "es-1" tt = (Eff.Return r, tt) /\
    matched_partner r = Some (partner_name unnamed_partner) /\
    auto_process unnamed_partner = true /\
    (confidence_threshold unnamed_partner <= pattern_match_confidence r)%Q /\
    route_action r = "review".
Proof.
  do 2 eexists. split; [vm_compute; reflexivity |].
  split; [vm_compute; reflexivity |].
  cbn [matched_partner pattern_match_confidence route_action].
  repeat split. apply Qle_bool_iff. vm_compute. reflexivity.
Qed.

(** With two entries under one name the router reads the first of them,
    which need not be the entry that scored. *)
Example duplicate_names_use_first_entry :
  exists self r,
    EmailScanner.init [acme_manual; acme_feed] "/tmp/extracts" [] [] = Some self /\
    EmailScanner.scan_email probe_fails_env self message_A "es-1" tt = (Eff.Return r, tt) /\
    matched_partner r = Some "Acme" /\
    (pattern_match_confidence r == 0.30)%Q /\
    route_action r = "review".
Proof.
  do 2 eexists. split; [vm_compute; reflexivity |].
  split; [vm_compute; reflexivity |].
  cbn [matched_partner pattern_match_confidence route_action]. repeat split.
Qed.

(** Scenario B: a reply of a reply is skipped and nothing is extracted. *)
Example scenario_B :
  EmailScanner.scan_email probe_fails_env plain_scanner lunch "es-1" tt
    = (Eff.Return (mkScanResult lunch
                     (mkClassificationResult NOT_DATA 0.0%Q ["skip_pattern_matched"] [])
                     [] None 0.0%Q "skip"), tt).
Proof. vm_compute. reflexivity. Qed.

(** Scenario C: "billing" in the sender blocklist blocks billing@vendor.com. *)
Example scenario_C :
  exists self,
    EmailScanner.init [] "/tmp/extracts" ["billing"] [] = Some self /\
    EmailScanner.is_blocklisted self (with_content (from_ "billing@vendor.com")
                                        (body_text message_A) None (attachments message_A))
      = true.
Proof. eexists. split; vm_compute; reflexivity. Qed.

(** Scenario D: sender and two of four columns give 0.45, below 0.80.
    Scenario E: two entries tie at 0.50 and the earlier one is returned. *)
Example scenario_D :
  exists m,
    PatternMatcher.init [acme] = Some m /\
    fst (fst (PatternMatcher.match_ m message_D [asset_D])) = Some "Acme" /\
    (snd (fst (PatternMatcher.match_ m message_D [asset_D])) == 0.45)%Q.
Proof.
  eexists. split; [vm_compute; reflexivity |]. split; vm_compute; reflexivity.
Qed.

Example scenario_E :
  exists m m',
    PatternMatcher.init [entry_A; entry_B] = Some m /\
    PatternMatcher.init [entry_B; entry_A] = Some m' /\
    (entry_score_of message_D [] (nth 0 (PatternMatcher._compiled_patterns m) (acme, [], []))
       == 0.50)%Q /\
    (entry_score_of message_D [] (nth 1 (PatternMatcher._compiled_patterns m) (acme, [], []))
       == 0.50)%Q /\
    fst (fst (PatternMatcher.match_ m message_D [])) = Some "A" /\
    fst (fst (PatternMatcher.match_ m' message_D [])) = Some "B".
Proof.
  do 2 eexists. split; [vm_compute; reflexivity |]. split; [vm_compute; reflexivity |].
  repeat split; vm_compute; reflexivity.
Qed.

(** ** The run *)

Lemma app_one_neq {A : Type} (l : list A) (x : A) : (l ++ [x])%list <> l.
Proof.
  intro H. apply (f_equal (@List.length A)) in H. rewrite length_app in H. cbn in H. lia.
Qed.

(** A message resolves in one way only. *)
Lemma resolves_exclusive (o o' : Resolution) (email : EmailMessage) (r r' : RunResults) :
  resolves o email r r' -> resolves o' email r r' -> o = o'.
Proof.
  intros [_ H] [_ H'].
  destruct o, o'; try reflexivity; exfalso; cbn in H, H';
    repeat match goal with
           | H : _ /\ _ |- _ => destruct H
           | H : exists _, _ |- _ => destruct H
           end;
    match goal with
    | H1 : ?f r' = (?f r ++ [_])%list, H2 : ?f r' = ?f r |- _ =>
        rewrite H2 in H1; symmetry in H1; exact (app_one_neq _ _ H1)
    end.
Qed.

Section RunProperties.

Import Eff.

Variable World : Type.
Variable scan_email_ : EmailMessage -> string -> M World ScanResult.
Variable format_auto : ScanResult -> string -> M World AutoProcessPayload.
Variable format_review : ScanResult -> string -> M World ReviewItem.

Lemma scan_one_resolves (run_id : string) (email : EmailMessage) (r : RunResults) (w : World) :
  exists o r' w',
    EmailScanner.scan_one scan_email_ format_auto format_review run_id email (r, w)
      = (Return tt, (r', w')) /\
    resolves o email r r'.
Proof.
  unfold EmailScanner.scan_one, bind, try_except, on_fst, on_snd, modify, ret.
  cbn [fst snd].
  destruct (scan_email_ email run_id w) as [[sr | e] w1]; cbn [fst snd].
  - destruct (negb (Classification_eqb (classification (sr_classification sr)) NOT_DATA));
      cbn [fst snd];
      (destruct (String.eqb (route_action sr) "auto_process"); cbn [fst snd];
       [ destruct (format_auto sr run_id w1) as [[payload | e] w2]; cbn [fst snd]
       | destruct (String.eqb (route_action sr) "review"); cbn [fst snd];
         [ destruct (format_review sr run_id w1) as [[item | e] w2]; cbn [fst snd] | ] ]).
    all: first
      [ exists AutoProcessed; do 2 eexists; split; [reflexivity |];
        split; [reflexivity |]; cbn; repeat split; eexists; reflexivity
      | exists ReviewQueued; do 2 eexists; split; [reflexivity |];
        split; [reflexivity |]; cbn; repeat split; eexists; reflexivity
      | exists Errored; do 2 eexists; split; [reflexivity |];
        split; [reflexivity |]; cbn; repeat split; eexists; reflexivity
      | exists Skipped; do 2 eexists; split; [reflexivity |];
        split; [reflexivity |]; cbn; repeat split; reflexivity ].
  - exists Errored. do 2 eexists. split; [reflexivity |].
    split; [reflexivity |]. cbn. repeat split. eexists. reflexivity.
Qed.

Lemma scan_loop_resolves (run_id : string) (emails : list EmailMessage)
    (r : RunResults) (w : World) :
  exists os r' w',
    EmailScanner.scan_loop scan_email_ format_auto format_review run_id emails (r, w)
      = (Return tt, (r', w')) /\
    run_resolves emails os r r' /\
    emails_scanned r' = emails_scanned r + List.length emails.
Proof.
  revert r w. induction emails as [| email emails IH]; intros r w.
  - exists [], r, w. cbn. repeat split. lia.
  - destruct (scan_one_resolves run_id email r w) as (o & r1 & w1 & H1 & Ho).
    destruct (IH r1 w1) as (os & r' & w' & Hl & Hos & Hn).
    exists (o :: os), r', w'. cbn [EmailScanner.scan_loop]. unfold bind at 1.
    rewrite H1. split; [exact Hl |]. split.
    + cbn. exists r1. split; assumption.
    + rewrite Hn. destruct Ho as [-> _]. cbn [List.length]. lia.
Qed.


End RunProperties.

(** The run of [scan] itself: when the clock and the message stream answer,
    [scan] returns, with every fetched message scanned and resolved. *)
Lemma scan_completes (World : Type) (env : EmailScanner.Env World) (self : EmailScanner.t)
    (since query : option string) (max_results : nat) (labels : option (list string))
    (w w1 w2 w3 : World) (stamp started : string) (emails : list EmailMessage) :
  EmailScanner.now_strftime env w = (Eff.Return stamp, w1) ->
  EmailScanner.now_isoformat env w1 = (Eff.Return started, w2) ->
  EmailScanner.fetch_emails env since query max_results labels w2 = (Eff.Return emails, w3) ->
  (forall w0, exists t w0', EmailScanner.now_isoformat env w0 = (Eff.Return t, w0')) ->
  exists os r t w',
    EmailScanner.scan env self since query max_results labels w
      = (Eff.Return (set_completed_at t r), w') /\
    run_resolves emails os (mkRunResults ("es-" ++ stamp) started 0 0 [] [] [] None) r /\
    emails_scanned r = List.length emails.
Proof.
  intros Hstamp Hstart Hfetch Hclock.
  unfold EmailScanner.scan, Eff.bind. rewrite Hstamp, Hstart, Hfetch.
  destruct (scan_loop_resolves World (EmailScanner.scan_email env self)
              (fun r id => Eff.ret (EmailScanner._format_auto_process_payload r id))
              (fun r id => Eff.ret (EmailScanner._format_review_item r id))
              ("es-" ++ stamp) emails
              (mkRunResults ("es-" ++ stamp) started 0 0 [] [] [] None) w3)
    as (os & r & w4 & -> & Hres & Hn).
  destruct (Hclock w4) as (t & w5 & Ht). rewrite Ht.
  exists os, r, t, w5. split; [reflexivity |]. split; [exact Hres |].
  rewrite Hn. reflexivity.
Qed.

(* ================================================================== *)
(** * Properties of the scan, the client and the command line *)

(** ** Strings and searches *)

Lemma chars_str (l : list ascii) : Py.chars (Py.str l) = l.
Proof. apply list_ascii_of_string_of_list_ascii. Qed.

Lemma search_from_substring (r : Re.regex) (s : list ascii) (prev : option ascii)
    (i j : nat) (m : string) :
  Re.search_from r prev s i = Some (j, m) ->
  exists pre post, s = (pre ++ Py.chars m ++ post)%list /\ j = i + List.length pre.
Proof.
  revert prev i. induction s as [| x s IH]; intros prev i H; cbn [Re.search_from] in H.
  - destruct (Re.run r (prev, [])) as [| q qs]; [discriminate |].
    injection H as <- <-. exists [], []. cbn. split; [reflexivity | lia].
  - destruct (Re.run r (prev, x :: s)) as [| q qs].
    + apply IH in H. destruct H as (pre & post & -> & ->).
      exists (x :: pre), post. cbn. split; [reflexivity | lia].
    + injection H as <- <-.
      exists [], (skipn (List.length (x :: s) - List.length (snd q)) (x :: s)).
      rewrite chars_str. cbn [app]. rewrite firstn_skipn. split; [reflexivity | cbn; lia].
Qed.

Lemma search_substring (p : Re.Pattern) (s : string) (j : nat) (m : string) :
  Re.search p s = Some (j, m) -> substring_of m s.
Proof.
  unfold Re.search. intro H. apply search_from_substring in H.
  destruct H as (pre & post & H & _). exists pre, post. exact H.
Qed.

(** ** The scan of one message and of a run *)

Section ScannerFacts.

Import Eff.

Variable World : Type.
Variable env : EmailScanner.Env World.

(** The ways [scan_email] ends. *)
Lemma scan_email_cases (self : EmailScanner.t) (msg : EmailMessage)
    (run_id : string) (w : World) :
  exists r w',
    EmailScanner.scan_email env self msg run_id w = (Return r, w') /\
    email r = msg /\
    ((route_action r = "skip" /\ classification (sr_classification r) = NOT_DATA /\
      w' = w /\ extracted_assets r = [] /\ matched_partner r = None /\
      pattern_match_confidence r = 0.0%Q) \/
     (EmailScanner.is_blocklisted self msg = false /\
      classification (sr_classification r) <> NOT_DATA /\
      EmailScanner.extract_assets env self msg run_id w = (Return (extracted_assets r), w') /\
      PatternMatcher.match_ (EmailScanner.matcher self) msg (extracted_assets r)
        = (matched_partner r, pattern_match_confidence r,
           matched_patterns (sr_classification r)) /\
      (route_action r = "review" \/
       (route_action r = "auto_process" /\
        exists name p,
          matched_partner r = Some name /\
          find (fun p => String.eqb (partner_name p) name) (EmailScanner.patterns self) = Some p /\
          auto_process p = true /\
          (confidence_threshold p <= pattern_match_confidence r)%Q)))).
Proof.
  unfold EmailScanner.scan_email.
  destruct (EmailScanner.is_blocklisted self msg) eqn:Hb.
  { eexists. exists w. split; [reflexivity |]. split; [reflexivity |]. left. repeat split. }
  destruct (Classification_eqb (classification (EmailClassifier.classify msg)) NOT_DATA) eqn:Hc.
  { apply Classification_eqb_eq in Hc.
    eexists. exists w. split; [reflexivity |]. split; [reflexivity |]. left.
    repeat split. exact Hc. }
  assert (Hnd : classification (EmailClassifier.classify msg) <> NOT_DATA).
  { intro H. apply Classification_eqb_eq in H. congruence. }
  destruct (extract_assets_returns World env self msg run_id w) as (assets & w' & Hx).
  unfold bind. rewrite Hx.
  destruct (PatternMatcher.match_ (EmailScanner.matcher self) msg assets)
    as [[partner conf] mf] eqn:Hm.
  eexists. exists w'. split; [reflexivity |]. split; [reflexivity |]. right.
  cbn [route_action sr_classification classification matched_partner
       pattern_match_confidence extracted_assets matched_patterns
       EmailScanner.set_matched_patterns].
  split; [reflexivity |]. split; [exact Hnd |]. split; [reflexivity |]. split; [exact Hm |].
  destruct partner as [name |]; cbn [Py.truthy_opt]; [| left; reflexivity].
  destruct (Py.truthy name); [| left; reflexivity].
  destruct (find _ (EmailScanner.patterns self)) as [p |] eqn:Hf; [| left; reflexivity].
  destruct (auto_process p) eqn:Ha; cbn [andb]; [| left; reflexivity].
  destruct (Qle_bool (confidence_threshold p) conf) eqn:Hq; [| left; reflexivity].
  right. split; [reflexivity |]. exists name, p. apply Qle_bool_iff in Hq.
  repeat split; assumption.
Qed.

(** X1.  [scan_email] returns a result for every message, whatever the
    collaborators do.  When the route is "skip" the world is as it was (no
    download, no file probe), and the result has no assets, no partner and
    confidence 0.0; otherwise its assets are what [extract_assets] returns
    on the same world. *)
Theorem skipped_message_is_untouched (self : EmailScanner.t) (msg : EmailMessage)
    (run_id : string) (w : World) :
  exists r w',
    EmailScanner.scan_email env self msg run_id w = (Return r, w') /\
    (route_action r = "skip" ->
     w' = w /\ extracted_assets r = [] /\ matched_partner r = None /\
     pattern_match_confidence r = 0.0%Q) /\
    (route_action r <> "skip" ->
     EmailScanner.extract_assets env self msg run_id w = (Return (extracted_assets r), w')).
Proof.
  destruct (scan_email_cases self msg run_id w) as (r & w' & Hrun & _ & Hcases).
  exists r, w'. split; [exact Hrun |].
  destruct Hcases as [(Hs & _ & Hw & Ha & Hp & Hc) | (_ & _ & Hx & _ & Hroute)].
  - split; [intros _; repeat split; assumption | intro H; contradiction].
  - split; [| intros _; exact Hx].
    intro Hs. destruct Hroute as [H | [H _]]; rewrite H in Hs; discriminate Hs.
Qed.

Lemma extract_attachments_assets (msg : EmailMessage) (path : string)
    (atts : list EmailAttachment) (assets : list ExtractedAsset) (w : World) :
  exists A w',
    EmailScanner.extract_attachments env msg path atts assets w
      = (Return (assets ++ A)%list, w') /\
    Forall2 (asset_of_attachment msg) (filter EmailClassifier.is_data_file atts) A.
Proof.
  revert assets w. induction atts as [| att rest IH]; intros assets w.
  - exists [], w. cbn. rewrite app_nil_r. split; [reflexivity | constructor].
  - cbn [EmailScanner.extract_attachments filter].
    destruct (EmailClassifier.is_data_file att) eqn:Hd; [| apply IH].
    unfold bind at 1. unfold try_except, bind, ret.
    destruct (EmailScanner.save_attachment env (message_id msg) att path w) as [[fp | e] w1].
    + destruct (EmailScanner.path_exists env fp w1) as [[[|] | e] w2].
      * destruct (extract_columns_total World env fp w2) as (cols & w3 & ->).
        destruct (IH (Py.append assets (EmailScanner.attachment_asset msg att fp cols)) w3)
          as (A & w' & -> & HA).
        eexists (_ :: A), w'. unfold Py.append. rewrite <- app_assoc. split; [reflexivity |].
        constructor; [left; do 2 eexists; reflexivity | exact HA].
      * destruct (IH (Py.append assets (EmailScanner.attachment_asset msg att fp None)) w2)
          as (A & w' & -> & HA).
        eexists (_ :: A), w'. unfold Py.append. rewrite <- app_assoc. split; [reflexivity |].
        constructor; [left; do 2 eexists; reflexivity | exact HA].
      * destruct (IH (Py.append assets (EmailScanner.failed_asset msg att e)) w2)
          as (A & w' & -> & HA).
        eexists (_ :: A), w'. unfold Py.append. rewrite <- app_assoc. split; [reflexivity |].
        constructor; [right; eexists; reflexivity | exact HA].
    + destruct (IH (Py.append assets (EmailScanner.failed_asset msg att e)) w1)
        as (A & w' & -> & HA).
      eexists (_ :: A), w'. unfold Py.append. rewrite <- app_assoc. split; [reflexivity |].
      constructor; [right; eexists; reflexivity | exact HA].
Qed.

Lemma extract_links_assets (msg : EmailMessage) (body : string)
    (table : list (string * Re.Pattern)) (assets : list ExtractedAsset) :
  exists L,
    fold_left
      (fun assets kv =>
         match Re.search (snd kv) body with
         | Some m => Py.append assets (EmailScanner.link_asset msg (snd m) (fst kv))
         | None => assets
         end) table assets = (assets ++ L)%list /\
    Forall (fun a => exists kv u, In kv table /\ substring_of u body /\
                                  a = EmailScanner.link_asset msg u (fst kv)) L /\
    (L = [] <-> forall kv, In kv table -> Re.search (snd kv) body = None).
Proof.
  revert assets. induction table as [| kv table IH]; intro assets.
  - exists []. cbn. rewrite app_nil_r. split; [reflexivity |]. split; [constructor |].
    split; [intros _ kv [] | reflexivity].
  - cbn [fold_left]. destruct (Re.search (snd kv) body) as [[j m] |] eqn:Hs.
    + cbn [snd].
      destruct (IH (Py.append assets (EmailScanner.link_asset msg m (fst kv))))
        as (L & -> & HL & _).
      exists (EmailScanner.link_asset msg m (fst kv) :: L).
      unfold Py.append. rewrite <- app_assoc. split; [reflexivity |]. split.
      * constructor.
        -- exists kv, m. split; [left; reflexivity |].
           split; [apply (search_substring _ _ _ _ Hs) | reflexivity].
        -- eapply Forall_impl; [| exact HL].
           intros a (kv' & u & Hin & Hsub & Ha). exists kv', u.
           split; [right; exact Hin | split; assumption].
      * split; [discriminate |]. intro H. specialize (H kv (or_introl eq_refl)). congruence.
    + destruct (IH assets) as (L & -> & HL & Hnil).
      exists L. split; [reflexivity |]. split.
      * eapply Forall_impl; [| exact HL].
        intros a (kv' & u & Hin & Hsub & Ha). exists kv', u.
        split; [right; exact Hin | split; assumption].
      * rewrite Hnil. split.
        -- intros H kv' [<- | Hin]; [exact Hs | apply H; exact Hin].
        -- intros H kv' Hin. apply H. right. exact Hin.
Qed.

Lemma extract_assets_split (self : EmailScanner.t) (msg : EmailMessage)
    (run_id : string) (w : World) :
  exists A L w',
    EmailScanner.extract_assets env self msg run_id w = (Return (A ++ L)%list, w') /\
    Forall2 (asset_of_attachment msg)
            (filter EmailClassifier.is_data_file (attachments msg)) A /\
    Forall (asset_of_link msg) L /\
    (L = [] <->
     forall kv, In kv EmailClassifier._links -> Re.search (snd kv) (message_body msg) = None).
Proof.
  unfold EmailScanner.extract_assets.
  destruct (extract_attachments_assets msg (EmailScanner.extraction_dir self ++ "/" ++ run_id)
              (attachments msg) [] w) as (A & w' & HA & HsA).
  cbn [app] in HA.
  destruct (extract_links_assets msg (message_body msg) EmailClassifier._links A)
    as (L & HL & HsL & Hnil).
  exists A, L, w'. unfold bind. rewrite HA. unfold ret, EmailScanner.extract_links.
  fold (message_body msg). rewrite HL. repeat split; try assumption; apply Hnil.
Qed.

(** X2.  [extract_assets] returns the attachment assets, one for each
    data-file attachment and each either saved (path, MIME type, size and
    perhaps columns) or failed (the error only), followed by link assets
    whose URL is a piece of the body.  Every asset names the message; no
    asset has both a path and an error; the assets with a path are the
    attachment assets without an error. *)
Theorem extracted_assets_shapes (self : EmailScanner.t) (msg : EmailMessage)
    (run_id : string) (w : World) :
  exists A L w',
    EmailScanner.extract_assets env self msg run_id w = (Return (A ++ L)%list, w') /\
    Forall2 (asset_of_attachment msg)
            (filter EmailClassifier.is_data_file (attachments msg)) A /\
    Forall (asset_of_link msg) L /\
    forall a, In a (A ++ L)%list ->
      source_email_id a = message_id msg /\
      (file_path a = None \/ error a = None) /\
      (has_path a = true <->
       asset_type a = "attachment" /\ error a = None) /\
      (error a <> None -> mime_type a = None /\ size_bytes a = None /\ columns a = None).
Proof.
  destruct (extract_assets_split self msg run_id w) as (A & L & w' & Hx & HsA & HsL & _).
  exists A, L, w'. split; [exact Hx |]. split; [exact HsA |]. split; [exact HsL |].
  intros a Hin. apply in_app_or in Hin. destruct Hin as [Hin | Hin].
  - assert (Hshape : exists att, asset_of_attachment msg att a).
    { clear - HsA Hin. induction HsA as [| att a' atts A' H _ IH]; [destruct Hin |].
      destruct Hin as [<- | Hin]; [exists att; exact H | apply IH; exact Hin]. }
    destruct Hshape as (att & [(fp & cols & ->) | (e & ->)]); cbn.
    + intuition (congruence || discriminate).
    + intuition (congruence || discriminate).
  - rewrite Forall_forall in HsL. destruct (HsL a Hin) as (kv & u & _ & _ & ->). cbn.
    intuition (congruence || discriminate).
Qed.

Lemma find_none_filter {A : Type} (f : A -> bool) (l : list A) :
  find f l = None <-> filter f l = [].
Proof.
  induction l as [| x l IH]; cbn; [tauto |].
  destruct (f x); [split; discriminate | exact IH].
Qed.

Lemma found_false (p : Re.Pattern) (s : string) :
  Re.found p s = false <-> Re.search p s = None.
Proof. unfold Re.found. destruct (Re.search p s); split; congruence. Qed.

Lemma analyze_attachments_none (atts : list EmailAttachment) :
  EmailClassifier._analyze_attachments atts = (0.0%Q, []) <->
  filter EmailClassifier.is_data_file atts = [].
Proof.
  rewrite <- find_none_filter. unfold EmailClassifier._analyze_attachments.
  destruct (find EmailClassifier.is_data_file atts); split; intro H;
    try reflexivity; discriminate H.
Qed.

Lemma analyze_links_none (body : string) :
  EmailClassifier._analyze_links body = (0.0%Q, []) <->
  forall kv, In kv EmailClassifier._links -> Re.search (snd kv) body = None.
Proof.
  unfold EmailClassifier._analyze_links.
  destruct (find _ EmailClassifier._links) as [kv |] eqn:Hf.
  - split; [intro H; discriminate H |]. intro H. exfalso.
    apply find_some in Hf. destruct Hf as [Hin Hfound].
    apply H in Hin. apply found_false in Hin. congruence.
  - split; [| reflexivity]. intros _ kv Hin. apply found_false.
    apply (find_none _ _ Hf kv Hin).
Qed.

(** X3.  The classifier and the extraction read the same signals: there is
    an attachment asset exactly when [_analyze_attachments] scores, and a
    link asset exactly when [_analyze_links] scores. *)
Theorem assets_follow_signals (self : EmailScanner.t) (msg : EmailMessage)
    (run_id : string) (w : World) :
  exists A L w',
    EmailScanner.extract_assets env self msg run_id w = (Return (A ++ L)%list, w') /\
    Forall (fun a => asset_type a = "attachment") A /\
    Forall (fun a => asset_type a = "link") L /\
    (A = [] <-> EmailClassifier._analyze_attachments (attachments msg) = (0.0%Q, [])) /\
    (L = [] <-> EmailClassifier._analyze_links (message_body msg) = (0.0%Q, [])).
Proof.
  destruct (extract_assets_split self msg run_id w) as (A & L & w' & Hx & HsA & HsL & Hnil).
  exists A, L, w'. split; [exact Hx |]. split; [| split; [| split]].
  - clear - HsA. induction HsA as [| att a atts A' H _ IH]; constructor; [| exact IH].
    destruct H as [(fp & cols & ->) | (e & ->)]; reflexivity.
  - eapply Forall_impl; [| exact HsL]. intros a (kv & u & _ & _ & ->). reflexivity.
  - rewrite analyze_attachments_none. split.
    + intros ->. inversion HsA. reflexivity.
    + intro H. rewrite H in HsA. inversion HsA. reflexivity.
  - rewrite analyze_links_none. exact Hnil.
Qed.

Lemma raw_sources_paths (r : ScanResult) (run_id : string) :
  map payload_path (raw_sources (EmailScanner._format_auto_process_payload r run_id))
    = saved_paths (extracted_assets r).
Proof.
  unfold EmailScanner._format_auto_process_payload, saved_paths. cbn [raw_sources].
  induction (extracted_assets r) as [| a l IH]; [reflexivity |].
  cbn [flat_map]. rewrite map_app, IH. destruct (file_path a); reflexivity.
Qed.

Lemma saved_paths_length (msg : EmailMessage) (atts : list EmailAttachment)
    (A : list ExtractedAsset) :
  Forall2 (asset_of_attachment msg) atts A ->
  List.length (saved_paths A) = List.length (filter (fun a => has_path a) A) /\
  (List.length (saved_paths A) <= List.length atts)%nat.
Proof.
  induction 1 as [| att a atts A H _ IH]; [split; [reflexivity | cbn; lia] |].
  unfold saved_paths in *. cbn [flat_map filter]. rewrite length_app.
  destruct H as [(fp & cols & ->) | (e & ->)]; cbn; lia.
Qed.

Lemma saved_paths_links (msg : EmailMessage) (L : list ExtractedAsset) :
  Forall (asset_of_link msg) L -> saved_paths L = [].
Proof.
  induction 1 as [| a L (kv & u & _ & _ & ->) _ IH]; [reflexivity |].
  unfold saved_paths in *. cbn. exact IH.
Qed.

(** X4.  The payload of a scanned message has one raw source for each
    asset with a saved path, in order and with that path; so it has at most
    as many as the message has data-file attachments, and none for a message
    without one (links and failed downloads give none).  Every raw source
    carries the message's id, sender and subject and the matched partner. *)
Theorem payload_carries_saved_attachments (self : EmailScanner.t) (msg : EmailMessage)
    (run_id : string) (w : World) :
  exists r w',
    EmailScanner.scan_email env self msg run_id w = (Return r, w') /\
    let payload := EmailScanner._format_auto_process_payload r run_id in
    map payload_path (raw_sources payload) = saved_paths (extracted_assets r) /\
    List.length (raw_sources payload)
      = List.length (filter (fun a => has_path a) (extracted_assets r)) /\
    (List.length (raw_sources payload)
       <= List.length (filter EmailClassifier.is_data_file (attachments msg)))%nat /\
    (filter EmailClassifier.is_data_file (attachments msg) = [] -> raw_sources payload = []) /\
    Forall (fun s =>
              source_system s = "email" /\ payload_type s = "file_reference" /\
              rs_partner_name s = matched_partner r /\
              md_message_id (email_metadata s) = message_id msg /\
              md_from (email_metadata s) = from_address msg /\
              md_subject (email_metadata s) = subject msg) (raw_sources payload).
Proof.
  destruct (scan_email_cases self msg run_id w) as (r & w' & Hrun & Hmsg & Hcases).
  exists r, w'. split; [exact Hrun |]. intro payload.
  assert (Hmeta : Forall (fun s =>
              source_system s = "email" /\ payload_type s = "file_reference" /\
              rs_partner_name s = matched_partner r /\
              md_message_id (email_metadata s) = message_id msg /\
              md_from (email_metadata s) = from_address msg /\
              md_subject (email_metadata s) = subject msg) (raw_sources payload)).
  { subst payload. unfold EmailScanner._format_auto_process_payload. cbn [raw_sources].
    rewrite Hmsg. apply Forall_flat_map. apply Forall_forall. intros a _.
    destruct (file_path a); constructor; [repeat split | constructor]. }
  assert (Hlen : List.length (raw_sources payload)
                 = List.length (saved_paths (extracted_assets r))).
  { rewrite <- (raw_sources_paths r run_id). symmetry. apply length_map. }
  split; [apply raw_sources_paths |].
  destruct Hcases as [(_ & _ & _ & Ha & _) | (_ & _ & Hx & _)].
  - assert (Hnil : raw_sources payload = []).
    { subst payload. unfold EmailScanner._format_auto_process_payload. rewrite Ha.
      reflexivity. }
    rewrite Ha, Hnil in *. cbn. repeat split; try lia. constructor.
  - destruct (extract_assets_split self msg run_id w) as (A & L & w2 & Hx' & HsA & HsL & _).
    rewrite Hx in Hx'. injection Hx' as HAL _.
    destruct (saved_paths_length msg _ A HsA) as [HlenA HleA].
    pose proof (saved_paths_links msg L HsL) as HpL.
    assert (Hsp : saved_paths (extracted_assets r) = saved_paths A).
    { rewrite HAL. unfold saved_paths in *. rewrite flat_map_app, HpL. apply app_nil_r. }
    assert (HfL : filter (fun a => has_path a) L = []).
    { clear - HsL. induction HsL as [| a L (kv & u & _ & _ & ->) _ IH]; [reflexivity |].
      cbn. exact IH. }
    rewrite Hlen, Hsp, HAL, filter_app, HfL, app_nil_r.
    split; [exact HlenA |]. split; [exact HleA |]. split; [| exact Hmeta].
    intro Hnone. rewrite Hnone in HleA. cbn in HleA.
    apply length_zero_iff_nil. rewrite Hlen, Hsp. lia.
Qed.

Lemma concrete_scan_one (self : EmailScanner.t) (run_id : string) (msg : EmailMessage)
    (r : RunResults) (w : World) :
  exists r' w',
    EmailScanner.scan_one (EmailScanner.scan_email env self)
      (fun sr id => ret (EmailScanner._format_auto_process_payload sr id))
      (fun sr id => ret (EmailScanner._format_review_item sr id))
      run_id msg (r, w) = (Return tt, (r', w')) /\
    emails_scanned r' = emails_scanned r + 1 /\
    errors r' = errors r /\
    ((auto_processed r' = auto_processed r /\ review_queue r' = review_queue r /\
      emails_classified_as_data r' = emails_classified_as_data r) \/
     ((exists x, auto_processed r' = (auto_processed r ++ [x])%list) /\
      review_queue r' = review_queue r /\
      emails_classified_as_data r' = emails_classified_as_data r + 1) \/
     (auto_processed r' = auto_processed r /\
      (exists x, review_queue r' = (review_queue r ++ [x])%list) /\
      emails_classified_as_data r' = emails_classified_as_data r + 1)).
Proof.
  destruct (scan_email_cases self msg run_id w) as (sr & w' & Hrun & _ & Hcases).
  unfold EmailScanner.scan_one, bind, try_except, on_fst, on_snd, modify, ret.
  cbn [fst snd]. rewrite Hrun. cbn [fst snd].
  destruct Hcases as [(Hs & Hc & _) | (_ & Hc & _ & _ & Hroute)].
  - rewrite Hc, Hs. cbn. do 2 eexists. split; [reflexivity |]. cbn.
    split; [reflexivity |]. split; [reflexivity |]. left. repeat split.
  - assert (Hn : Classification_eqb (classification (sr_classification sr)) NOT_DATA = false).
    { destruct (Classification_eqb _ _) eqn:E; [| reflexivity].
      apply Classification_eqb_eq in E. contradiction. }
    rewrite Hn. destruct Hroute as [Hr | [Hr _]]; rewrite Hr; cbn;
      do 2 eexists; (split; [reflexivity |]); cbn;
      (split; [reflexivity |]); (split; [reflexivity |]).
    + right. right. repeat split. eexists. reflexivity.
    + right. left. repeat split. eexists. reflexivity.
Qed.

(** X5.  A run of the loop of [scan] over any messages ends without an
    error entry, because [scan_email] swallows what the collaborators raise;
    it counts every message as scanned, and the count of data messages is
    the number of payloads plus the number of review items. *)
Theorem run_counters_agree (self : EmailScanner.t) (run_id started : string)
    (emails : list EmailMessage) (w : World) :
  exists r' w',
    EmailScanner.scan_loop (EmailScanner.scan_email env self)
      (fun sr id => ret (EmailScanner._format_auto_process_payload sr id))
      (fun sr id => ret (EmailScanner._format_review_item sr id))
      run_id emails (mkRunResults run_id started 0 0 [] [] [] None, w)
      = (Return tt, (r', w')) /\
    errors r' = [] /\
    emails_scanned r' = List.length emails /\
    emails_classified_as_data r'
      = List.length (auto_processed r') + List.length (review_queue r') /\
    (emails_classified_as_data r' <= emails_scanned r')%nat.
Proof.
  assert (Hgen : forall emails r w,
    exists r' w',
      EmailScanner.scan_loop (EmailScanner.scan_email env self)
        (fun sr id => ret (EmailScanner._format_auto_process_payload sr id))
        (fun sr id => ret (EmailScanner._format_review_item sr id))
        run_id emails (r, w) = (Return tt, (r', w')) /\
      errors r' = errors r /\
      emails_scanned r' = emails_scanned r + List.length emails /\
      emails_classified_as_data r' + List.length (auto_processed r)
        + List.length (review_queue r)
        = emails_classified_as_data r + List.length (auto_processed r')
          + List.length (review_queue r') /\
      (emails_classified_as_data r' <= emails_classified_as_data r + List.length emails)%nat).
  { clear emails w. induction emails as [| msg emails IH]; intros r w.
    - exists r, w. cbn. repeat split; lia.
    - destruct (concrete_scan_one self run_id msg r w) as (r1 & w1 & H1 & Hn & He & Hl).
      destruct (IH r1 w1) as (r' & w' & Hl' & He' & Hn' & Hc' & Hle').
      exists r', w'. cbn [EmailScanner.scan_loop]. unfold bind at 1. rewrite H1.
      split; [exact Hl' |]. split; [congruence |]. cbn [List.length].
      destruct Hl as [(Ha & Hr & Hc) | [((x & Ha) & Hr & Hc) | (Ha & (x & Hr) & Hc)]];
        rewrite ?Ha, ?Hr, ?length_app in Hc'; cbn [List.length] in Hc';
        repeat split; lia. }
  destruct (Hgen emails (mkRunResults run_id started 0 0 [] [] [] None) w)
    as (r' & w' & Hl & He & Hn & Hc & Hle).
  exists r', w'. cbn in He, Hn, Hc, Hle. repeat split; try assumption; lia.
Qed.

(** X6.  A matched partner has a confidence in (0, 1].  A message is
    auto-processed only if the catalog has an entry with [auto_process] set
    and a threshold that is at most the confidence, hence at most 1; a
    catalog whose entries all have the flag off or a threshold above 1
    auto-processes nothing. *)
Theorem auto_process_needs_enabled_entry (self : EmailScanner.t) (msg : EmailMessage)
    (run_id : string) (w : World) :
  exists r w',
    EmailScanner.scan_email env self msg run_id w = (Return r, w') /\
    (matched_partner r <> None ->
     (0 < pattern_match_confidence r)%Q /\ (pattern_match_confidence r <= 1)%Q) /\
    (route_action r = "auto_process" ->
     exists p, In p (EmailScanner.patterns self) /\ auto_process p = true /\
               (confidence_threshold p <= pattern_match_confidence r)%Q /\
               (confidence_threshold p <= 1)%Q) /\
    ((forall p, In p (EmailScanner.patterns self) ->
        auto_process p = false \/ (1 < confidence_threshold p)%Q) ->
     route_action r <> "auto_process").
Proof.
  destruct (scan_email_cases self msg run_id w) as (r & w' & Hrun & _ & Hcases).
  exists r, w'. split; [exact Hrun |].
  assert (Hconf : matched_partner r <> None ->
                  (0 < pattern_match_confidence r)%Q /\ (pattern_match_confidence r <= 1)%Q).
  { destruct Hcases as [(_ & _ & _ & _ & Hp & _) | (_ & _ & _ & Hm & _)]; [congruence |].
    intro Hsome. unfold PatternMatcher.match_ in Hm.
    destruct (fold_step_best msg (extracted_assets r)
                (PatternMatcher._compiled_patterns (EmailScanner.matcher self))
                (None, 0.0%Q, [])) as (_ & _ & Hsel).
    rewrite Hm in Hsel. cbn [fst snd] in Hsel.
    destruct Hsel as [[Heq _] | (l1 & c & l2 & _ & Heq & Hpos & _)].
    - injection Heq as Hp _ _. congruence.
    - injection Heq as _ Hc _. rewrite Hc.
      destruct (entry_score_range c msg (extracted_assets r)) as [_ Hle].
      split; [| exact Hle]. eapply Qle_lt_trans; [| exact Hpos]. discriminate. }
  assert (Hauto : route_action r = "auto_process" ->
     exists p, In p (EmailScanner.patterns self) /\ auto_process p = true /\
               (confidence_threshold p <= pattern_match_confidence r)%Q /\
               (confidence_threshold p <= 1)%Q).
  { intro Ha.
    destruct Hcases as [(Hs & _) | (_ & _ & _ & _ & [Hr | (_ & name & p & Hp & Hf & Hflag & Hthr)])];
      [congruence | congruence |].
    exists p. apply find_some in Hf. destruct Hf as [Hin _].
    destruct Hconf as [_ Hle]; [congruence |].
    repeat split; try assumption. eapply Qle_trans; eassumption. }
  split; [exact Hconf |]. split; [exact Hauto |].
  intros Hnone Ha. destruct (Hauto Ha) as (p & Hin & Hflag & _ & Hle).
  destruct (Hnone p Hin) as [H | H]; [congruence |].
  apply (Qlt_not_le _ _ H Hle).
Qed.

End ScannerFacts.

(** ** The alias maps of the catalog *)

Section AliasMaps.

Import Eff.

Lemma compile_patterns_aliases (f : PartnerPattern -> list (string * string))
    (ps : list PartnerPattern) :
  PatternMatcher.compile_patterns (map (with_aliases f) ps)
    = option_map (map (with_aliases_compiled f)) (PatternMatcher.compile_patterns ps).
Proof.
  induction ps as [| p ps IH]; [reflexivity |].
  cbn [map PatternMatcher.compile_patterns]. rewrite IH.
  cbn [with_aliases sender_patterns subject_patterns].
  destruct (compile_all (map PatternMatcher.sender_regex (sender_patterns p))); [| reflexivity].
  destruct (compile_all (subject_patterns p)); [| reflexivity].
  destruct (PatternMatcher.compile_patterns ps); reflexivity.
Qed.

Lemma init_aliases (f : PartnerPattern -> list (string * string))
    (ps : list PartnerPattern) (dir : string) (bs bd : list string) :
  EmailScanner.init (map (with_aliases f) ps) dir bs bd
    = option_map (with_aliases_scanner f) (EmailScanner.init ps dir bs bd).
Proof.
  unfold EmailScanner.init, PatternMatcher.init. rewrite compile_patterns_aliases.
  destruct (PatternMatcher.compile_patterns ps); reflexivity.
Qed.

Lemma step_aliases (f : PartnerPattern -> list (string * string)) (msg : EmailMessage)
    (assets : list ExtractedAsset) (b : PatternMatcher.best) (c : PatternMatcher.compiled) :
  PatternMatcher.step msg assets b (with_aliases_compiled f c)
    = PatternMatcher.step msg assets b c.
Proof. destruct b as [[m s] fs], c as [[p ss] subs]. reflexivity. Qed.

Lemma match_aliases (f : PartnerPattern -> list (string * string)) (self : EmailScanner.t)
    (msg : EmailMessage) (assets : list ExtractedAsset) :
  PatternMatcher.match_ (EmailScanner.matcher (with_aliases_scanner f self)) msg assets
    = PatternMatcher.match_ (EmailScanner.matcher self) msg assets.
Proof.
  unfold PatternMatcher.match_. cbn [with_aliases_scanner EmailScanner.matcher
                                     PatternMatcher._compiled_patterns].
  generalize (@None string, 0.0%Q, @nil string).
  induction (PatternMatcher._compiled_patterns (EmailScanner.matcher self)) as [| c l IH];
    intro b; [reflexivity |].
  cbn [map fold_left]. rewrite step_aliases. apply IH.
Qed.

Lemma find_aliases (f : PartnerPattern -> list (string * string)) (name : string)
    (ps : list PartnerPattern) :
  find (fun p => String.eqb (partner_name p) name) (map (with_aliases f) ps)
    = option_map (with_aliases f) (find (fun p => String.eqb (partner_name p) name) ps).
Proof.
  induction ps as [| p ps IH]; [reflexivity |].
  cbn [map find with_aliases partner_name].
  destruct (String.eqb (partner_name p) name); [reflexivity | exact IH].
Qed.

(** X7.  [column_aliases] is never read: two catalogs that differ only in
    their alias maps compile alike, and their scanners give the same result
    on every message. *)
Theorem column_aliases_are_never_read (World : Type) (env : EmailScanner.Env World)
    (f : PartnerPattern -> list (string * string))
    (ps : list PartnerPattern) (dir : string) (bs bd : list string) :
  match EmailScanner.init ps dir bs bd,
        EmailScanner.init (map (with_aliases f) ps) dir bs bd with
  | Some self, Some self' =>
      forall msg run_id w,
        EmailScanner.scan_email env self' msg run_id w
          = EmailScanner.scan_email env self msg run_id w
  | None, None => True
  | _, _ => False
  end.
Proof.
  rewrite init_aliases. destruct (EmailScanner.init ps dir bs bd) as [self |]; [| exact I].
  cbn [option_map]. intros msg run_id w. unfold EmailScanner.scan_email.
  change (EmailScanner.is_blocklisted (with_aliases_scanner f self) msg)
    with (EmailScanner.is_blocklisted self msg).
  destruct (EmailScanner.is_blocklisted self msg); [reflexivity |].
  destruct (Classification_eqb _ _); [reflexivity |].
  change (EmailScanner.extract_assets env (with_aliases_scanner f self) msg run_id)
    with (EmailScanner.extract_assets env self msg run_id).
  unfold bind. destruct (EmailScanner.extract_assets env self msg run_id w) as [[assets | e] w'];
    [| reflexivity].
  rewrite match_aliases.
  destruct (PatternMatcher.match_ (EmailScanner.matcher self) msg assets) as [[partner conf] mf].
  destruct partner as [name |]; [| reflexivity].
  cbn [Py.truthy_opt with_aliases_scanner EmailScanner.patterns].
  destruct (Py.truthy name); [| reflexivity].
  rewrite find_aliases.
  destruct (find _ (EmailScanner.patterns self)) as [p |]; reflexivity.
Qed.

End AliasMaps.

(** ** The signal groups of the classifier *)

Section SignalGroups.

Local Open Scope Q_scope.

Lemma find_existsb {A : Type} (f : A -> bool) (l : list A) :
  existsb f l = match find f l with Some _ => true | None => false end.
Proof. induction l as [| x l IH]; [reflexivity |]. cbn. destruct (f x); [reflexivity | exact IH]. Qed.

Lemma metric_count_le (body : string) : (metric_count body <= 7)%nat.
Proof.
  unfold metric_count.
  apply Nat.le_trans with (List.length EmailClassifier._metric); [apply filter_length_le |].
  vm_compute. apply le_n.
Qed.

Lemma analyze_body_closed_form (body : string) :
  fst (EmailClassifier._analyze_body body)
    == (if has_delivery_phrase body then 0.20 else 0)
       + 0.05 * inject_Z (Z.of_nat (Nat.min (metric_count body) 3)).
Proof.
  pose proof (metric_count_le body) as Hk.
  unfold EmailClassifier._analyze_body, has_delivery_phrase. rewrite find_existsb.
  fold (metric_count body). revert Hk. generalize (metric_count body). intros k Hk.
  destruct (find _ EmailClassifier.DELIVERY_PHRASES);
    do 8 (destruct k as [| k]; [vm_compute; reflexivity |]); lia.
Qed.

Lemma data_weight_values (att : EmailAttachment) (wt : Q) :
  EmailClassifier.data_weight att = Some wt -> wt = 0.30 \/ wt = 0.20.
Proof.
  unfold EmailClassifier.data_weight, dict_get, EmailClassifier.DATA_EXTENSIONS.
  cbn [find fst snd].
  repeat match goal with
         | |- context [String.eqb ?a ?b] => destruct (String.eqb a b)
         end; intro H; try discriminate H; injection H as <-; tauto.
Qed.


End SignalGroups.

(** ** The download requests of the extraction *)

(** X9.  [extract_assets] asks the collaborator for one download for each
    data-file attachment, in the order of the attachments and under the
    message's id, and for no other, whatever the downloads and the file
    probes answer. *)
Theorem one_download_per_data_attachment
    (download : string -> EmailAttachment -> string -> Eff.result string)
    (present : string -> Eff.result bool)
    (csv : string -> Eff.result (option (list string)))
    (xlsx : string -> Eff.result (list string))
    (json : string -> Eff.result (option (list string)))
    (self : EmailScanner.t) (msg : EmailMessage) (run_id : string)
    (log : list (string * string)) :
  exists assets,
    EmailScanner.extract_assets (recording_env download present csv xlsx json)
      self msg run_id log
    = (Eff.Return assets,
       (log ++ map (fun att => (message_id msg, attachment_id att))
                   (filter EmailClassifier.is_data_file (attachments msg)))%list).
Proof.
  unfold EmailScanner.extract_assets.
  set (env := recording_env download present csv xlsx json).
  assert (H : forall atts assets log,
    exists A,
      EmailScanner.extract_attachments env msg
        (EmailScanner.extraction_dir self ++ "/" ++ run_id) atts assets log
      = (Eff.Return A,
         (log ++ map (fun att => (message_id msg, attachment_id att))
                     (filter EmailClassifier.is_data_file atts))%list)).
  { clear log. induction atts as [| att rest IH]; intros assets log.
    - exists assets. cbn. rewrite app_nil_r. reflexivity.
    - cbn [EmailScanner.extract_attachments filter].
      destruct (EmailClassifier.is_data_file att); [| apply IH].
      cbn [map]. unfold Eff.bind at 1. unfold Eff.try_except, Eff.bind, Eff.ret.
      cbn [EmailScanner.save_attachment EmailScanner.path_exists env recording_env].
      unfold answer.
      destruct (download (message_id msg) att _) as [fp | e].
      + destruct (present fp) as [[|] | e].
        * unfold EmailScanner._extract_columns, Eff.try_except, EmailScanner.read_header.
          cbn [EmailScanner.csv_first_row EmailScanner.xlsx_first_row
               EmailScanner.json_keys env recording_env].
          unfold answer, Eff.bind, Eff.ret.
          destruct (String.eqb _ ".csv");
            [destruct (csv fp) |
             destruct (String.eqb _ ".xlsx" || String.eqb _ ".xls");
             [destruct (xlsx fp) | destruct (String.eqb _ ".json"); [destruct (json fp) |]]];
            match goal with
            | |- context [EmailScanner.extract_attachments env msg _ rest ?a ?l] =>
                destruct (IH a l) as (A & ->); exists A; rewrite <- app_assoc; reflexivity
            end.
        * match goal with
          | |- context [EmailScanner.extract_attachments env msg _ rest ?a ?l] =>
              destruct (IH a l) as (A & ->); exists A; rewrite <- app_assoc; reflexivity
          end.
        * match goal with
          | |- context [EmailScanner.extract_attachments env msg _ rest ?a ?l] =>
              destruct (IH a l) as (A & ->); exists A; rewrite <- app_assoc; reflexivity
          end.
      + match goal with
        | |- context [EmailScanner.extract_attachments env msg _ rest ?a ?l] =>
            destruct (IH a l) as (A & ->); exists A; rewrite <- app_assoc; reflexivity
        end. }
  destruct (H (attachments msg) [] log) as (A & HA).
  unfold Eff.bind. rewrite HA. eexists. reflexivity.
Qed.

(** ** Letter case *)

Lemma lower_char_cases (x : ascii) :
  (Py.lower_char x = x /\ Re.swapcase (Py.lower_char x) = Re.swapcase x) \/
  (Py.lower_char x = Re.swapcase x /\ Re.swapcase (Py.lower_char x) = x).
Proof.
  destruct x as [[] [] [] [] [] [] [] []]; vm_compute; tauto.
Qed.

Lemma is_word_lower (x : ascii) : Re.is_word (Py.lower_char x) = Re.is_word x.
Proof. destruct x as [[] [] [] [] [] [] [] []]; reflexivity. Qed.

Lemma is_newline_lower (x : ascii) :
  Ascii.eqb (Py.lower_char x) Re.newline = Ascii.eqb x Re.newline.
Proof. destruct x as [[] [] [] [] [] [] [] []]; reflexivity. Qed.

Lemma class_has_lower (neg : bool) (items : list Re.citem) (x : ascii) :
  Re.class_has neg items (Py.lower_char x) = Re.class_has neg items x.
Proof.
  unfold Re.class_has. f_equal. induction items as [| it items IH]; [reflexivity |].
  cbn [existsb]. rewrite IH. f_equal.
  destruct (lower_char_cases x) as [[H1 H2] | [H1 H2]]; rewrite H2, H1;
    [reflexivity | apply orb_comm].
Qed.

Lemma reads_ci_of_lower (ok : ascii -> bool) :
  (forall x, ok (Py.lower_char x) = ok x) -> reads_ci ok.
Proof. intros H x x' E. rewrite <- (H x), <- (H x'), E. reflexivity. Qed.

Lemma eat_ci (ok : ascii -> bool) (p p' : Re.pos) :
  reads_ci ok -> same_pos_ci p p' -> Forall2 same_pos_ci (Re.eat ok p) (Re.eat ok p').
Proof.
  intros Hok [_ Hs]. unfold Re.eat, same_text_ci in *.
  destruct (snd p) as [| x t], (snd p') as [| x' t']; try discriminate; [constructor |].
  cbn [map] in Hs. injection Hs as Hx Ht. rewrite (Hok x x' Hx).
  destruct (ok x'); constructor; [| constructor].
  split; [cbn; f_equal; exact Hx | exact Ht].
Qed.

Lemma guard_ci (b b' : bool) (p p' : Re.pos) :
  b = b' -> same_pos_ci p p' -> Forall2 same_pos_ci (Re.guard b p) (Re.guard b' p').
Proof. intros <- H. unfold Re.guard. destruct b; constructor; [exact H | constructor]. Qed.

Lemma same_text_length (s s' : list ascii) :
  same_text_ci s s' -> List.length s = List.length s'.
Proof.
  intro H. apply (f_equal (@List.length ascii)) in H. rewrite !length_map in H. exact H.
Qed.

Lemma Forall2_flat_map_ci (f f' : Re.pos -> list Re.pos) (l l' : list Re.pos) :
  (forall q q', same_pos_ci q q' -> Forall2 same_pos_ci (f q) (f' q')) ->
  Forall2 same_pos_ci l l' ->
  Forall2 same_pos_ci (flat_map f l) (flat_map f' l').
Proof.
  intros Hf H. induction H as [| q q' l l' Hq _ IH]; [constructor |].
  cbn [flat_map]. apply Forall2_app; [apply Hf; exact Hq | exact IH].
Qed.

Lemma star_from_ci (step : Re.pos -> list Re.pos) (fuel : nat) (p p' : Re.pos) :
  (forall q q', same_pos_ci q q' -> Forall2 same_pos_ci (step q) (step q')) ->
  same_pos_ci p p' ->
  Forall2 same_pos_ci (Re.star_from step fuel p) (Re.star_from step fuel p').
Proof.
  intro Hstep. revert p p'. induction fuel as [| k IH]; intros p p' Hp.
  - cbn. constructor; [exact Hp | constructor].
  - cbn [Re.star_from]. apply Forall2_app; [| constructor; [exact Hp | constructor]].
    apply Forall2_flat_map_ci; [| apply Hstep; exact Hp].
    intros q q' Hq.
    rewrite (same_text_length _ _ (proj2 Hq)), (same_text_length _ _ (proj2 Hp)).
    destruct (_ <? _)%nat; [apply IH; exact Hq | constructor].
Qed.

Lemma rep_from_ci (step : Re.pos -> list Re.pos) (n : nat) (p p' : Re.pos) :
  (forall q q', same_pos_ci q q' -> Forall2 same_pos_ci (step q) (step q')) ->
  same_pos_ci p p' ->
  Forall2 same_pos_ci (Re.rep_from step n p) (Re.rep_from step n p').
Proof.
  intro Hstep. revert p p'. induction n as [| k IH]; intros p p' Hp.
  - cbn. constructor; [exact Hp | constructor].
  - cbn [Re.rep_from]. apply Forall2_flat_map_ci; [exact IH | apply Hstep; exact Hp].
Qed.

Lemma word_before_ci (p p' : Re.pos) : same_pos_ci p p' -> Re.word_before p = Re.word_before p'.
Proof.
  intros [H _]. unfold Re.word_before.
  destruct (fst p) as [c |], (fst p') as [c' |]; try discriminate; [| reflexivity].
  cbn in H. injection H as H. rewrite <- (is_word_lower c), H. apply is_word_lower.
Qed.

Lemma word_after_ci (p p' : Re.pos) : same_pos_ci p p' -> Re.word_after p = Re.word_after p'.
Proof.
  intros [_ H]. unfold Re.word_after, same_text_ci in *.
  destruct (snd p) as [| c t], (snd p') as [| c' t']; try discriminate; [reflexivity |].
  cbn in H. injection H as H _. rewrite <- (is_word_lower c), H. apply is_word_lower.
Qed.

Lemma run_ci (r : Re.regex) (p p' : Re.pos) :
  same_pos_ci p p' -> Forall2 same_pos_ci (Re.run r p) (Re.run r p').
Proof.
  revert p p'. induction r; intros p p' Hp; cbn [Re.run].
  - constructor; [exact Hp | constructor].
  - apply eat_ci; [| exact Hp]. intros x x' E. unfold Re.eq_ci. rewrite E. reflexivity.
  - apply eat_ci; [| exact Hp]. apply reads_ci_of_lower. intro x.
    rewrite is_newline_lower. reflexivity.
  - apply eat_ci; [| exact Hp]. apply reads_ci_of_lower. apply class_has_lower.
  - apply guard_ci; [| exact Hp]. destruct Hp as [H _].
    destruct (fst p), (fst p'); try discriminate; reflexivity.
  - apply guard_ci; [| exact Hp]. destruct Hp as [_ H]. unfold same_text_ci in H.
    destruct (snd p) as [| c [| d t]], (snd p') as [| c' [| d' t']]; try discriminate;
      try reflexivity.
    cbn in H. injection H as H. rewrite <- (is_newline_lower c), H. apply is_newline_lower.
  - apply guard_ci; [| exact Hp].
    rewrite (word_before_ci _ _ Hp), (word_after_ci _ _ Hp). reflexivity.
  - apply Forall2_flat_map_ci; [exact IHr2 | apply IHr1; exact Hp].
  - apply Forall2_app; [apply IHr1 | apply IHr2]; exact Hp.
  - rewrite (same_text_length _ _ (proj2 Hp)). apply star_from_ci; assumption.
  - rewrite (same_text_length _ _ (proj2 Hp)).
    apply Forall2_flat_map_ci; [| apply IHr; exact Hp].
    intros q q' Hq. apply star_from_ci; assumption.
  - apply Forall2_app; [apply IHr; exact Hp | constructor; [exact Hp | constructor]].
  - apply rep_from_ci; assumption.
Qed.

Lemma search_from_ci (r : Re.regex) (s s' : list ascii) (prev prev' : option ascii) (i : nat) :
  same_pos_ci (prev, s) (prev', s') ->
  match Re.search_from r prev s i, Re.search_from r prev' s' i with
  | Some (j, _), Some (j', _) => j = j'
  | None, None => True
  | _, _ => False
  end.
Proof.
  revert s' prev prev' i. induction s as [| x s IH]; intros s' prev prev' i Hp;
    pose proof (run_ci r _ _ Hp) as Hrun; destruct Hp as [Hprev Hs];
    unfold same_text_ci in Hs; cbn [snd] in Hs;
    destruct s' as [| x' s']; try discriminate; cbn [Re.search_from].
  - inversion Hrun; [exact I | reflexivity].
  - inversion Hrun as [| q q' l l' Hq Hl E1 E2]; [| reflexivity].
    cbn [map] in Hs. injection Hs as Hx Hs. apply IH.
    split; [cbn; f_equal; exact Hx | exact Hs].
Qed.

Lemma lower_chars (s : string) : Py.chars (Py.lower s) = map Py.lower_char (Py.chars s).
Proof. unfold Py.lower, Py.chars, Py.str. apply list_ascii_of_string_of_list_ascii. Qed.

(** Matching with [re.I] reads the text up to letter case. *)
Lemma found_ci (p : Re.Pattern) (s s' : string) :
  Py.lower s = Py.lower s' -> Re.found p s = Re.found p s'.
Proof.
  intro H. unfold Re.found, Re.search.
  assert (Hp : same_pos_ci (None, Py.chars s) (None, Py.chars s')).
  { split; [reflexivity |]. unfold same_text_ci. cbn [snd].
    rewrite <- !lower_chars, H. reflexivity. }
  pose proof (search_from_ci (Re.prog p) _ _ _ _ 0 Hp) as Hs.
  destruct (Re.search_from (Re.prog p) None (Py.chars s) 0) as [[j m] |],
           (Re.search_from (Re.prog p) None (Py.chars s') 0) as [[j' m'] |];
    try contradiction; reflexivity.
Qed.

Lemma find_ext_in {A : Type} (f g : A -> bool) (l : list A) :
  (forall x, f x = g x) -> find f l = find g l.
Proof.
  intro H. induction l as [| x l IH]; [reflexivity |]. cbn. rewrite H, IH. reflexivity.
Qed.

Lemma filter_ext_all {A : Type} (f g : A -> bool) (l : list A) :
  (forall x, f x = g x) -> filter f l = filter g l.
Proof.
  intro H. induction l as [| x l IH]; [reflexivity |]. cbn. rewrite H, IH. reflexivity.
Qed.

Lemma existsb_ext_all {A : Type} (f g : A -> bool) (l : list A) :
  (forall x, f x = g x) -> existsb f l = existsb g l.
Proof.
  intro H. induction l as [| x l IH]; [reflexivity |]. cbn. rewrite H, IH. reflexivity.
Qed.

(** X10.  Letter case is ignored: two messages with the same attachments
    whose sender, subject and body differ in the case of ASCII letters only
    are classified alike, blocked alike and matched alike. *)
Theorem letter_case_is_ignored (self : EmailScanner.t) (msg msg' : EmailMessage)
    (assets : list ExtractedAsset)
    (Hfrom : Py.lower (from_address msg') = Py.lower (from_address msg))
    (Hsubject : Py.lower (subject msg') = Py.lower (subject msg))
    (Hbody : Py.lower (message_body msg') = Py.lower (message_body msg))
    (Hatt : attachments msg' = attachments msg) :
  EmailClassifier.classify msg' = EmailClassifier.classify msg /\
  EmailScanner.is_blocklisted self msg' = EmailScanner.is_blocklisted self msg /\
  PatternMatcher.match_ (EmailScanner.matcher self) msg' assets
    = PatternMatcher.match_ (EmailScanner.matcher self) msg assets.
Proof.
  split; [| split].
  - unfold EmailClassifier.classify. fold (message_body msg') (message_body msg).
    rewrite (existsb_ext_all _ (fun p => Re.found p (subject msg)))
      by (intro p; apply found_ci; exact Hsubject).
    destruct (existsb _ EmailClassifier._skip_subj); [reflexivity |].
    assert (Hs : EmailClassifier._analyze_subject (subject msg')
                 = EmailClassifier._analyze_subject (subject msg)).
    { unfold EmailClassifier._analyze_subject.
      rewrite (find_ext_in _ (fun p => Re.found p (subject msg)) EmailClassifier._high_subj)
        by (intro p; apply found_ci; exact Hsubject).
      rewrite (find_ext_in _ (fun p => Re.found p (subject msg)) EmailClassifier._med_subj)
        by (intro p; apply found_ci; exact Hsubject).
      reflexivity. }
    assert (Hb : EmailClassifier._analyze_body (message_body msg')
                 = EmailClassifier._analyze_body (message_body msg)).
    { unfold EmailClassifier._analyze_body. rewrite Hbody.
      rewrite (filter_ext_all _ (fun p => Re.found p (message_body msg)))
        by (intro p; apply found_ci; exact Hbody).
      reflexivity. }
    assert (Hl : EmailClassifier._analyze_links (message_body msg')
                 = EmailClassifier._analyze_links (message_body msg)).
    { unfold EmailClassifier._analyze_links.
      rewrite (find_ext_in _ (fun kv => Re.found (snd kv) (message_body msg)))
        by (intro kv; apply found_ci; exact Hbody).
      reflexivity. }
    rewrite Hs, Hb, Hl, Hatt, Hsubject. reflexivity.
  - unfold EmailScanner.is_blocklisted. rewrite Hfrom. reflexivity.
  - unfold PatternMatcher.match_.
    generalize (@None string, 0.0%Q, @nil string).
    induction (PatternMatcher._compiled_patterns (EmailScanner.matcher self)) as [| c l IH];
      intro b; [reflexivity |].
    cbn [fold_left]. rewrite IH. f_equal.
    destruct b as [[m s] f], c as [[p senders] subjects].
    unfold PatternMatcher.step, PatternMatcher.entry_score.
    rewrite (existsb_ext_all _ (fun regex => Re.found regex (from_address msg)) senders)
      by (intro p0; apply found_ci; exact Hfrom).
    rewrite (existsb_ext_all _ (fun regex => Re.found regex (subject msg)) subjects)
      by (intro p0; apply found_ci; exact Hsubject).
    reflexivity.
Qed.

Lemma letter_case_is_ignored_witness :
  EmailClassifier.classify message_A_shouted = EmailClassifier.classify message_A /\
  EmailScanner.is_blocklisted plain_scanner message_A_shouted
    = EmailScanner.is_blocklisted plain_scanner message_A /\
  PatternMatcher.match_ (EmailScanner.matcher plain_scanner) message_A_shouted []
    = PatternMatcher.match_ (EmailScanner.matcher plain_scanner) message_A [].
Proof.
  apply (letter_case_is_ignored plain_scanner message_A message_A_shouted []);
    vm_compute; reflexivity.
Defined.

(** ** Sender patterns as globs *)

Lemma str_chars (s : string) : Py.str (Py.chars s) = s.
Proof. apply string_of_list_ascii_of_string. Qed.

Lemma replace_chars_app (c : ascii) (by_ a b : list ascii) :
  Py.replace_chars c by_ (a ++ b) = (Py.replace_chars c by_ a ++ Py.replace_chars c by_ b)%list.
Proof.
  induction a as [| x a IH]; cbn; [reflexivity |]. rewrite IH, app_assoc. reflexivity.
Qed.

Lemma sender_regex_text (pat : string) :
  Py.chars (PatternMatcher.sender_regex pat) = flat_map glob_text (Py.chars pat).
Proof.
  unfold PatternMatcher.sender_regex, Py.replace. rewrite !chars_str.
  change (Py.chars ".*") with [".";"*"]%char. change (Py.chars ".") with ["."]%char.
  induction (Py.chars pat) as [| c l IH]; [reflexivity |].
  cbn [Py.replace_chars flat_map]. rewrite replace_chars_app, IH. f_equal.
  unfold glob_text. destruct (Ascii.eqb c "*"%char) eqn:E1; [reflexivity |].
  cbn [Py.replace_chars]. destruct (Ascii.eqb c "?"%char); reflexivity.
Qed.

Lemma glob_char_tests (c : ascii) :
  glob_char c = true ->
  Ascii.eqb c "("%char = false /\ Ascii.eqb c "["%char = false /\
  Ascii.eqb c "\"%char = false /\ Ascii.eqb c "^"%char = false /\
  Ascii.eqb c "$"%char = false /\ Ascii.eqb c "+"%char = false /\
  Ascii.eqb c "{"%char = false /\ Ascii.eqb c ")"%char = false /\
  Ascii.eqb c "|"%char = false.
Proof.
  unfold glob_char. cbn [Py.chars list_ascii_of_string existsb]. intro H.
  apply negb_true_iff in H. repeat (apply orb_false_iff in H; destruct H as [? H]).
  repeat split; assumption.
Qed.

Lemma glob_text_no_quant (l : list ascii) :
  Forall (fun c => glob_char c = true) l -> Re.no_quant_next (flat_map glob_text l) = true.
Proof.
  intros [| c l' Hc _]; [reflexivity |].
  destruct (glob_char_tests c Hc) as (_ & _ & _ & _ & _ & Hplus & Hbrace & _).
  cbn [flat_map]. unfold glob_text.
  destruct (Ascii.eqb c "*"%char) eqn:E1; [reflexivity |].
  destruct (Ascii.eqb c "?"%char) eqn:E2; [reflexivity |].
  cbn. unfold Re.is_quant_char. rewrite E1, E2, Hplus, Hbrace. reflexivity.
Qed.

Lemma parse_quant_none (a : Re.regex) (s : list ascii) :
  Re.no_quant_next s = true -> Re.parse_quant a s = Some (a, s).
Proof.
  destruct s as [| c s]; [reflexivity |]. cbn. unfold Re.is_quant_char. intro H.
  apply negb_true_iff in H. repeat (apply orb_false_iff in H; destruct H as [H ?]).
  unfold Re.parse_quant. rewrite H.
  repeat match goal with E : Ascii.eqb c _ = false |- _ => rewrite E; clear E end.
  reflexivity.
Qed.

Lemma parse_seq_cons (f : nat) (c : ascii) (s : list ascii) :
  Re.parse_seq (S f) (c :: s)
  = if Ascii.eqb c "|"%char || Ascii.eqb c ")"%char then Some (Re.Eps, c :: s)
    else match Re.parse_atom f (c :: s) with
         | Some (a, s1) =>
             match Re.parse_quant a s1 with
             | Some (q, s2) =>
                 match Re.parse_seq f s2 with
                 | Some (r, s3) => Some (Re.seq_ q r, s3)
                 | None => None
                 end
             | None => None
             end
         | None => None
         end.
Proof. reflexivity. Qed.

Lemma parse_atom_any (f : nat) (rest : list ascii) :
  Re.parse_atom (S f) ("."%char :: rest) = Some (Re.AnyChar, rest).
Proof. reflexivity. Qed.

Lemma parse_atom_chr (f : nat) (c : ascii) (rest : list ascii) :
  glob_char c = true ->
  Ascii.eqb c "*"%char = false -> Ascii.eqb c "?"%char = false ->
  Ascii.eqb c "."%char = false ->
  Re.parse_atom (S f) (c :: rest) = Some (Re.Chr c, rest).
Proof.
  intros Hc E1 E2 E3.
  destruct (glob_char_tests c Hc)
    as (Hpar & Hbra & Hbsl & Hhat & Hdol & Hplus & Hbrace & Hclose & Hbar).
  cbn [Re.parse_atom]. rewrite Hpar, Hbra, Hbsl, E3, Hhat, Hdol. unfold Re.is_quant_char.
  rewrite E1, E2, Hplus, Hbrace, Hclose, Hbar. reflexivity.
Qed.

Lemma parse_quant_star (a : Re.regex) (rest : list ascii) :
  Re.no_quant_next rest = true ->
  Re.parse_quant a ("*"%char :: rest) = Some (Re.Star a, rest).
Proof. intro H. cbn. rewrite H. reflexivity. Qed.

Lemma parse_glob (l : list ascii) :
  Forall (fun c => glob_char c = true) l ->
  forall fuel, List.length l + 1 <= fuel ->
    Re.parse_seq fuel (flat_map glob_text l) = Some (glob_regex l, []).
Proof.
  induction 1 as [| c l Hc Hl IH]; intros fuel Hfuel.
  - destruct fuel as [| f]; [cbn in Hfuel; lia | reflexivity].
  - cbn [List.length] in Hfuel.
    destruct fuel as [| [| f]]; [lia | lia |].
    destruct (glob_char_tests c Hc) as (_ & _ & _ & _ & _ & _ & _ & Hclose & Hbar).
    pose proof (glob_text_no_quant l Hl) as Hnq.
    specialize (IH (S f) ltac:(lia)).
    cbn [flat_map glob_regex]. remember (flat_map glob_text l) as rest eqn:Hrest. clear Hrest.
    unfold glob_text, glob_atom.
    destruct (Ascii.eqb c "*"%char) eqn:E1.
    + cbn [app]. rewrite parse_seq_cons. cbn [Ascii.eqb Bool.eqb orb andb].
      rewrite parse_atom_any, (parse_quant_star _ _ Hnq), IH. reflexivity.
    + destruct (Ascii.eqb c "?"%char) eqn:E2.
      * cbn [app orb]. rewrite parse_seq_cons. cbn [Ascii.eqb Bool.eqb orb andb].
        rewrite parse_atom_any, (parse_quant_none _ _ Hnq), IH. reflexivity.
      * cbn [app orb]. rewrite parse_seq_cons, Hbar, Hclose. cbn [orb].
        destruct (Ascii.eqb c "."%char) eqn:E3.
        -- apply Ascii.eqb_eq in E3. subst c.
           rewrite parse_atom_any, (parse_quant_none _ _ Hnq), IH. reflexivity.
        -- rewrite (parse_atom_chr f c rest Hc E1 E2 E3), (parse_quant_none _ _ Hnq), IH.
           reflexivity.
Qed.

Lemma glob_text_length (l : list ascii) :
  List.length l <= List.length (flat_map glob_text l).
Proof.
  induction l as [| c l IH]; [cbn; lia |]. cbn [flat_map]. rewrite length_app.
  unfold glob_text at 1. destruct (Ascii.eqb c "*"%char); [cbn [List.length]; lia |].
  destruct (Ascii.eqb c "?"%char); cbn [List.length]; lia.
Qed.

Lemma length_chars (s : string) : List.length (Py.chars s) = String.length s.
Proof. induction s as [| c s IH]; cbn; [reflexivity | f_equal; exact IH]. Qed.

Lemma compile_glob (pat : string) :
  Forall (fun c => glob_char c = true) (Py.chars pat) ->
  Re.compile (PatternMatcher.sender_regex pat)
  = Some (Re.mkPattern (PatternMatcher.sender_regex pat) (glob_regex (Py.chars pat))).
Proof.
  intro Hpat. unfold Re.compile.
  assert (Hlen : List.length (Py.chars pat) <= String.length (PatternMatcher.sender_regex pat)).
  { rewrite <- length_chars, sender_regex_text. apply glob_text_length. }
  destruct (4 * String.length (PatternMatcher.sender_regex pat) + 4) as [| f] eqn:Hfuel; [lia |].
  cbn [Re.parse_alt]. rewrite sender_regex_text.
  rewrite (parse_glob _ Hpat f) by lia. reflexivity.
Qed.

Lemma flat_map_single {A : Type} (l : list A) : flat_map (fun q => [q]) l = l.
Proof. induction l as [| x l IH]; cbn; [reflexivity | f_equal; exact IH]. Qed.

Lemma run_seq_ (a b : Re.regex) (p : Re.pos) :
  Re.run (Re.seq_ a b) p = flat_map (Re.run b) (Re.run a p).
Proof.
  destruct b; try reflexivity. cbn [Re.seq_].
  change (Re.run Re.Eps) with (fun q : Re.pos => [q]). symmetry. apply flat_map_single.
Qed.

Lemma star_any_reads (fuel : nat) (prev : option ascii) (t : list ascii) (q : Re.pos) :
  In q (Re.star_from (Re.run Re.AnyChar) fuel (prev, t)) ->
  exists t1, t = (t1 ++ snd q)%list /\ Forall (fun x => x <> Re.newline) t1.
Proof.
  revert prev t. induction fuel as [| k IH]; intros prev t Hin; cbn [Re.star_from] in Hin.
  - destruct Hin as [<- | []]. exists []. split; [reflexivity | constructor].
  - apply in_app_or in Hin. destruct Hin as [Hin | [<- | []]];
      [| exists []; split; [reflexivity | constructor]].
    apply in_flat_map in Hin. destruct Hin as (q1 & Hq1 & Hin).
    cbn [Re.run] in Hq1. unfold Re.eat in Hq1. cbn [snd] in Hq1.
    destruct t as [| x t']; [destruct Hq1 |].
    destruct (negb (Ascii.eqb x Re.newline)) eqn:Hx; [| destruct Hq1].
    destruct Hq1 as [<- | []]. cbn [snd] in Hin.
    destruct (List.length t' <? List.length (x :: t'))%nat; [| destruct Hin].
    destruct (IH _ _ Hin) as (t1 & -> & Ht1). exists (x :: t1). split; [reflexivity |].
    constructor; [| exact Ht1]. intros ->. rewrite Ascii.eqb_refl in Hx. discriminate.
Qed.

Lemma star_from_self (step : Re.pos -> list Re.pos) (fuel : nat) (p : Re.pos) :
  In p (Re.star_from step fuel p).
Proof. destruct fuel; cbn; [left; reflexivity | apply in_or_app; right; left; reflexivity]. Qed.

Lemma star_any_takes (t1 : list ascii) :
  Forall (fun x => x <> Re.newline) t1 ->
  forall (fuel : nat) (prev : option ascii) (rest : list ascii),
    List.length t1 <= fuel ->
    exists prev', In (prev', rest) (Re.star_from (Re.run Re.AnyChar) fuel (prev, (t1 ++ rest)%list)).
Proof.
  induction 1 as [| x t1 Hx _ IH]; intros fuel prev rest Hfuel.
  - exists prev. apply star_from_self.
  - cbn [List.length] in Hfuel. destruct fuel as [| k]; [lia |].
    destruct (IH k (Some x) rest ltac:(lia)) as (prev' & Hin). exists prev'.
    cbn [Re.star_from app]. apply in_or_app. left. apply in_flat_map.
    exists (Some x, (t1 ++ rest)%list). split.
    + cbn [Re.run]. unfold Re.eat. cbn [snd].
      apply Ascii.eqb_neq in Hx. rewrite Hx. left. reflexivity.
    + cbn [snd List.length]. rewrite (proj2 (Nat.ltb_lt _ _)) by lia. exact Hin.
Qed.

Lemma glob_atom_star : glob_atom "*"%char = Re.Star Re.AnyChar.
Proof. reflexivity. Qed.

Lemma glob_atom_one (c : ascii) : c = "?"%char \/ c = "."%char -> glob_atom c = Re.AnyChar.
Proof. intros [-> | ->]; reflexivity. Qed.

Lemma glob_atom_same (c : ascii) :
  c <> "*"%char -> c <> "?"%char -> c <> "."%char -> glob_atom c = Re.Chr c.
Proof.
  intros H1 H2 H3. unfold glob_atom.
  apply Ascii.eqb_neq in H1, H2, H3. rewrite H1, H2, H3. reflexivity.
Qed.

Lemma glob_atom_cases (c : ascii) :
  (c = "*"%char /\ glob_atom c = Re.Star Re.AnyChar) \/
  ((c = "?"%char \/ c = "."%char) /\ glob_atom c = Re.AnyChar) \/
  (c <> "*"%char /\ c <> "?"%char /\ c <> "."%char /\ glob_atom c = Re.Chr c).
Proof.
  unfold glob_atom. destruct (Ascii.eqb c "*"%char) eqn:E1.
  { left. apply Ascii.eqb_eq in E1. split; [exact E1 | reflexivity]. }
  destruct (Ascii.eqb c "?"%char) eqn:E2.
  { right. left. apply Ascii.eqb_eq in E2. split; [left; exact E2 | reflexivity]. }
  destruct (Ascii.eqb c "."%char) eqn:E3.
  { right. left. apply Ascii.eqb_eq in E3. split; [right; exact E3 | reflexivity]. }
  right. right. apply Ascii.eqb_neq in E1, E2, E3. repeat split; assumption.
Qed.

Lemma run_glob_reads (p : list ascii) :
  forall (prev : option ascii) (t : list ascii) (q : Re.pos),
    In q (Re.run (glob_regex p) (prev, t)) ->
    exists mid, t = (mid ++ snd q)%list /\ glob_match p mid.
Proof.
  induction p as [| c p IH]; intros prev t q Hin.
  - destruct Hin as [<- | []]. exists []. split; [reflexivity | constructor].
  - cbn [glob_regex] in Hin. rewrite run_seq_ in Hin. apply in_flat_map in Hin.
    destruct Hin as ([prev1 t2] & Hq1 & Hin).
    destruct (IH _ _ _ Hin) as (mid & -> & Hmid).
    destruct (glob_atom_cases c) as [(-> & Ha) | [(Hc & Ha) | (H1 & H2 & H3 & Ha)]];
      rewrite Ha in Hq1; cbn [Re.run] in Hq1.
    + apply star_any_reads in Hq1. destruct Hq1 as (t1 & -> & Ht1). cbn [snd].
      exists (t1 ++ mid)%list. split; [apply app_assoc |]. constructor; assumption.
    + unfold Re.eat in Hq1. cbn [snd] in Hq1. destruct t as [| x t']; [destruct Hq1 |].
      destruct (negb (Ascii.eqb x Re.newline)) eqn:Hx; [| destruct Hq1].
      destruct Hq1 as [Hq1 | []]. injection Hq1 as _ ->.
      exists (x :: mid). split; [reflexivity |]. apply glob_one; [exact Hc | | exact Hmid].
      intros ->. rewrite Ascii.eqb_refl in Hx. discriminate.
    + unfold Re.eat in Hq1. cbn [snd] in Hq1. destruct t as [| x t']; [destruct Hq1 |].
      destruct (Re.eq_ci c x) eqn:Hx; [| destruct Hq1].
      destruct Hq1 as [Hq1 | []]. injection Hq1 as _ ->.
      exists (x :: mid). split; [reflexivity |]. apply glob_same; try assumption.
      apply Ascii.eqb_eq. exact Hx.
Qed.

Lemma run_glob_takes (p mid : list ascii) :
  glob_match p mid ->
  forall (prev : option ascii) (rest : list ascii),
    exists prev', In (prev', rest) (Re.run (glob_regex p) (prev, (mid ++ rest)%list)).
Proof.
  induction 1 as [| p t1 t2 Ht1 _ IH | c p x t Hc Hx _ IH | c p x t H1 H2 H3 Hx _ IH];
    intros prev rest.
  - exists prev. left. reflexivity.
  - cbn [glob_regex]. rewrite run_seq_, glob_atom_star. cbn [Re.run snd].
    rewrite <- app_assoc.
    destruct (star_any_takes t1 Ht1 (S (List.length (t1 ++ t2 ++ rest)%list)) prev
                (t2 ++ rest)%list) as (prev1 & Hin1).
    { rewrite length_app. lia. }
    destruct (IH prev1 rest) as (prev' & Hin). exists prev'.
    apply in_flat_map. exists (prev1, (t2 ++ rest)%list). split; assumption.
  - cbn [glob_regex]. rewrite run_seq_, (glob_atom_one c Hc). cbn [Re.run app].
    unfold Re.eat. cbn [snd]. apply Ascii.eqb_neq in Hx. rewrite Hx. cbn [negb flat_map].
    rewrite app_nil_r. apply IH.
  - cbn [glob_regex]. rewrite run_seq_, (glob_atom_same c H1 H2 H3). cbn [Re.run app].
    unfold Re.eat. cbn [snd]. unfold Re.eq_ci. rewrite Hx, Ascii.eqb_refl. cbn [flat_map].
    rewrite app_nil_r. apply IH.
Qed.

Lemma search_from_start (r : Re.regex) (s : list ascii) :
  forall (prev : option ascii) (i : nat) (m : nat * string),
    Re.search_from r prev s i = Some m ->
    exists pre t prev', s = (pre ++ t)%list /\ Re.run r (prev', t) <> [].
Proof.
  induction s as [| x s IH]; intros prev i m H; cbn [Re.search_from] in H.
  - destruct (Re.run r (prev, [])) eqn:E; [discriminate |].
    exists [], [], prev. split; [reflexivity | congruence].
  - destruct (Re.run r (prev, x :: s)) eqn:E.
    + destruct (IH _ _ _ H) as (pre & t & prev' & -> & Hrun).
      exists (x :: pre), t, prev'. split; [reflexivity | exact Hrun].
    + exists [], (x :: s), prev. split; [reflexivity | congruence].
Qed.

Lemma search_from_finds (r : Re.regex) (t : list ascii) :
  (forall prev, Re.run r (prev, t) <> []) ->
  forall (pre : list ascii) (prev : option ascii) (i : nat),
    Re.search_from r prev (pre ++ t)%list i <> None.
Proof.
  intros Hrun pre. induction pre as [| x pre IH]; intros prev i.
  - cbn [app]. specialize (Hrun prev).
    destruct t as [| y t']; cbn [Re.search_from];
      destruct (Re.run r _); [contradiction | discriminate | contradiction | discriminate].
  - cbn [app Re.search_from]. destruct (Re.run r (prev, x :: (pre ++ t)%list));
      [apply IH | discriminate].
Qed.

Lemma found_glob (src : string) (p : list ascii) (addr : string) :
  Re.found (Re.mkPattern src (glob_regex p)) addr = true <->
  exists pre mid post, Py.chars addr = (pre ++ mid ++ post)%list /\ glob_match p mid.
Proof.
  unfold Re.found, Re.search. cbn [Re.prog]. split.
  - destruct (Re.search_from (glob_regex p) None (Py.chars addr) 0) as [m |] eqn:E;
      [| discriminate].
    intros _. apply search_from_start in E. destruct E as (pre & t & prev' & Hs & Hrun).
    destruct (Re.run (glob_regex p) (prev', t)) as [| q qs] eqn:Eq; [congruence |].
    destruct (run_glob_reads p prev' t q) as (mid & Ht & Hmid); [rewrite Eq; left; reflexivity |].
    exists pre, mid, (snd q). rewrite Hs, Ht. split; [reflexivity | exact Hmid].
  - intros (pre & mid & post & Hs & Hmid). rewrite Hs.
    assert (Hrun : forall prev, Re.run (glob_regex p) (prev, (mid ++ post)%list) <> []).
    { intros prev Hnil. destruct (run_glob_takes p mid Hmid prev post) as (prev' & Hin).
      rewrite Hnil in Hin. destruct Hin. }
    pose proof (search_from_finds (glob_regex p) (mid ++ post)%list Hrun pre None 0) as H.
    destruct (Re.search_from (glob_regex p) None (pre ++ mid ++ post)%list 0);
      [reflexivity | contradiction].
Qed.

Lemma compile_patterns_senders (ps : list PartnerPattern) :
  forall cs, PatternMatcher.compile_patterns ps = Some cs ->
  forall c, In c cs ->
    compile_all (map PatternMatcher.sender_regex (sender_patterns (fst (fst c))))
    = Some (snd (fst c)).
Proof.
  induction ps as [| p ps IH]; intros cs H c Hc; cbn [PatternMatcher.compile_patterns] in H.
  - injection H as <-. destruct Hc.
  - destruct (compile_all (map PatternMatcher.sender_regex (sender_patterns p)))
      as [senders |] eqn:Es; [| discriminate].
    destruct (compile_all (subject_patterns p)) as [subjects |]; [| discriminate].
    destruct (PatternMatcher.compile_patterns ps) as [cs' |]; [| discriminate].
    injection H as <-. destruct Hc as [<- | Hc]; [exact Es | exact (IH cs' eq_refl c Hc)].
Qed.

Lemma compile_all_glob (pats : list string) :
  Forall (fun pat => Forall (fun x => glob_char x = true) (Py.chars pat)) pats ->
  compile_all (map PatternMatcher.sender_regex pats)
  = Some (map (fun pat => Re.mkPattern (PatternMatcher.sender_regex pat)
                            (glob_regex (Py.chars pat))) pats).
Proof.
  induction 1 as [| pat pats Hpat _ IH]; [reflexivity |].
  cbn [map compile_all]. rewrite (compile_glob pat Hpat), IH. reflexivity.
Qed.

(** X11.  A sender pattern made of plain characters, [*], [?] and [.]
    matches an address exactly when some piece of the address, anywhere in
    it, reads as the pattern with [*] for any run of characters, [?] and
    also [.] for any one character (none of them a newline) and every other
    character for itself in either case.  The pattern is not anchored and
    its dots are wildcards. *)
Theorem sender_patterns_read_as_globs (ps : list PartnerPattern) (m : PatternMatcher.t)
    (c : PatternMatcher.compiled) (email : EmailMessage)
    (Hinit : PatternMatcher.init ps = Some m)
    (Hc : In c (PatternMatcher._compiled_patterns m))
    (Hglob : Forall (fun pat => Forall (fun x => glob_char x = true) (Py.chars pat))
               (sender_patterns (fst (fst c)))) :
  sender_hit c email = true <->
  exists pat pre mid post,
    In pat (sender_patterns (fst (fst c))) /\
    Py.chars (from_address email) = (pre ++ mid ++ post)%list /\
    glob_match (Py.chars pat) mid.
Proof.
  unfold PatternMatcher.init in Hinit.
  destruct (PatternMatcher.compile_patterns ps) as [cs |] eqn:Ecs; [| discriminate].
  injection Hinit as <-. cbn [PatternMatcher._compiled_patterns] in Hc.
  pose proof (compile_patterns_senders ps cs Ecs c Hc) as Hs.
  rewrite (compile_all_glob _ Hglob) in Hs. injection Hs as Hs.
  unfold sender_hit. rewrite <- Hs, existsb_exists. split.
  - intros (rx & Hin & Hfound). apply in_map_iff in Hin. destruct Hin as (pat & <- & Hin).
    apply found_glob in Hfound. destruct Hfound as (pre & mid & post & Ha & Hmid).
    exists pat, pre, mid, post. repeat split; assumption.
  - intros (pat & pre & mid & post & Hin & Ha & Hmid).
    exists (Re.mkPattern (PatternMatcher.sender_regex pat) (glob_regex (Py.chars pat))).
    split; [apply in_map_iff; exists pat; split; [reflexivity | exact Hin] |].
    apply found_glob. exists pre, mid, post. split; assumption.
Qed.

Lemma sender_patterns_read_as_globs_witness :
  exists m c,
    PatternMatcher.init [acme] = Some m /\
    In c (PatternMatcher._compiled_patterns m) /\
    (sender_hit c message_D = true <->
     exists pat pre mid post,
       In pat (sender_patterns (fst (fst c))) /\
       Py.chars (from_address message_D) = (pre ++ mid ++ post)%list /\
       glob_match (Py.chars pat) mid).
Proof.
  eexists. eexists. split; [vm_compute; reflexivity |]. split; [left; reflexivity |].
  eapply (sender_patterns_read_as_globs [acme]).
  - vm_compute. reflexivity.
  - left. reflexivity.
  - cbn. repeat constructor.
Defined.

(** ** The sender filter of [run_scan.py] *)

Lemma plain_entries_contain (from_addr : string) (l : list string) :
  Forall (fun b => Py.startswith b "*@" = false) l ->
  existsb (EmailScanner.sender_blocked from_addr) l
    = existsb (fun token => Py.contains token from_addr) l.
Proof.
  induction 1 as [| b l Hb _ IH]; [reflexivity |].
  cbn [existsb]. rewrite IH. unfold EmailScanner.sender_blocked at 1. rewrite Hb. reflexivity.
Qed.

Lemma system_tokens_blocklist (patterns : list PartnerPattern) (dir : string)
    (self : EmailScanner.t) (msg : EmailMessage) :
  RunScan.scanner patterns dir = Some self ->
  EmailScanner.is_blocklisted self msg = RunScan.is_system_sender (from_address msg).
Proof.
  unfold RunScan.scanner, EmailScanner.init.
  destruct (PatternMatcher.init patterns) as [m |]; [| discriminate].
  intro H. assert (Hself : self = EmailScanner.mk m patterns dir
                      (map Py.lower RunScan.SYSTEM_SENDER_TOKENS) (map Py.lower []))
    by congruence.
  clear H. subst self.
  assert (Hlow : map Py.lower RunScan.SYSTEM_SENDER_TOKENS = RunScan.SYSTEM_SENDER_TOKENS)
    by (vm_compute; reflexivity).
  assert (Hplain : Forall (fun b => Py.startswith b "*@" = false)
                     RunScan.SYSTEM_SENDER_TOKENS)
    by (unfold RunScan.SYSTEM_SENDER_TOKENS; repeat constructor).
  unfold EmailScanner.is_blocklisted, RunScan.is_system_sender.
  cbn [EmailScanner.blocklist_senders EmailScanner.blocklist_domains].
  rewrite Hlow, (plain_entries_contain _ _ Hplain). apply orb_false_r.
Qed.

Section RunScanFacts.

Import Eff.

Variable World : Type.
Variable env : EmailScanner.Env World.

Lemma scan_one_outcome (self : EmailScanner.t) (run_id : string) (msg : EmailMessage)
    (r : RunResults) (w : World) :
  exists sr r' w',
    email sr = msg /\
    EmailScanner.scan_one (EmailScanner.scan_email env self)
      (fun sr id => ret (EmailScanner._format_auto_process_payload sr id))
      (fun sr id => ret (EmailScanner._format_review_item sr id))
      run_id msg (r, w) = (Return tt, (r', w')) /\
    ((w' = w /\ auto_processed r' = auto_processed r /\ review_queue r' = review_queue r) \/
     (EmailScanner.is_blocklisted self msg = false /\
      EmailScanner.extract_assets env self msg run_id w = (Return (extracted_assets sr), w') /\
      ((auto_processed r'
          = (auto_processed r ++ [EmailScanner._format_auto_process_payload sr run_id])%list /\
        review_queue r' = review_queue r) \/
       (auto_processed r' = auto_processed r /\
        review_queue r'
          = (review_queue r ++ [EmailScanner._format_review_item sr run_id])%list)))).
Proof.
  destruct (scan_email_cases World env self msg run_id w) as (sr & w' & Hrun & Hmsg & Hcases).
  exists sr.
  unfold EmailScanner.scan_one, bind, try_except, on_fst, on_snd, modify, ret.
  cbn [fst snd]. rewrite Hrun. cbn [fst snd].
  destruct Hcases as [(Hs & Hc & Hw & _) | (Hb & Hc & Hx & _ & Hroute)].
  - rewrite Hc, Hs. cbn. do 2 eexists. split; [exact Hmsg |]. split; [reflexivity |].
    left. repeat split. exact Hw.
  - assert (Hn : Classification_eqb (classification (sr_classification sr)) NOT_DATA = false).
    { destruct (Classification_eqb _ _) eqn:E; [| reflexivity].
      apply Classification_eqb_eq in E. contradiction. }
    rewrite Hn. destruct Hroute as [Hr | [Hr _]]; rewrite Hr; cbn;
      do 2 eexists; (split; [exact Hmsg |]); (split; [reflexivity |]); cbn.
    + right. split; [exact Hb |]. split; [exact Hx |]. right. split; reflexivity.
    + right. split; [exact Hb |]. split; [exact Hx |]. left. split; reflexivity.
Qed.

Lemma filtered_auto_passes (ps : list AutoProcessPayload) :
  Forall (fun p => Forall (fun s => RunScan.is_system_sender (md_from (email_metadata s)) = false)
                          (raw_sources p)) ps ->
  (Forall (fun p => raw_sources p <> []) ps -> RunScan.filtered_auto ps = Return ps) /\
  (Exists (fun p => raw_sources p = []) ps ->
   RunScan.filtered_auto ps = Raise "list index out of range").
Proof.
  intro Hall. induction Hall as [| p ps Hp _ [IH1 IH2]]; cbn [RunScan.filtered_auto].
  - split; [reflexivity | intro Hx; inversion Hx].
  - destruct (raw_sources p) as [| s ss] eqn:Hrs.
    + split; [| reflexivity]. intro Hx. inversion Hx as [| ? ? Hne _].
      rewrite Hrs in Hne. contradiction.
    + inversion Hp as [| ? ? Hs _]. split.
      * intro Hx. inversion Hx as [| ? ? _ Hrest]. rewrite (IH1 Hrest), Hs. reflexivity.
      * intro Hx. inversion Hx as [? ? Hnil | ? ? Hrest]; [congruence |].
        rewrite (IH2 Hrest). reflexivity.
Qed.

Lemma filtered_review_passes (rs : list ReviewItem) :
  Forall (fun item => RunScan.is_system_sender (es_from (email_summary item)) = false) rs ->
  RunScan.filtered_review rs = rs.
Proof.
  intro Hall. induction Hall as [| item rs Hi _ IH]; [reflexivity |].
  unfold RunScan.filtered_review in *. cbn [filter]. rewrite Hi, IH. reflexivity.
Qed.

(** X12.  On the results of a scan by the scanner of [main], whose sender
    blocklist is the list of system sender tokens, the filter of [main]
    removes nothing: it keeps the review queue as it is, and it returns the
    results unchanged when every payload has a raw source.  When some
    payload has none, the expression [raw_sources[0]] raises [IndexError]. *)
Theorem filter_after_scan (patterns : list PartnerPattern) (dir : string)
    (self : EmailScanner.t) (run_id started : string)
    (emails : list EmailMessage) (w : World)
    (Hself : RunScan.scanner patterns dir = Some self) :
  exists r' w',
    EmailScanner.scan_loop (EmailScanner.scan_email env self)
      (fun sr id => ret (EmailScanner._format_auto_process_payload sr id))
      (fun sr id => ret (EmailScanner._format_review_item sr id))
      run_id emails (mkRunResults run_id started 0 0 [] [] [] None, w)
      = (Return tt, (r', w')) /\
    RunScan.filtered_review (review_queue r') = review_queue r' /\
    (Forall (fun p => raw_sources p <> []) (auto_processed r') ->
     RunScan.filter_results r' = Return r') /\
    (Exists (fun p => raw_sources p = []) (auto_processed r') ->
     RunScan.filter_results r' = Raise "list index out of range").
Proof.
  assert (Hgen : forall emails r w, senders_pass r ->
    exists r' w',
      EmailScanner.scan_loop (EmailScanner.scan_email env self)
        (fun sr id => ret (EmailScanner._format_auto_process_payload sr id))
        (fun sr id => ret (EmailScanner._format_review_item sr id))
        run_id emails (r, w) = (Return tt, (r', w')) /\ senders_pass r').
  { clear emails w. induction emails as [| msg emails IH]; intros r w Hr.
    - exists r, w. split; [reflexivity | exact Hr].
    - destruct (scan_one_outcome self run_id msg r w)
        as (sr & r1 & w1 & Hmsg & H1 & Hlists).
      assert (Hr1 : senders_pass r1).
      { destruct Hr as [Hrev Hauto]. unfold senders_pass.
        destruct Hlists as [(_ & -> & ->) | (Hb & _ & [(-> & ->) | (-> & ->)])].
        - split; assumption.
        - split; [exact Hrev |]. apply Forall_app. split; [exact Hauto |].
          constructor; [| constructor].
          unfold EmailScanner._format_auto_process_payload. cbn [raw_sources].
          apply Forall_flat_map. apply Forall_forall. intros a _.
          destruct (file_path a); [| constructor]. constructor; [| constructor].
          rewrite <- Hb, (system_tokens_blocklist patterns dir self msg Hself), <- Hmsg.
          reflexivity.
        - split; [| exact Hauto]. apply Forall_app. split; [exact Hrev |].
          constructor; [| constructor].
          rewrite <- Hb, (system_tokens_blocklist patterns dir self msg Hself), <- Hmsg.
          reflexivity. }
      destruct (IH r1 w1 Hr1) as (r' & w' & Hl & Hr').
      exists r', w'. cbn [EmailScanner.scan_loop]. unfold bind at 1. rewrite H1.
      split; assumption. }
  destruct (Hgen emails (mkRunResults run_id started 0 0 [] [] [] None) w)
    as (r' & w' & Hl & Hrev & Hauto); [split; constructor |].
  exists r', w'. split; [exact Hl |].
  pose proof (filtered_review_passes _ Hrev) as Hfr.
  destruct (filtered_auto_passes _ Hauto) as [Hok Hraise].
  split; [exact Hfr |]. unfold RunScan.filter_results. split.
  - intro H. rewrite (Hok H), Hfr. destruct r'. reflexivity.
  - intro H. rewrite (Hraise H). reflexivity.
Qed.

End RunScanFacts.

Lemma filter_after_scan_witness :
  exists self r' w',
    RunScan.scanner [entry_A] "/tmp/extracts" = Some self /\
    EmailScanner.scan_loop (EmailScanner.scan_email probe_fails_env self)
      (fun sr id => Eff.ret (EmailScanner._format_auto_process_payload sr id))
      (fun sr id => Eff.ret (EmailScanner._format_review_item sr id))
      "es-1" [message_D] (mkRunResults "es-1" "2026-01-07T08:00:00" 0 0 [] [] [] None, tt)
      = (Eff.Return tt, (r', w')) /\
    RunScan.filtered_review (review_queue r') = review_queue r' /\
    (Forall (fun p => raw_sources p <> []) (auto_processed r') ->
     RunScan.filter_results r' = Eff.Return r') /\
    (Exists (fun p => raw_sources p = []) (auto_processed r') ->
     RunScan.filter_results r' = Eff.Raise "list index out of range").
Proof.
  destruct (RunScan.scanner [entry_A] "/tmp/extracts") as [self |] eqn:E;
    [| vm_compute in E; discriminate].
  destruct (filter_after_scan unit probe_fails_env [entry_A] "/tmp/extracts" self "es-1"
              "2026-01-07T08:00:00" [message_D] tt E) as (r' & w' & H).
  exists self, r', w'. split; [reflexivity | exact H].
Defined.

(** A message of a partner with no attachment is auto-processed with an
    empty list of raw sources, and the filter of [main] then raises. *)
Example filter_raises_without_raw_source :
  exists self r,
    RunScan.scanner [entry_A] "/tmp/extracts" = Some self /\
    EmailScanner.scan_loop (EmailScanner.scan_email probe_fails_env self)
      (fun sr id => Eff.ret (EmailScanner._format_auto_process_payload sr id))
      (fun sr id => Eff.ret (EmailScanner._format_review_item sr id))
      "es-1" [message_D] (mkRunResults "es-1" "2026-01-07T08:00:00" 0 0 [] [] [] None, tt)
      = (Eff.Return tt, (r, tt)) /\
    map raw_sources (auto_processed r) = [[]] /\
    RunScan.filter_results r = Eff.Raise "list index out of range".
Proof. eexists. eexists. split; [vm_compute; reflexivity |]. vm_compute. repeat split. Qed.

(** ** [save_attachment] and the output directory *)

Lemma chars_append (a b : string) : Py.chars (a ++ b) = (Py.chars a ++ Py.chars b)%list.
Proof. induction a as [| c a IH]; cbn; [reflexivity | f_equal; exact IH]. Qed.

Lemma str_app (a b : list ascii) : Py.str (a ++ b) = Py.str a ++ Py.str b.
Proof. induction a as [| c a IH]; cbn; [reflexivity | f_equal; exact IH]. Qed.

Lemma length_append (a b : string) :
  String.length (a ++ b) = String.length a + String.length b.
Proof. induction a as [| c a IH]; cbn; [reflexivity | f_equal; exact IH]. Qed.

Lemma stem_suffix (name : string) : GmailClient.stem name ++ GmailClient.suffix name = name.
Proof.
  unfold GmailClient.stem, GmailClient.suffix. destruct (GmailClient.cut name) as [i |].
  - rewrite <- str_app, firstn_skipn. apply str_chars.
  - clear. induction name as [| c s IH]; cbn; [reflexivity | f_equal; exact IH].
Qed.

Lemma next_name_longer (name : string) (counter : nat) :
  String.length name + 1 <=
  String.length (GmailClient.stem name ++ "_" ++ Py.str_of_nat counter ++ GmailClient.suffix name).
Proof.
  rewrite <- (stem_suffix name) at 1. rewrite !length_append. cbn [String.length]. lia.
Qed.

Lemma filter_length_lt {A : Type} (f g : A -> bool) (l : list A) (x : A) :
  (forall y, g y = true -> f y = true) ->
  In x l -> f x = true -> g x = false ->
  List.length (filter g l) < List.length (filter f l).
Proof.
  intros Hgf. induction l as [| y l IH]; intros Hin Hf Hg; [destruct Hin |].
  assert (Hle : forall l', List.length (filter g l') <= List.length (filter f l')).
  { clear - Hgf. induction l' as [| z l' IH]; cbn; [lia |].
    destruct (g z) eqn:Hz; [rewrite (Hgf z Hz); cbn; lia |].
    destruct (f z); cbn; lia. }
  cbn. destruct Hin as [-> | Hin].
  - rewrite Hf, Hg. cbn. specialize (Hle l). lia.
  - specialize (IH Hin Hf Hg). destruct (g y) eqn:Hy; [rewrite (Hgf y Hy); cbn; lia |].
    destruct (f y); cbn; lia.
Qed.

Lemma digits_of_uint (u : Decimal.uint) :
  Forall (fun c => Py.is_digit c = true) (Py.chars (NilEmpty.string_of_uint u)).
Proof. induction u; cbn; constructor; try reflexivity; assumption. Qed.

Lemma str_of_nat_digits (n : nat) :
  Forall (fun c => Py.is_digit c = true) (Py.chars (Py.str_of_nat n)).
Proof. apply digits_of_uint. Qed.

Lemma split_on_no_sep (c : ascii) (s cur : list ascii) :
  ~ In c cur -> Forall (fun part => ~ In c part) (Py.split_on c s cur).
Proof.
  revert cur. induction s as [| x s IH]; intros cur Hcur; cbn.
  - constructor; [| constructor]. intro H. apply in_rev in H. contradiction.
  - destruct (Ascii.eqb x c) eqn:E.
    + constructor; [| apply IH; intros []]. intro H. apply in_rev in H. contradiction.
    + apply IH. intros [-> | H]; [| contradiction].
      rewrite Ascii.eqb_refl in E. discriminate.
Qed.

Lemma path_name_no_sep (s : string) : ~ In "/"%char (Py.path_name s).
Proof.
  unfold Py.path_name.
  assert (H : Forall (fun part => ~ In "/"%char part)
                (filter Py.is_real_part (Py.split_on "/"%char (Py.chars s) []))).
  { apply Forall_forall. intros part Hin. apply filter_In in Hin. destruct Hin as [Hin _].
    pose proof (split_on_no_sep "/"%char (Py.chars s) [] (fun H => H)) as Hall.
    rewrite Forall_forall in Hall. exact (Hall part Hin). }
  induction H as [| part l Hp Hl IH]; [intros [] |].
  destruct l as [| q l']; [exact Hp | exact IH].
Qed.

Lemma safe_filename_no_sep (filename : string) :
  ~ In "/"%char (Py.chars (GmailClient.safe_filename filename)).
Proof.
  unfold GmailClient.safe_filename. rewrite chars_str. intro H.
  apply in_map_iff in H. destruct H as (c & Hc & _). revert Hc.
  unfold GmailClient.safe_char. destruct (_ || _) eqn:E; [| discriminate].
  intros ->. vm_compute in E. discriminate.
Qed.

Lemma stem_suffix_chars (name : string) :
  Py.chars name = (Py.chars (GmailClient.stem name) ++ Py.chars (GmailClient.suffix name))%list.
Proof. rewrite <- chars_append, stem_suffix. reflexivity. Qed.

Lemma next_name_no_sep (name : string) (counter : nat) :
  ~ In "/"%char (Py.chars name) ->
  ~ In "/"%char
      (Py.chars (GmailClient.stem name ++ "_" ++ Py.str_of_nat counter
                 ++ GmailClient.suffix name)).
Proof.
  intros Hname H. rewrite !chars_append in H. rewrite (stem_suffix_chars name) in Hname.
  repeat (apply in_app_or in H; destruct H as [H | H]).
  - apply Hname, in_or_app. left. exact H.
  - destruct H as [H | []]. discriminate H.
  - pose proof (str_of_nat_digits counter) as Hd. rewrite Forall_forall in Hd.
    specialize (Hd _ H). vm_compute in Hd. discriminate.
  - apply Hname, in_or_app. right. exact H.
Qed.

Lemma next_name_real (name : string) (counter : nat) :
  Py.is_real_part
    (Py.chars (GmailClient.stem name ++ "_" ++ Py.str_of_nat counter ++ GmailClient.suffix name))
  = true.
Proof.
  pose proof (next_name_longer name counter) as Hlen.
  destruct (GmailClient.stem name) as [| c [| d s]] eqn:Es; cbn.
  - reflexivity.
  - destruct c as [[] [] [] [] [] [] [] []]; reflexivity.
  - destruct c as [[] [] [] [] [] [] [] []]; reflexivity.
Qed.

Section SaveAttachment.

Import Eff.

Variable Data : Type.

Lemma exists_taken (output_dir : string) (files : GmailClient.listing Data)
    (p : GmailClient.path) :
  GmailClient.exists_ files p = true ->
  In (GmailClient.name_of output_dir p) (taken output_dir files).
Proof.
  destruct p as [name |]; cbn [GmailClient.exists_ GmailClient.name_of]; [| left; reflexivity].
  intro H. apply orb_true_iff in H. right. destruct H as [H | H].
  - apply String.eqb_eq in H. left. symmetry. exact H.
  - right. apply existsb_exists in H. destruct H as (f & Hin & Hf).
    apply String.eqb_eq in Hf. subst name. apply in_map. exact Hin.
Qed.

Lemma next_path_child (output_dir : string) (p : GmailClient.path) (counter : nat) :
  GmailClient.next_path output_dir p counter
  = Some (GmailClient.stem (GmailClient.name_of output_dir p) ++ "_" ++ Py.str_of_nat counter
          ++ GmailClient.suffix (GmailClient.name_of output_dir p)).
Proof. unfold GmailClient.next_path, GmailClient.join. rewrite next_name_real. reflexivity. Qed.

Lemma name_of_no_sep (output_dir : string) (p : GmailClient.path) :
  loop_path p -> ~ In "/"%char (Py.chars (GmailClient.name_of output_dir p)).
Proof.
  destruct p as [name |]; cbn; [intros [_ H]; exact H |].
  intros _. rewrite chars_str. apply path_name_no_sep.
Qed.

Lemma free_path_finds (output_dir : string) (files : GmailClient.listing Data) (fuel : nat) :
  forall (p : GmailClient.path) (counter : nat),
    loop_path p ->
    at_least (GmailClient.name_of output_dir p) (taken output_dir files) < fuel ->
    exists q,
      GmailClient.free_path fuel output_dir files p counter = Some q /\
      loop_path q /\ GmailClient.exists_ files q = false.
Proof.
  induction fuel as [| k IH]; intros p counter Hp Hlt; [lia |].
  cbn [GmailClient.free_path]. destruct (GmailClient.exists_ files p) eqn:Hex.
  - rewrite next_path_child. apply IH.
    + split; [apply next_name_real | apply next_name_no_sep, name_of_no_sep, Hp].
    + cbn [GmailClient.name_of].
      pose proof (next_name_longer (GmailClient.name_of output_dir p) counter) as Hlen.
      apply exists_taken with (output_dir := output_dir) in Hex.
      unfold at_least in *.
      eapply Nat.lt_le_trans; [| apply Nat.lt_succ_r; exact Hlt].
      eapply filter_length_lt with (x := GmailClient.name_of output_dir p).
      * intros y Hy. apply Nat.leb_le in Hy. apply Nat.leb_le. lia.
      * exact Hex.
      * apply Nat.leb_refl.
      * apply Nat.leb_gt. lia.
  - exists p. repeat split; assumption.
Qed.

Lemma at_least_le (name : string) (l : list string) : at_least name l <= List.length l.
Proof. apply filter_length_le. Qed.

Lemma free_path_child (q : GmailClient.path) (files : GmailClient.listing Data) :
  loop_path q -> GmailClient.exists_ files q = false ->
  exists name,
    q = Some name /\ child_name name /\ Forall (fun f => fst f <> name) files.
Proof.
  destruct q as [name |]; cbn; [| discriminate]. intros [Hreal Hsep] Hex.
  apply orb_false_iff in Hex. destruct Hex as [Hdd Hfiles].
  exists name. split; [reflexivity |]. split.
  - repeat split.
    + intros ->. discriminate Hreal.
    + intros ->. discriminate Hreal.
    + intros ->. discriminate Hdd.
    + exact Hsep.
  - apply Forall_forall. intros f Hin Heq.
    assert (H : existsb (fun f => String.eqb (fst f) name) files = true).
    { apply existsb_exists. exists f. split; [exact Hin | apply String.eqb_eq; exact Heq]. }
    congruence.
Qed.

Lemma join_loop_path (filename : string) :
  loop_path (GmailClient.join (GmailClient.safe_filename filename)).
Proof.
  unfold GmailClient.join.
  destruct (Py.is_real_part (Py.chars (GmailClient.safe_filename filename))) eqn:E;
    cbn; [| exact I].
  split; [exact E | apply safe_filename_no_sep].
Qed.

Lemma save_attachment_returns
    (download : string -> EmailAttachment -> result Data)
    (message_id : string) (attachment : EmailAttachment) (output_dir : string)
    (files : GmailClient.listing Data) (fuel : nat) :
  List.length files + 3 <= fuel ->
  exists name,
    child_name name /\ Forall (fun f => fst f <> name) files /\
    GmailClient.save_attachment fuel download message_id attachment output_dir files
    = Some (match download message_id attachment with
            | Return data => (Return (Some name), (name, data) :: files)
            | Raise e => (Raise e, files)
            end).
Proof.
  intro Hfuel.
  destruct (free_path_finds output_dir files fuel
              (GmailClient.join (GmailClient.safe_filename (att_filename attachment))) 1
              (join_loop_path _)) as (q & Hq & Hloop & Hex).
  { pose proof (at_least_le
                  (GmailClient.name_of output_dir
                     (GmailClient.join (GmailClient.safe_filename (att_filename attachment))))
                  (taken output_dir files)) as H.
    assert (Hlen : List.length (taken output_dir files) = List.length files + 2).
    { unfold taken. cbn [List.length]. rewrite length_map. lia. }
    lia. }
  destruct (free_path_child q files Hloop Hex) as (name & -> & Hchild & Hfresh).
  exists name. split; [exact Hchild |]. split; [exact Hfresh |].
  unfold GmailClient.save_attachment. rewrite Hq.
  destruct (download message_id attachment) as [data | e]; [| reflexivity].
  cbn [GmailClient.write_bytes].
  destruct Hchild as (_ & _ & Hdd & _). apply String.eqb_neq in Hdd. rewrite Hdd. reflexivity.
Qed.


Lemma rfind_dot_plain (l : list ascii) (i : nat) (found : option nat) :
  ~ In "."%char l -> Py.rfind_dot l i found = found.
Proof.
  revert i found. induction l as [| x l IH]; intros i found Hl; cbn; [reflexivity |].
  rewrite IH by (intro H; apply Hl; right; exact H).
  destruct (Ascii.eqb x "."%char) eqn:E; [| reflexivity].
  apply Ascii.eqb_eq in E. subst x. exfalso. apply Hl. left. reflexivity.
Qed.

Lemma rfind_dot_last (a e : list ascii) (i : nat) (found : option nat) :
  ~ In "."%char e ->
  Py.rfind_dot (a ++ "."%char :: e) i found = Some (i + List.length a).
Proof.
  intro He. revert i found. induction a as [| x a IH]; intros i found; cbn [app Py.rfind_dot].
  - rewrite rfind_dot_plain by exact He. cbn. f_equal. lia.
  - rewrite IH. cbn. f_equal. lia.
Qed.

Lemma cut_last_dot (a e : string) :
  a <> "" -> e <> "" -> ~ In "."%char (Py.chars e) ->
  GmailClient.cut (a ++ "." ++ e) = Some (String.length a).
Proof.
  intros Ha He Hdot. unfold GmailClient.cut. rewrite !chars_append.
  change (Py.chars ".") with ["."%char]. cbn [app].
  rewrite rfind_dot_last by exact Hdot. cbn [Nat.add].
  rewrite length_app, !length_chars. cbn [List.length].
  rewrite length_chars.
  assert (0 < String.length a) by (destruct a; [congruence | cbn; lia]).
  assert (0 < String.length e) by (destruct e; [congruence | cbn; lia]).
  replace (0 <? String.length a)%nat with true by (symmetry; apply Nat.ltb_lt; lia).
  replace (String.length a <? String.length a + S (String.length e) - 1)%nat with true
    by (symmetry; apply Nat.ltb_lt; lia).
  reflexivity.
Qed.

Lemma append_assoc (a b c : string) : (a ++ b) ++ c = a ++ b ++ c.
Proof. induction a as [| x a IH]; cbn; [reflexivity | f_equal; exact IH]. Qed.

Lemma stem_suffix_last_dot (a e : string) :
  a <> "" -> e <> "" -> ~ In "."%char (Py.chars e) ->
  GmailClient.stem (a ++ "." ++ e) = a /\ GmailClient.suffix (a ++ "." ++ e) = "." ++ e.
Proof.
  intros Ha He Hdot. unfold GmailClient.stem, GmailClient.suffix.
  rewrite (cut_last_dot a e Ha He Hdot), chars_append, <- length_chars.
  split.
  - rewrite firstn_app, Nat.sub_diag, firstn_all. cbn [firstn]. rewrite app_nil_r.
    apply str_chars.
  - rewrite skipn_app, Nat.sub_diag, skipn_all. cbn [skipn app]. apply str_chars.
Qed.

Lemma append_nonempty (a b : string) : a <> "" -> a ++ b <> "".
Proof. destruct a; [congruence | discriminate]. Qed.

Lemma real_part_long (l : list ascii) : 2 <= List.length l -> Py.is_real_part l = true.
Proof.
  destruct l as [| c [| d l]]; cbn [List.length]; try lia. intros _.
  destruct c as [[] [] [] [] [] [] [] []]; reflexivity.
Qed.

(** X14.  For a safe file name [s.e] with a non-empty stem and a suffix
    without a dot, the duplicate loop tries [s.e], [s_1.e], [s_1_2.e],
    [s_1_2_3.e], ...: each turn takes the stem of the last name tried, so
    the counters pile up, and the file is saved under the first free one. *)
Theorem duplicate_names_stack_counters
    (download : string -> EmailAttachment -> result Data)
    (message_id : string) (attachment : EmailAttachment) (output_dir : string)
    (files : GmailClient.listing Data) (s e : string) (k more : nat)
    (Hname : GmailClient.safe_filename (att_filename attachment) = s ++ "." ++ e)
    (Hs : s <> "") (He : e <> "") (Hdot : ~ In "."%char (Py.chars e))
    (Hbusy : forall j, j < k ->
       GmailClient.exists_ files (Some (s ++ counters j ++ "." ++ e)) = true)
    (Hfree : GmailClient.exists_ files (Some (s ++ counters k ++ "." ++ e)) = false) :
  GmailClient.save_attachment (S k + more) download message_id attachment output_dir files
  = Some (match download message_id attachment with
          | Return data =>
              (Return (Some (s ++ counters k ++ "." ++ e)),
               (s ++ counters k ++ "." ++ e, data) :: files)
          | Raise err => (Raise err, files)
          end).
Proof.
  assert (Hloop : forall d j, j + d = k ->
            GmailClient.free_path (S d + more) output_dir files
              (Some (s ++ counters j ++ "." ++ e)) (S j)
            = Some (Some (s ++ counters k ++ "." ++ e))).
  { induction d as [| d IH]; intros j Hj; cbn [GmailClient.free_path Nat.add].
    - replace j with k by lia. rewrite Hfree. reflexivity.
    - rewrite (Hbusy j) by lia. unfold GmailClient.next_path. cbn [GmailClient.name_of].
      rewrite <- (append_assoc s (counters j)).
      destruct (stem_suffix_last_dot (s ++ counters j) e (append_nonempty _ _ Hs) He Hdot)
        as [-> ->].
      unfold GmailClient.join.
      replace ((s ++ counters j) ++ "_" ++ Py.str_of_nat (S j) ++ "." ++ e)
        with (s ++ counters (S j) ++ "." ++ e)
        by (cbn [counters]; rewrite !append_assoc; reflexivity).
      assert (Hreal : Py.is_real_part (Py.chars (s ++ counters (S j) ++ "." ++ e)) = true).
      { apply real_part_long. rewrite length_chars, !length_append.
        destruct s; [congruence |]. cbn [String.length]. lia. }
      rewrite Hreal. apply (IH (S j)). lia. }
  unfold GmailClient.save_attachment. rewrite Hname.
  assert (Hjoin : GmailClient.join (s ++ "." ++ e) = Some (s ++ counters 0 ++ "." ++ e)).
  { unfold GmailClient.join. cbn [counters append].
    rewrite real_part_long; [reflexivity |]. rewrite length_chars, !length_append.
    destruct s; [congruence |]. cbn [String.length]. lia. }
  rewrite Hjoin.
  rewrite (Hloop k 0) by lia.
  destruct (download message_id attachment) as [data | err]; [| reflexivity].
  cbn [GmailClient.write_bytes].
  assert (Hdd : String.eqb (s ++ counters k ++ "." ++ e) ".." = false).
  { cbn [GmailClient.exists_] in Hfree. apply orb_false_iff in Hfree. apply Hfree. }
  rewrite Hdd. reflexivity.
Qed.

End SaveAttachment.

Lemma duplicate_names_stack_counters_witness :
  GmailClient.save_attachment 3 (fun _ _ => Eff.Return "a,b") "msg-7" report_csv
    "/tmp/extracts/es-1" [("report_1.csv", "x,y"); ("report.csv", "u,v")]
  = Some (Eff.Return (Some "report_1_2.csv"),
          [("report_1_2.csv", "a,b"); ("report_1.csv", "x,y"); ("report.csv", "u,v")]).
Proof.
  apply (duplicate_names_stack_counters string (fun _ _ => Eff.Return "a,b") "msg-7" report_csv
           "/tmp/extracts/es-1" [("report_1.csv", "x,y"); ("report.csv", "u,v")]
           "report" "csv" 2 0).
  - reflexivity.
  - discriminate.
  - discriminate.
  - vm_compute. intuition discriminate.
  - intros j Hj. destruct j as [| [| j]]; [reflexivity | reflexivity | lia].
  - reflexivity.
Defined.

Lemma append_inj (a b c : string) : a ++ b = a ++ c -> b = c.
Proof. induction a as [| x a IH]; cbn; [trivial |]. intro H. injection H as H. exact (IH H). Qed.

Lemma saved_paths_app (l l' : list ExtractedAsset) :
  saved_paths (l ++ l') = (saved_paths l ++ saved_paths l')%list.
Proof. unfold saved_paths. apply flat_map_app. Qed.

(** ** The scanner on [GmailClient] *)

Section ClientScan.

Import Eff.

Variable Data : Type.
Variable stream : M (GmailClient.listing Data) (list EmailMessage).
Variable download : string -> EmailAttachment -> result Data.
Variable present : string -> GmailClient.listing Data -> result bool.
Variable csv : string -> GmailClient.listing Data -> result (option (list string)).
Variable xlsx : string -> GmailClient.listing Data -> result (list string).
Variable json : string -> GmailClient.listing Data -> result (option (list string)).

Local Abbreviation env := (client_env stream download present csv xlsx json).

Lemma client_read_header (file_path : string) (files : GmailClient.listing Data) :
  snd (EmailScanner.read_header env file_path files) = files.
Proof.
  unfold EmailScanner.read_header.
  destruct (String.eqb _ ".csv"); [reflexivity |].
  destruct (_ || _).
  { unfold bind. cbn. unfold reading. destruct (xlsx file_path files); reflexivity. }
  destruct (String.eqb _ ".json"); reflexivity.
Qed.

Lemma client_extract_columns (file_path : string) (files : GmailClient.listing Data) :
  exists cols, EmailScanner._extract_columns env file_path files = (Return cols, files).
Proof.
  unfold EmailScanner._extract_columns, try_except.
  pose proof (client_read_header file_path files) as H.
  destruct (EmailScanner.read_header env file_path files) as [[cols | e] w']; cbn in H; subst w'.
  - exists cols. reflexivity.
  - exists None. reflexivity.
Qed.

Lemma client_extract_attachments (msg : EmailMessage) (dir : string)
    (files : GmailClient.listing Data) (old : list string) (atts : list EmailAttachment) :
  forall (assets : list ExtractedAsset) (new : GmailClient.listing Data),
    saved_apart dir files (old ++ saved_paths assets)%list new ->
    exists A new',
      EmailScanner.extract_attachments env msg dir atts assets (new ++ files)%list
        = (Return (assets ++ A)%list, (new' ++ files)%list) /\
      saved_apart dir files (old ++ saved_paths (assets ++ A))%list new'.
Proof.
  induction atts as [| att rest IH]; intros assets new Hinv.
  - exists [], new. cbn. rewrite app_nil_r. split; [reflexivity | exact Hinv].
  - cbn [EmailScanner.extract_attachments].
    destruct (EmailClassifier.is_data_file att); [| apply IH; exact Hinv].
    destruct (save_attachment_returns Data download (message_id msg) att dir (new ++ files)%list
                (List.length (new ++ files)%list + 3) (Nat.le_refl _))
      as (name & Hchild & Hfresh & Hsave).
    assert (Hstep : exists a new1,
      try_except
        (bind (EmailScanner.save_attachment env (message_id msg) att dir) (fun file_path =>
         bind (EmailScanner.path_exists env file_path) (fun present0 =>
         bind (if present0 : bool then EmailScanner._extract_columns env file_path else ret None)
              (fun columns =>
         ret (Py.append assets (EmailScanner.attachment_asset msg att file_path columns))))))
        (fun e => ret (Py.append assets (EmailScanner.failed_asset msg att e)))
        (new ++ files)%list
      = (Return (assets ++ [a])%list, (new1 ++ files)%list) /\
      saved_apart dir files (old ++ saved_paths (assets ++ [a]))%list new1).
    { unfold try_except, bind at 1. cbn [EmailScanner.save_attachment client_env].
      rewrite Hsave.
      destruct Hinv as (Hnd & Hnew & Hall & Hpaths).
      assert (Hkeep : forall a, file_path a = None ->
                saved_apart dir files (old ++ saved_paths (assets ++ [a]))%list new).
      { intros a Ha. unfold saved_apart. rewrite saved_paths_app.
        unfold saved_paths at 2 4. cbn [flat_map]. rewrite Ha. cbn [app].
        rewrite !app_nil_r. repeat split; assumption. }
      destruct (download (message_id msg) att) as [data | e].
      - cbn [GmailClient.path_str].
        assert (Hgrow : forall a, file_path a = Some (dir ++ "/" ++ name) \/ file_path a = None ->
                  saved_apart dir files (old ++ saved_paths (assets ++ [a]))%list
                    ((name, data) :: new)).
        { rewrite Forall_app in Hfresh. destruct Hfresh as [Hfn Hff].
          assert (Hnin : ~ In name (map fst new)).
          { intro H. apply in_map_iff in H. destruct H as (f & Hf & Hin).
            rewrite Forall_forall in Hfn. exact (Hfn f Hin Hf). }
          assert (Hninf : ~ In name (map fst files)).
          { intro H. apply in_map_iff in H. destruct H as (f & Hf & Hin).
            rewrite Forall_forall in Hff. exact (Hff f Hin Hf). }
          intros a Ha. unfold saved_apart. rewrite saved_paths_app, app_assoc.
          unfold saved_paths at 2 4. cbn [flat_map]. rewrite !app_nil_r.
          split; [| split; [| split]].
          - destruct Ha as [-> | ->]; [| rewrite app_nil_r; exact Hnd].
            apply NoDup_app; [exact Hnd | constructor; [intros [] | constructor] |].
            intros p Hp [<- | []]. destruct (Hpaths _ Hp) as (f & Hf & Heq).
            apply append_inj, append_inj in Heq. apply Hnin. rewrite Heq.
            apply in_map. exact Hf.
          - cbn [map fst]. constructor; assumption.
          - constructor; [split; assumption | exact Hall].
          - intros p Hp. apply in_app_or in Hp. destruct Hp as [Hp | Hp].
            + destruct (Hpaths _ Hp) as (f & Hf & Heq). exists f. split; [right; exact Hf | exact Heq].
            + destruct Ha as [Ha | Ha]; rewrite Ha in Hp; [| destruct Hp].
              destruct Hp as [<- | []]. exists (name, data). split; [left; reflexivity | reflexivity]. }
        unfold bind at 1. cbn [EmailScanner.path_exists client_env]. unfold reading at 1.
        destruct (present (dir ++ "/" ++ name) ((name, data) :: new ++ files)%list) as [[|] | e].
        + destruct (client_extract_columns (dir ++ "/" ++ name) ((name, data) :: new ++ files)%list)
            as (cols & Hcols).
          unfold bind, ret. rewrite Hcols.
          eexists. exists ((name, data) :: new). split; [reflexivity |].
          apply Hgrow. left. reflexivity.
        + unfold bind, ret.
          eexists. exists ((name, data) :: new). split; [reflexivity |].
          apply Hgrow. left. reflexivity.
        + unfold ret.
          eexists. exists ((name, data) :: new). split; [reflexivity |].
          apply Hgrow. right. reflexivity.
      - unfold ret. eexists. exists new. split; [reflexivity |]. apply Hkeep. reflexivity. }
    destruct Hstep as (a & new1 & Hrun & Hinv1).
    unfold bind at 1. rewrite Hrun.
    destruct (IH (assets ++ [a])%list new1 Hinv1) as (A & new' & HA & Hinv').
    exists (a :: A), new'. rewrite <- app_assoc in HA, Hinv'. split; assumption.
Qed.

Lemma client_extract_assets (self : EmailScanner.t) (msg : EmailMessage) (run_id : string)
    (files new : GmailClient.listing Data) (old : list string) :
  saved_apart (EmailScanner.extraction_dir self ++ "/" ++ run_id) files old new ->
  exists assets new',
    EmailScanner.extract_assets env self msg run_id (new ++ files)%list
      = (Return assets, (new' ++ files)%list) /\
    saved_apart (EmailScanner.extraction_dir self ++ "/" ++ run_id) files
      (old ++ saved_paths assets)%list new'.
Proof.
  intro Hinv. unfold EmailScanner.extract_assets.
  destruct (client_extract_attachments msg (EmailScanner.extraction_dir self ++ "/" ++ run_id)
              files old (attachments msg) [] new) as (A & new' & HA & Hinv').
  { unfold saved_paths. cbn [flat_map]. rewrite app_nil_r. exact Hinv. }
  cbn [app] in HA, Hinv'. unfold bind. rewrite HA. unfold ret.
  destruct (extract_links_assets msg (Py.or_str (body_text msg) (body_html msg))
              EmailClassifier._links A) as (L & HL & HsL & _).
  unfold EmailScanner.extract_links. rewrite HL.
  eexists. exists new'. split; [reflexivity |].
  rewrite saved_paths_app, (saved_paths_links msg L), app_nil_r; [exact Hinv' |].
  exact HsL.
Qed.


Lemma saved_apart_fewer (dir : string) (files new : GmailClient.listing Data)
    (old more : list string) :
  saved_apart dir files (old ++ more)%list new -> saved_apart dir files old new.
Proof.
  intros (Hnd & Hnew & Hall & Hpaths). repeat split; try assumption.
  - apply NoDup_app_remove_r in Hnd. exact Hnd.
  - intros p Hp. apply Hpaths, in_or_app. left. exact Hp.
Qed.


(** X17.  [scan] calls [fetch_emails] with the keyword [labels], which
    [GmailClient.fetch_emails] does not take: on this client every scan
    raises [TypeError] at the call, before a message is fetched, and the
    output directory stays as it was.  A call whose keywords are all
    parameters reaches the message stream. *)
Theorem scan_with_client_raises (self : EmailScanner.t) (since query : option string)
    (max_results : nat) (labels : option (list string)) (files : GmailClient.listing Data) :
  EmailScanner.scan env self since query max_results labels files
  = (Raise "GmailClient.fetch_emails() got an unexpected keyword argument 'labels'", files) /\
  forall keywords,
    (forall k, In k keywords -> In k GmailClient.fetch_emails_parameters) ->
    GmailClient.fetch_emails keywords stream = stream.
Proof.
  split; [reflexivity |]. intros keywords Hk. unfold GmailClient.fetch_emails.
  destruct (find _ keywords) as [k |] eqn:E; [| reflexivity].
  apply find_some in E. destruct E as [Hin Hno]. apply negb_true_iff in Hno.
  specialize (Hk k Hin). exfalso.
  assert (Hmem : Py.mem k GmailClient.fetch_emails_parameters = true).
  { unfold Py.mem. apply existsb_exists. exists k. split; [exact Hk | apply String.eqb_refl]. }
  congruence.
Qed.

End ClientScan.

(** ** Thresholds and the catalog file *)

Section HighThreshold.

Import Eff.
Local Open Scope Q_scope.

Variable World : Type.
Variable env : EmailScanner.Env World.

(** The column part of an entry's score is positive only when the entry
    expects columns and an asset with columns shares one of them. *)
Lemma entry_score_columns (c : PatternMatcher.compiled) (email : EmailMessage)
    (assets : list ExtractedAsset) :
  exists col,
    0 <= col /\ col <= 0.30 /\
    entry_score_of email assets c
      == (if sender_hit c email then 0.30 else 0)
         + (if subject_hit c email then 0.20 else 0)
         + (if format_hit c assets then 0.20 else 0)
         + col /\
    (0 < col ->
     exists expected asset,
       expected_columns (fst (fst c)) = Some expected /\
       find (fun a => PatternMatcher.truthy_list (columns a)) assets = Some asset /\
       (0 < PatternMatcher.matched_cols expected (force (columns asset)))%nat).
Proof.
  destruct c as [[p senders] subjects].
  unfold entry_score_of, PatternMatcher.entry_score, sender_hit, subject_hit, format_hit.
  cbn [fst snd].
  destruct (existsb _ senders); destruct (existsb _ subjects);
    destruct (expected_format p) as [fmt |];
    try destruct (Py.truthy fmt && existsb (PatternMatcher.format_matches fmt) assets);
    destruct (expected_columns p) as [[| e es] |];
    try destruct (find _ assets) as [asset |]; cbn [fst];
    try (exists 0; split; [lra | split; [lra | split; [lra | intro H; lra]]]);
    match goal with
    | |- context [inject_Z (Z.of_nat ?k) / inject_Z (Z.of_nat ?n)] =>
        let H := fresh in
        assert (H : (k <= n)%nat /\ (0 < n)%nat)
          by (split; [apply matched_cols_le | cbn [List.length]; lia]);
        destruct (ratio_range k n (proj1 H) (proj2 H));
        exists (0.30 * (inject_Z (Z.of_nat k) / inject_Z (Z.of_nat n)));
        split; [lra | split; [lra | split; [lra |]]];
        let Hpos := fresh in
        intro Hpos; exists (e :: es), asset; split; [reflexivity | split; [reflexivity |]];
        destruct k as [| k'] eqn:Ek; [| lia];
        exfalso; revert Hpos; unfold Qdiv; cbn [Z.of_nat inject_Z];
        rewrite Qmult_0_l, Qmult_0_r; apply Qlt_irrefl
    end.
Qed.

(** The confidence of a result is the score of an entry of the catalog,
    the one whose name the result carries. *)
Lemma scan_email_winner (self : EmailScanner.t) (msg : EmailMessage) (run_id : string)
    (w w' : World) (r : ScanResult) :
  EmailScanner.scan_email env self msg run_id w = (Return r, w') ->
  0 < pattern_match_confidence r ->
  EmailScanner.extract_assets env self msg run_id w = (Return (extracted_assets r), w') /\
  exists c,
    In c (PatternMatcher._compiled_patterns (EmailScanner.matcher self)) /\
    matched_partner r = Some (entry_name c) /\
    pattern_match_confidence r = entry_score_of msg (extracted_assets r) c.
Proof.
  intros Hrun Hpos.
  destruct (scan_email_cases World env self msg run_id w) as (r0 & w0 & Hrun0 & _ & Hcases).
  rewrite Hrun in Hrun0. injection Hrun0 as <- <-.
  destruct Hcases as [(_ & _ & _ & _ & _ & Hc) | (_ & _ & Hx & Hm & _)].
  { rewrite Hc in Hpos. exfalso. apply (Qlt_not_le _ _ Hpos). discriminate. }
  split; [exact Hx |]. unfold PatternMatcher.match_ in Hm.
  destruct (fold_step_best msg (extracted_assets r)
              (PatternMatcher._compiled_patterns (EmailScanner.matcher self))
              (None, 0.0, [])) as (_ & _ & Hsel).
  rewrite Hm in Hsel. cbn [fst snd] in Hsel.
  destruct Hsel as [[Heq _] | (l1 & c & l2 & Hl & Heq & _)].
  - injection Heq as _ Hc _. rewrite Hc in Hpos. exfalso.
    apply (Qlt_not_le _ _ Hpos). discriminate.
  - injection Heq as Hp Hc _. exists c. split; [| split; assumption].
    rewrite Hl. apply in_or_app. right. left. reflexivity.
Qed.

(** What an auto-processed result says of the catalog. *)
Lemma scan_email_auto (self : EmailScanner.t) (msg : EmailMessage) (run_id : string)
    (w w' : World) (r : ScanResult) :
  EmailScanner.scan_email env self msg run_id w = (Return r, w') ->
  route_action r = "auto_process" ->
  exists p, In p (EmailScanner.patterns self) /\ auto_process p = true /\
            confidence_threshold p <= pattern_match_confidence r.
Proof.
  intros Hrun Hauto.
  destruct (scan_email_cases World env self msg run_id w) as (r0 & w0 & Hrun0 & _ & Hcases).
  rewrite Hrun in Hrun0. injection Hrun0 as <- <-.
  destruct Hcases as [(Hs & _) | (_ & _ & _ & _ & [Hr | (_ & name & p & _ & Hf & Hflag & Hthr)])];
    [congruence | congruence |].
  exists p. apply find_some in Hf. destruct Hf as [Hin _]. repeat split; assumption.
Qed.

(** The asset that the matcher reads columns from is a saved attachment. *)
Lemma columns_come_from_attachment (self : EmailScanner.t) (msg : EmailMessage)
    (run_id : string) (w w' : World) (assets : list ExtractedAsset) (asset : ExtractedAsset) :
  EmailScanner.extract_assets env self msg run_id w = (Return assets, w') ->
  find (fun a => PatternMatcher.truthy_list (columns a)) assets = Some asset ->
  exists att fp cols,
    In att (attachments msg) /\ EmailClassifier.is_data_file att = true /\
    asset = EmailScanner.attachment_asset msg att fp (Some cols) /\
    In asset assets.
Proof.
  intros Hx Hfind. apply find_some in Hfind. destruct Hfind as [Hin Hcols].
  destruct (extract_assets_split World env self msg run_id w)
    as (A & L & w2 & Hx' & HsA & HsL & _).
  rewrite Hx in Hx'. injection Hx' as -> _.
  apply in_app_or in Hin. destruct Hin as [HinA | HinL].
  - assert (Hshape : exists att, In att (filter EmailClassifier.is_data_file (attachments msg)) /\
                                 asset_of_attachment msg att asset).
    { clear - HsA HinA. induction HsA as [| att a atts A' H _ IH]; [destruct HinA |].
      destruct HinA as [<- | HinA].
      - exists att. split; [left; reflexivity | exact H].
      - destruct (IH HinA) as (att' & Hin' & H'). exists att'. split; [right; exact Hin' | exact H']. }
    destruct Hshape as (att & Hatt & [(fp & cols & ->) | (e & ->)]); [| discriminate Hcols].
    apply filter_In in Hatt. destruct Hatt as [Hatt Hdata].
    cbn [columns EmailScanner.attachment_asset] in Hcols.
    destruct cols as [cols |]; [| discriminate Hcols].
    exists att, fp, cols. repeat split; try assumption.
    apply in_or_app. left. exact HinA.
  - rewrite Forall_forall in HsL. destruct (HsL asset HinL) as (kv & u & _ & _ & ->).
    discriminate Hcols.
Qed.

(** X18.  A confidence above 0.70 needs all of this: the sender pattern of
    the winning entry matches, its subject pattern or its expected format
    matches, and the message has a data-file attachment that was saved,
    whose header row was read and holds one of the entry's expected
    columns.  So where the thresholds of the auto-processing entries are
    above 0.70, as the default 0.8 is, only such messages are
    auto-processed. *)
Theorem confidence_above_070_needs_columns (self : EmailScanner.t) (msg : EmailMessage)
    (run_id : string) (w : World) :
  exists r w',
    EmailScanner.scan_email env self msg run_id w = (Return r, w') /\
    (0.70 < pattern_match_confidence r ->
     exists c expected att fp cols,
       In c (PatternMatcher._compiled_patterns (EmailScanner.matcher self)) /\
       matched_partner r = Some (entry_name c) /\
       sender_hit c msg = true /\
       (subject_hit c msg = true \/ format_hit c (extracted_assets r) = true) /\
       expected_columns (fst (fst c)) = Some expected /\
       In att (attachments msg) /\ EmailClassifier.is_data_file att = true /\
       In (EmailScanner.attachment_asset msg att fp (Some cols)) (extracted_assets r) /\
       (0 < PatternMatcher.matched_cols expected cols)%nat) /\
    (route_action r = "auto_process" ->
     (forall p, In p (EmailScanner.patterns self) -> auto_process p = true ->
                0.70 < confidence_threshold p) ->
     0.70 < pattern_match_confidence r).
Proof.
  destruct (scan_email_cases World env self msg run_id w) as (r & w' & Hrun & _ & _).
  exists r, w'. split; [exact Hrun |]. split.
  - intro Hconf.
    destruct (scan_email_winner self msg run_id w w' r Hrun) as (Hx & c & Hin & Hname & Hscore);
      [lra |].
    destruct (entry_score_columns c msg (extracted_assets r))
      as (col & H0 & H1 & Hsum & Hcol).
    rewrite Hscore, Hsum in Hconf.
    assert (Hpos : 0 < col).
    { destruct (sender_hit c msg); destruct (subject_hit c msg);
        destruct (format_hit c (extracted_assets r)); lra. }
    destruct (Hcol Hpos) as (expected & asset & Hexp & Hfind & Hmatched).
    destruct (columns_come_from_attachment self msg run_id w w' _ asset Hx Hfind)
      as (att & fp & cols & Hatt & Hdata & -> & Hasset).
    exists c, expected, att, fp, cols.
    split; [exact Hin |]. split; [exact Hname |]. split.
    { destruct (sender_hit c msg); [reflexivity |].
      destruct (subject_hit c msg); destruct (format_hit c (extracted_assets r)); lra. }
    split.
    { destruct (subject_hit c msg); [left; reflexivity |].
      destruct (format_hit c (extracted_assets r)); [right; reflexivity |].
      destruct (sender_hit c msg); lra. }
    repeat split; assumption.
  - intros Hauto Hthr.
    destruct (scan_email_auto self msg run_id w w' r Hrun Hauto) as (p & Hin & Hflag & Hle).
    specialize (Hthr p Hin Hflag). lra.
Qed.

Lemma load_objects_fields (objects : list RunScan.PatternObject) :
  forall ps, RunScan.load_objects objects = Return ps ->
  Forall2 (fun o p =>
             po_partner_name_is o p /\
             expected_columns p = RunScan.po_expected_columns o /\
             auto_process p = RunScan.get (RunScan.po_auto_process o) true /\
             confidence_threshold p
               = RunScan.get (RunScan.po_confidence_threshold o) 0.8)
          objects ps.
Proof.
  induction objects as [| o objects IH]; intros ps H; cbn [RunScan.load_objects] in H.
  - injection H as <-. constructor.
  - destruct (RunScan.po_partner_name o) as [name |] eqn:En; [| discriminate].
    destruct (RunScan.load_objects objects) as [ps' | e]; [| discriminate].
    injection H as <-. constructor; [| apply IH; reflexivity].
    unfold po_partner_name_is. rewrite En. repeat split.
Qed.

(** X19.  A catalog file whose objects give no expected columns and no
    threshold, or thresholds above 0.70, never leads to auto-processing:
    the scanner that [main] builds from it routes no message to
    "auto_process", whatever the message and the collaborators. *)
Theorem catalog_without_columns_is_never_auto_processed
    (objects : list RunScan.PatternObject) (ps : list PartnerPattern) (dir : string)
    (self : EmailScanner.t) (msg : EmailMessage) (run_id : string) (w : World)
    (Hload : RunScan.load_patterns (Some objects) = Return ps)
    (Hself : RunScan.scanner ps dir = Some self)
    (Hobjects : Forall (fun o =>
                   PatternMatcher.truthy_list (RunScan.po_expected_columns o) = false /\
                   0.70 < RunScan.get (RunScan.po_confidence_threshold o) 0.8)
                 objects) :
  exists r w',
    EmailScanner.scan_email env self msg run_id w = (Return r, w') /\
    route_action r <> "auto_process".
Proof.
  destruct (scan_email_cases World env self msg run_id w) as (r & w' & Hrun & _ & _).
  exists r, w'. split; [exact Hrun |]. intro Hauto.
  assert (Hps : Forall (fun p => PatternMatcher.truthy_list (expected_columns p) = false /\
                                 0.70 < confidence_threshold p) ps).
  { pose proof (load_objects_fields objects ps Hload) as H2. clear - H2 Hobjects.
    induction H2 as [| o p objects ps (_ & Hc & _ & Ht) _ IH]; [constructor |].
    inversion Hobjects as [| ? ? [Ho Hthr] Hrest]; subst.
    constructor; [| apply IH; exact Hrest]. rewrite Hc, Ht. split; assumption. }
  unfold RunScan.scanner, EmailScanner.init in Hself.
  destruct (PatternMatcher.init ps) as [m |] eqn:Em; [| discriminate].
  injection Hself as <-.
  destruct (scan_email_auto _ msg run_id w w' r Hrun Hauto) as (p & Hin & _ & Hle).
  cbn [EmailScanner.patterns] in Hin. rewrite Forall_forall in Hps.
  destruct (Hps p Hin) as [_ Hthr].
  destruct (scan_email_winner _ msg run_id w w' r Hrun) as (_ & c & Hc & _ & Hscore); [lra |].
  cbn [EmailScanner.matcher] in Hc.
  assert (Hcp : In (fst (fst c)) ps).
  { rewrite <- (init_keeps_order ps m Em). apply in_map with (f := fun c => fst (fst c)).
    exact Hc. }
  destruct (Hps _ Hcp) as [Hnone _].
  destruct (entry_score_columns c msg (extracted_assets r)) as (col & H0 & _ & Hsum & Hcol).
  assert (Hzero : ~ 0 < col).
  { intro Hpos. destruct (Hcol Hpos) as (expected & asset & Hexp & _ & Hm).
    rewrite Hexp in Hnone. destruct expected as [| e es]; [| discriminate Hnone].
    unfold PatternMatcher.matched_cols in Hm. cbn in Hm. lia. }
  rewrite Hscore, Hsum in Hle.
  destruct (sender_hit c msg); destruct (subject_hit c msg);
    destruct (format_hit c (extracted_assets r)); lra.
Qed.

End HighThreshold.

Lemma catalog_without_columns_is_never_auto_processed_witness :
  exists ps self r w',
    RunScan.load_patterns (Some [acme_object]) = Eff.Return ps /\
    RunScan.scanner ps "/tmp/extracts" = Some self /\
    EmailScanner.scan_email probe_fails_env self message_D "es-1" tt = (Eff.Return r, w') /\
    route_action r <> "auto_process".
Proof.
  destruct (RunScan.load_patterns (Some [acme_object])) as [ps | e] eqn:Hload;
    [| discriminate Hload].
  destruct (RunScan.scanner ps "/tmp/extracts") as [self |] eqn:Hself.
  2: { vm_compute in Hload. injection Hload as <-. vm_compute in Hself. discriminate Hself. }
  destruct (catalog_without_columns_is_never_auto_processed unit probe_fails_env
              [acme_object] ps "/tmp/extracts" self message_D "es-1" tt Hload Hself)
    as (r & w' & H).
  { constructor; [| constructor]. split; [reflexivity | reflexivity]. }
  exists ps, self, r, w'. split; [reflexivity |]. split; [exact Hself | exact H].
Defined.

(** ** The extension of a saved file *)

Lemma rfind_dot_found (l : list ascii) :
  forall (k j : nat) (found : option nat),
    Py.rfind_dot l k found = Some j ->
    (found = Some j /\ ~ In "."%char l) \/
    (exists a e, l = (a ++ "."%char :: e)%list /\ j = k + List.length a /\ ~ In "."%char e).
Proof.
  induction l as [| x l IH]; intros k j found H; cbn [Py.rfind_dot] in H.
  - left. split; [exact H | intros []].
  - destruct (IH _ _ _ H) as [[Hf Hl] | (a & e & -> & -> & He)].
    + destruct (Ascii.eqb x "."%char) eqn:E.
      * apply Ascii.eqb_eq in E. subst x. injection Hf as <-. right.
        exists [], l. cbn. repeat split; [lia | exact Hl].
      * left. split; [exact Hf |]. intros [-> | Hin]; [| contradiction].
        rewrite Ascii.eqb_refl in E. discriminate.
    + right. exists (x :: a), e. cbn. repeat split; [lia | exact He].
Qed.

(** A name with a suffix is a non-empty stem, a dot and a non-empty end
    without a dot. *)
Lemma cut_parts (name : string) (i : nat) :
  GmailClient.cut name = Some i ->
  exists a e,
    name = a ++ "." ++ e /\ a <> "" /\ e <> "" /\ ~ In "."%char (Py.chars e) /\
    GmailClient.suffix name = "." ++ e.
Proof.
  unfold GmailClient.cut. intro H.
  destruct (Py.rfind_dot (Py.chars name) 0 None) as [j |] eqn:Ej; [| discriminate].
  destruct ((0 <? j)%nat && (j <? List.length (Py.chars name) - 1)%nat) eqn:Eb; [| discriminate].
  injection H as <-. apply andb_true_iff in Eb. destruct Eb as [H0 H1].
  apply Nat.ltb_lt in H0, H1.
  destruct (rfind_dot_found _ _ _ _ Ej) as [[Hf _] | (a & e & Hl & Hj & He)]; [discriminate |].
  cbn [Nat.add] in Hj. subst j.
  assert (Hname : name = Py.str a ++ "." ++ Py.str e).
  { rewrite <- (str_chars name), Hl, str_app. reflexivity. }
  assert (Ha : Py.str a <> "") by (destruct a; [cbn in H0; lia | discriminate]).
  assert (He' : Py.str e <> "").
  { rewrite Hl, length_app in H1. cbn [List.length] in H1.
    destruct e; [cbn [List.length] in H1; lia | discriminate]. }
  assert (Hdot : ~ In "."%char (Py.chars (Py.str e))) by (rewrite chars_str; exact He).
  exists (Py.str a), (Py.str e). split; [exact Hname |]. split; [exact Ha |].
  split; [exact He' |]. split; [exact Hdot |].
  rewrite Hname. apply (stem_suffix_last_dot _ _ Ha He' Hdot).
Qed.

Lemma split_on_plain (c : ascii) (l cur : list ascii) :
  ~ In c l -> Py.split_on c l cur = [(rev cur ++ l)%list].
Proof.
  revert cur. induction l as [| x l IH]; intros cur Hl; cbn [Py.split_on].
  - rewrite app_nil_r. reflexivity.
  - destruct (Ascii.eqb x c) eqn:E.
    + apply Ascii.eqb_eq in E. subst x. exfalso. apply Hl. left. reflexivity.
    + rewrite IH by (intro H; apply Hl; right; exact H).
      cbn [rev]. rewrite <- app_assoc. reflexivity.
Qed.

Lemma split_on_app (c : ascii) (l1 l2 : list ascii) :
  forall cur, exists parts,
    Py.split_on c (l1 ++ c :: l2) cur = (parts ++ Py.split_on c l2 [])%list.
Proof.
  induction l1 as [| x l1 IH]; intro cur; cbn [app Py.split_on].
  - rewrite Ascii.eqb_refl. exists [rev cur]. reflexivity.
  - destruct (Ascii.eqb x c).
    + destruct (IH []) as (parts & ->). exists (rev cur :: parts). reflexivity.
    + apply IH.
Qed.

Lemma path_name_plain (f : string) :
  ~ In "/"%char (Py.chars f) -> Py.is_real_part (Py.chars f) = true ->
  Py.path_name f = Py.chars f.
Proof.
  intros Hsep Hreal. unfold Py.path_name. rewrite split_on_plain by exact Hsep.
  cbn [rev app filter]. rewrite Hreal. reflexivity.
Qed.

Lemma path_name_join (dir name : string) :
  ~ In "/"%char (Py.chars name) -> Py.is_real_part (Py.chars name) = true ->
  Py.path_name (dir ++ "/" ++ name) = Py.chars name.
Proof.
  intros Hsep Hreal. unfold Py.path_name. rewrite !chars_append.
  change (Py.chars "/") with ["/"%char]. cbn [app].
  destruct (split_on_app "/"%char (Py.chars dir) (Py.chars name) []) as (parts & ->).
  rewrite split_on_plain by exact Hsep. cbn [rev app].
  rewrite filter_app. cbn [filter]. rewrite Hreal. apply last_last.
Qed.

Lemma path_suffix_of_name (s : string) :
  Py.path_suffix s = GmailClient.suffix (Py.str (Py.path_name s)).
Proof.
  unfold Py.path_suffix, GmailClient.suffix, GmailClient.cut. rewrite chars_str.
  destruct (Py.rfind_dot (Py.path_name s) 0 None) as [i |]; [| reflexivity].
  destruct ((0 <? i)%nat && (i <? List.length (Py.path_name s) - 1)%nat); reflexivity.
Qed.

Lemma lower_letter_is_alnum (c : ascii) :
  Py.is_lower (Py.lower_char c) = true -> GmailClient.is_alnum c = true.
Proof. destruct c as [[] [] [] [] [] [] [] []]; vm_compute; intro H; congruence. Qed.

Lemma safe_char_alnum (c : ascii) : GmailClient.is_alnum c = true -> GmailClient.safe_char c = c.
Proof. intro H. unfold GmailClient.safe_char. rewrite H. reflexivity. Qed.

(** The suffix of a data file is made of letters. *)
Lemma data_suffix_letters (e : string) :
  dict_get (Py.lower ("." ++ e)) EmailClassifier.DATA_EXTENSIONS <> @None Q ->
  Forall (fun c => GmailClient.is_alnum c = true) (Py.chars e).
Proof.
  intro H.
  assert (Hall : Forall (fun c => Py.is_lower c = true) (Py.chars (Py.lower e))).
  { unfold dict_get, EmailClassifier.DATA_EXTENSIONS in H. cbn [find fst snd] in H.
    change (Py.lower ("." ++ e)) with ("." ++ Py.lower e) in H.
    repeat match type of H with
           | context [String.eqb ?a ?b] =>
               let E := fresh in
               destruct (String.eqb a b) eqn:E;
               [apply String.eqb_eq in E; injection E as E; rewrite <- E; repeat constructor |]
           end.
    congruence. }
  unfold Py.lower in Hall. rewrite chars_str in Hall.
  apply Forall_forall. intros c Hin. apply lower_letter_is_alnum.
  rewrite Forall_forall in Hall. apply Hall. apply in_map. exact Hin.
Qed.

Section SavedSuffix.

Import Eff.

Variable Data : Type.

(** Every name that the duplicate loop tries ends as the first one does. *)
Lemma free_path_suffix (output_dir : string) (files : GmailClient.listing Data) (e : string)
    (He : e <> "") (Hdot : ~ In "."%char (Py.chars e)) (fuel : nat) :
  forall (a : string) (counter : nat) (q : GmailClient.path),
    a <> "" -> ~ In "/"%char (Py.chars a) ->
    GmailClient.free_path fuel output_dir files (Some (a ++ "." ++ e)) counter = Some q ->
    exists a', a' <> "" /\ ~ In "/"%char (Py.chars a') /\ q = Some (a' ++ "." ++ e).
Proof.
  induction fuel as [| k IH]; intros a counter q Ha Hsep H; cbn [GmailClient.free_path] in H;
    [discriminate |].
  destruct (GmailClient.exists_ files (Some (a ++ "." ++ e))).
  - rewrite next_path_child in H. cbn [GmailClient.name_of] in H.
    destruct (stem_suffix_last_dot a e Ha He Hdot) as [Hs Hx]. rewrite Hs, Hx in H.
    replace (a ++ "_" ++ Py.str_of_nat counter ++ "." ++ e)
      with ((a ++ "_" ++ Py.str_of_nat counter) ++ "." ++ e) in H
      by (rewrite !append_assoc; reflexivity).
    apply (IH _ _ _ (append_nonempty _ _ Ha)) in H; [exact H |].
    rewrite !chars_append. intro Hin.
    repeat (apply in_app_or in Hin; destruct Hin as [Hin | Hin]).
    + contradiction.
    + destruct Hin as [Hin | []]. discriminate Hin.
    + pose proof (str_of_nat_digits counter) as Hd. rewrite Forall_forall in Hd.
      specialize (Hd _ Hin). vm_compute in Hd. discriminate.
  - injection H as <-. exists a. repeat split; assumption.
Qed.

(** X20.  Under the name of a data-file attachment without a [/], the
    saved file keeps the attachment's extension, whatever the directory
    holds: the header probe of [_extract_columns] is chosen by the
    extension that made the attachment a data file. *)
Theorem saved_file_keeps_extension
    (download : string -> EmailAttachment -> result Data)
    (message_id : string) (attachment : EmailAttachment) (output_dir : string)
    (files files' : GmailClient.listing Data) (fuel : nat) (name : string)
    (Hsep : ~ In "/"%char (Py.chars (att_filename attachment)))
    (Hdata : EmailClassifier.is_data_file attachment = true)
    (Hsave : GmailClient.save_attachment fuel download message_id attachment output_dir files
             = Some (Return (Some name), files')) :
  Py.path_suffix (GmailClient.path_str output_dir (Some name))
  = Py.path_suffix (att_filename attachment).
Proof.
  set (f := att_filename attachment) in *.
  assert (Hsfx : dict_get (Py.lower (Py.path_suffix f)) EmailClassifier.DATA_EXTENSIONS
                 <> @None Q).
  { unfold EmailClassifier.is_data_file, EmailClassifier.data_weight in Hdata. fold f in Hdata.
    destruct (dict_get _ _); [discriminate | discriminate Hdata]. }
  assert (Hne : Py.path_suffix f <> "").
  { intro H0. rewrite H0 in Hsfx. apply Hsfx. reflexivity. }
  assert (Hreal : Py.is_real_part (Py.chars f) = true).
  { destruct (Py.is_real_part (Py.chars f)) eqn:E; [reflexivity |]. exfalso. apply Hne.
    unfold Py.path_suffix, Py.path_name. rewrite split_on_plain by exact Hsep.
    cbn [rev app filter]. rewrite E. reflexivity. }
  pose proof (path_suffix_of_name f) as Hps.
  rewrite (path_name_plain f Hsep Hreal), str_chars in Hps.
  destruct (GmailClient.cut f) as [i |] eqn:Ecut.
  2: { exfalso. apply Hne. rewrite Hps. unfold GmailClient.suffix. rewrite Ecut. reflexivity. }
  destruct (cut_parts f i Ecut) as (a & e & Hf & Ha & He & Hdot & Hsuffix).
  rewrite Hps, Hsuffix in Hsfx |- *.
  pose proof (data_suffix_letters e Hsfx) as Hletters.
  assert (Hsafe : GmailClient.safe_filename f = GmailClient.safe_filename a ++ "." ++ e).
  { rewrite Hf at 1. unfold GmailClient.safe_filename. rewrite !chars_append, !map_app, !str_app.
    change (Py.str (map GmailClient.safe_char (Py.chars "."))) with ".".
    f_equal. f_equal. rewrite <- (str_chars e) at 2. f_equal.
    clear - Hletters. induction Hletters as [| c l Hc _ IH]; [reflexivity |].
    cbn [map]. rewrite (safe_char_alnum c Hc), IH. reflexivity. }
  assert (Hsa : GmailClient.safe_filename a <> "").
  { unfold GmailClient.safe_filename. destruct a; [congruence | discriminate]. }
  unfold GmailClient.save_attachment in Hsave. fold f in Hsave. rewrite Hsafe in Hsave.
  assert (Hjoin : GmailClient.join (GmailClient.safe_filename a ++ "." ++ e)
                  = Some (GmailClient.safe_filename a ++ "." ++ e)).
  { unfold GmailClient.join. rewrite real_part_long; [reflexivity |].
    rewrite length_chars, !length_append.
    destruct (GmailClient.safe_filename a); [congruence |].
    destruct e; [congruence |]. cbn [String.length]. lia. }
  rewrite Hjoin in Hsave.
  destruct (GmailClient.free_path fuel output_dir files _ 1) as [q |] eqn:Eq; [| discriminate].
  destruct (free_path_suffix output_dir files e He Hdot fuel _ 1 q Hsa) as (a' & Ha' & Hsa' & Hq).
  { intro Hin. apply (safe_filename_no_sep a). exact Hin. }
  { exact Eq. }
  subst q.
  assert (Hname : name = a' ++ "." ++ e).
  { destruct (download message_id attachment) as [data | err]; [| discriminate Hsave].
    cbn [GmailClient.write_bytes] in Hsave.
    destruct (String.eqb (a' ++ "." ++ e) ".."); cbn in Hsave; [discriminate |].
    injection Hsave as <- _. reflexivity. }
  subst name. cbn [GmailClient.path_str].
  assert (Hreal' : Py.is_real_part (Py.chars (a' ++ "." ++ e)) = true).
  { apply real_part_long. rewrite length_chars, !length_append.
    destruct a'; [congruence |]. destruct e; [congruence |]. cbn [String.length]. lia. }
  assert (Hsep' : ~ In "/"%char (Py.chars (a' ++ "." ++ e))).
  { rewrite !chars_append. intro Hin.
    repeat (apply in_app_or in Hin; destruct Hin as [Hin | Hin]).
    - contradiction.
    - destruct Hin as [Hin | []]. discriminate Hin.
    - rewrite Forall_forall in Hletters. specialize (Hletters _ Hin).
      vm_compute in Hletters. discriminate. }
  rewrite path_suffix_of_name, (path_name_join _ _ Hsep' Hreal'), str_chars.
  apply (stem_suffix_last_dot a' e Ha' He Hdot).
Qed.

End SavedSuffix.

Lemma saved_file_keeps_extension_witness :
  Py.path_suffix (GmailClient.path_str "/tmp/extracts/es-1" (Some "report_1.csv"))
  = Py.path_suffix (att_filename report_csv).
Proof.
  apply (saved_file_keeps_extension string (fun _ _ => Eff.Return "a,b") "msg-7" report_csv
           "/tmp/extracts/es-1" [("report.csv", "u,v")]
           [("report_1.csv", "a,b"); ("report.csv", "u,v")] 4 "report_1.csv").
  - vm_compute. intuition discriminate.
  - reflexivity.
  - reflexivity.
Defined.

(** A filename that ends in a separator is a data file by the name before
    it, and is saved under a name whose extension no header probe knows. *)
Example separator_changes_extension :
  EmailClassifier.is_data_file (mkEmailAttachment "a.csv/" "text/csv" 512 "att-8" None) = true /\
  GmailClient.save_attachment 3 (fun _ _ => Eff.Return "a,b") "msg-8"
    (mkEmailAttachment "a.csv/" "text/csv" 512 "att-8" None) "/tmp/extracts/es-1" []
  = Some (Eff.Return (Some "a.csv_"), [("a.csv_", "a,b")]) /\
  Py.path_suffix "/tmp/extracts/es-1/a.csv_" = ".csv_".
Proof. repeat split. Qed.
